(** * The script library of the Python Script widget

    A shallow embedding of the script-library part of
    [Orange/widgets/data/owpythonscript.py]: the [Script] class, the
    function [uniqueify_filename] and the methods of [OWPythonScript] that
    add, remove, reconcile and cache scripts.

    Python objects live in stores indexed by their identity, the file
    system is a finite map from paths to contents together with the set of
    existing directories, and a method is a state transformer that either
    returns a value or raises a Python exception. *)

From Stdlib Require Import ZArith String Ascii List DecimalString DecimalNat Lia.
From stdpp Require Import gmap strings list functions.

Open Scope string_scope.

(** ** Exceptions and results *)

(** The Python exceptions the modelled code can raise.  [FieldError] stands
    for whichever of ValueError, IndexError, KeyError, AttributeError or
    TypeError [str.format] raises on a replacement field other than the
    plain [{}].  The last two are not Python exceptions: [LoopBound] marks
    the bound of the model's [while True] loop (never reached, see
    [uniqueify_filename_within_bound]) and [Unmodelled] a call the model of the file
    system does not cover. *)
Inductive Exn :=
| ValueError | IndexError | KeyError | FieldError | TypeError | StopIteration
| FileNotFoundError | IsADirectoryError | LoopBound | Unmodelled.

Inductive Res (A : Type) :=
| Ok (a : A)
| Raise (e : Exn).
Arguments Ok {A} a.
Arguments Raise {A} e.

(** ** Python strings *)

Module Py.

(** [s.endswith(suffix)] *)
Definition endswith (s suffix : string) : bool :=
  let n := String.length s in
  let m := String.length suffix in
  (m <=? n)%nat && String.eqb (substring (n - m) m s) suffix.

(** [s[:-k]] for a positive [k] *)
Definition drop_last (k : nat) (s : string) : string :=
  substring 0 (String.length s - k) s.

(** [str(i)] for a natural number [i] *)
Definition str (i : nat) : string :=
  NilZero.string_of_uint (Nat.to_uint i).

Definition lbrace : ascii := "{".
Definition rbrace : ascii := "}".

Definition literal (c : ascii) (r : Res string) : Res string :=
  match r with Ok s => Ok (String c s) | Raise e => Raise e end.

Definition replaced (a : string) (r : Res string) : Res string :=
  match r with Ok s => Ok (a ++ s) | Raise e => Raise e end.

(** [t.format(arg)] with the single positional argument [arg], for a
    template [t] that ends in a plain [{}] field, read from left to right
    as CPython does: a doubled brace is a literal brace, a lone closing
    brace is a ValueError, [{}] takes the next positional argument (there
    is only one).  Any other replacement field makes the call raise: a
    named field finds no keyword argument, a numbered one clashes with
    the automatic numbering of the final [{}], an automatically numbered
    one leaves no argument for the final [{}], and a field that swallows
    the final [{}] is never closed. *)
Fixpoint format_from (auto : nat) (t arg : string) : Res string :=
  match t with
  | EmptyString => Ok EmptyString
  | String c rest =>
      if Ascii.eqb c lbrace then
        match rest with
        | EmptyString => Raise ValueError
        | String c' rest' =>
            if Ascii.eqb c' lbrace then literal lbrace (format_from auto rest' arg)
            else if Ascii.eqb c' rbrace then
              match auto with
              | 0 => replaced arg (format_from 1 rest' arg)
              | S _ => Raise IndexError
              end
            else Raise FieldError
        end
      else if Ascii.eqb c rbrace then
        match rest with
        | EmptyString => Raise ValueError
        | String c' rest' =>
            if Ascii.eqb c' rbrace then literal rbrace (format_from auto rest' arg)
            else Raise ValueError
        end
      else literal c (format_from auto rest arg)
  end.

Definition format (t arg : string) : Res string := format_from 0 t arg.

(** The literal text of a template without replacement fields: doubled
    braces stand for single ones; there is none if a brace stands alone. *)
Fixpoint unescape (t : string) : option string :=
  match t with
  | EmptyString => Some EmptyString
  | String c rest =>
      if Ascii.eqb c lbrace then
        match rest with
        | EmptyString => None
        | String c' rest' =>
            if Ascii.eqb c' lbrace then option_map (String lbrace) (unescape rest')
            else None
        end
      else if Ascii.eqb c rbrace then
        match rest with
        | EmptyString => None
        | String c' rest' =>
            if Ascii.eqb c' rbrace then option_map (String rbrace) (unescape rest')
            else None
        end
      else option_map (String c) (unescape rest)
  end.

(** [c not in s], for the two brace characters *)
Fixpoint brace_free (s : string) : bool :=
  match s with
  | EmptyString => true
  | String c rest =>
      negb (Ascii.eqb c lbrace) && negb (Ascii.eqb c rbrace) && brace_free rest
  end.

End Py.

(** ** Script objects *)

(** Identity of a Python object. *)
Abbreviation ref := nat.

(** The attributes of a [Script] instance. *)
Record Script := mkScript {
  _script : string;
  _filename : string;
  fullname : option string;
  flags : Z
}.

Definition Modified : Z := 1.
Definition MissingFromFilesystem : Z := 2.

Definition DEFAULT_FILENAME : string := "scratch".

(** ** uniqueify_filename *)

(** The first loop: the filenames of the scripts of [model] that are not
    [curr_script].  [Script] defines no [__eq__], so [==] is identity;
    [curr_script] is [None] when the caller passes something that is not a
    Script ([-1] in [addScript], [None] in [_handleScriptSaved]). *)
Fixpoint script_names (scripts : ref -> Script) (model : list ref)
    (curr_script : option ref) : list string :=
  match model with
  | [] => []
  | script :: model' =>
      if decide (Some script = curr_script)
      then script_names scripts model' curr_script
      else _filename (scripts script) :: script_names scripts model' curr_script
  end.

Definition py_suffix : string := ".py".

(** [template.format('_' + str(i)) + '.py'] *)
Definition numbered (template : string) (i : nat) : Res string :=
  match Py.format template ("_" ++ Py.str i) with
  | Ok s => Ok (s ++ py_suffix)
  | Raise e => Raise e
  end.

(** The [while True] loop, started at [i] and bounded by [fuel] rounds. *)
Fixpoint while_True (names : list string) (template : string)
    (i fuel : nat) : Res string :=
  match fuel with
  | 0 => Raise LoopBound
  | S fuel' =>
      match numbered template i with
      | Raise e => Raise e
      | Ok name =>
          if bool_decide (name ∉ names) then Ok name
          else while_True names template (S i) fuel'
      end
  end.

Definition stem_of (filename : string) : string :=
  let stem :=
    if Py.endswith filename py_suffix then Py.drop_last 3 filename else filename in
  if String.eqb stem EmptyString then DEFAULT_FILENAME else stem.

Definition uniqueify_filename (scripts : ref -> Script) (model : list ref)
    (curr_script : option ref) (filename : string) : Res string :=
  let names := script_names scripts model curr_script in
  let stem := stem_of filename in
  let template := stem ++ "{}" in
  match Py.format template EmptyString with
  | Raise e => Raise e
  | Ok s =>
      let name := s ++ py_suffix in
      if bool_decide (name ∈ names)
      then while_True names template 2 (S (length names))
      else Ok name
  end.

(** ** The process and the widget *)

(** The signals of [ScriptStateManager]. *)
Inductive Signal :=
| scriptSaved (filename text : string)
| scriptRemoved (filename : string)
| scriptRenamed (old_filename new_filename : string).

(** What the widget sets on a [QTextDocument] it builds. *)
Record QTextDocument := mkDoc {
  plainText : string;
  isModified : bool;
  font : string * Z
}.

(** The state the modelled methods read and write.  The first seven
    fields are shared by the whole process: the [Script] and
    [QTextDocument] objects by identity (with the next free identity), the
    file system (regular files by path, and the existing directories), and
    the signals emitted on [script_state_manager], oldest first.  The last
    four belong to one [OWPythonScript] instance; [selected_row] is the row
    chosen by the last [select_row]. *)
Record State := mkState {
  scripts : ref -> Script;
  next_script : ref;
  documents : ref -> QTextDocument;
  next_document : ref;
  files : gmap string string;
  dirs : gset string;
  emitted : list Signal;
  libraryList : list ref;
  _cachedDocuments : gmap ref ref;
  selected_row : option nat;
  editor_text : string
}.

Definition with_scripts (f : ref -> Script) (n : ref) (st : State) : State :=
  mkState f n (documents st) (next_document st) (files st) (dirs st)
    (emitted st) (libraryList st) (_cachedDocuments st) (selected_row st)
    (editor_text st).

Definition with_documents (f : ref -> QTextDocument) (n : ref)
    (c : gmap ref ref) (st : State) : State :=
  mkState (scripts st) (next_script st) f n (files st) (dirs st)
    (emitted st) (libraryList st) c (selected_row st) (editor_text st).

Definition with_files (fs : gmap string string) (st : State) : State :=
  mkState (scripts st) (next_script st) (documents st) (next_document st)
    fs (dirs st) (emitted st) (libraryList st) (_cachedDocuments st)
    (selected_row st) (editor_text st).

Definition with_emitted (e : list Signal) (st : State) : State :=
  mkState (scripts st) (next_script st) (documents st) (next_document st)
    (files st) (dirs st) e (libraryList st) (_cachedDocuments st)
    (selected_row st) (editor_text st).

Definition with_libraryList (l : list ref) (st : State) : State :=
  mkState (scripts st) (next_script st) (documents st) (next_document st)
    (files st) (dirs st) (emitted st) l (_cachedDocuments st)
    (selected_row st) (editor_text st).

Definition with_selected_row (r : option nat) (st : State) : State :=
  mkState (scripts st) (next_script st) (documents st) (next_document st)
    (files st) (dirs st) (emitted st) (libraryList st) (_cachedDocuments st)
    r (editor_text st).

(** ** The monad of methods *)

Definition M (A : Type) : Type := State -> Res A * State.

Definition ret {A} (a : A) : M A := fun st => (Ok a, st).

Definition raise {A} (e : Exn) : M A := fun st => (Raise e, st).

Definition bind {A B} (m : M A) (k : A -> M B) : M B :=
  fun st =>
    match m st with
    | (Ok a, st') => k a st'
    | (Raise e, st') => (Raise e, st')
    end.

Definition get : M State := fun st => (Ok st, st).

Definition modify (f : State -> State) : M unit := fun st => (Ok tt, f st).

Definition lift {A} (r : Res A) : M A := fun st => (r, st).

Declare Scope py_scope.
Delimit Scope py_scope with py.
Notation "x <- m ;; k" := (bind m (fun x => k))
  (at level 100, m at level 99, right associativity) : py_scope.
Notation "m ;; k" := (bind m (fun _ => k))
  (at level 100, right associativity) : py_scope.
Open Scope py_scope.

(** Attribute reads and writes on the Script object [self]. *)
Definition attr {A} (self : ref) (f : Script -> A) : M A :=
  fun st => (Ok (f (scripts st self)), st).

Definition set_attrs (self : ref) (f : Script -> Script) : M unit :=
  modify (fun st =>
    with_scripts (<[self := f (scripts st self)]> (scripts st)) (next_script st) st).

Definition put_script (text : string) (s : Script) : Script :=
  mkScript text (_filename s) (fullname s) (flags s).
Definition put_filename (name : string) (s : Script) : Script :=
  mkScript (_script s) name (fullname s) (flags s).
Definition put_fullname (path : string) (s : Script) : Script :=
  mkScript (_script s) (_filename s) (Some path) (flags s).
Definition put_flags (fl : Z) (s : Script) : Script :=
  mkScript (_script s) (_filename s) (fullname s) fl.

(** Truth value of a Python integer. *)
Definition truthy (z : Z) : bool := negb (z =? 0)%Z.

(** [signal.emit(...)]: the signal is recorded.  The slots that Qt then
    calls in the widgets connected to it are the [_handle...] methods below;
    they are run on their own. *)
Definition emit (sig : Signal) : M unit :=
  modify (fun st => with_emitted (emitted st ++ [sig]) st).

(** ** Paths and the file system (POSIX) *)

Definition sep : ascii := "/".

(** [os.path.join(a, b)] *)
Definition os_path_join (a b : string) : string :=
  match b with
  | String c _ =>
      if Ascii.eqb c sep then b
      else if String.eqb a EmptyString || Py.endswith a "/" then a ++ b
      else a ++ "/" ++ b
  | EmptyString =>
      if String.eqb a EmptyString || Py.endswith a "/" then a else a ++ "/"
  end.

(** [p[:p.rfind('/') + 1]] *)
Fixpoint upto_last_sep (p : string) : string :=
  match p with
  | EmptyString => EmptyString
  | String c rest =>
      match upto_last_sep rest with
      | EmptyString =>
          if Ascii.eqb c sep then String c EmptyString else EmptyString
      | h => String c h
      end
  end.

(** [p.rstrip('/')] *)
Fixpoint rstrip_sep (p : string) : string :=
  match p with
  | EmptyString => EmptyString
  | String c rest =>
      match rstrip_sep rest with
      | EmptyString =>
          if Ascii.eqb c sep then EmptyString else String c EmptyString
      | r => String c r
      end
  end.

(** [os.path.dirname(p)]: the directory a path lies in. *)
Definition dirname (p : string) : string :=
  let head := upto_last_sep p in
  match rstrip_sep head with
  | EmptyString => head
  | stripped => stripped
  end.

Definition is_file (st : State) (p : string) : bool :=
  bool_decide (is_Some (files st !! p)).

Definition is_dir (st : State) (p : string) : bool :=
  bool_decide (p ∈ dirs st) || bool_decide (rstrip_sep p ∈ dirs st).

Definition path_exists (st : State) (p : string) : bool :=
  is_file st p || is_dir st p.

(** [os.path.exists(p)] for a path that is a string. *)
Definition os_path_exists (p : string) : M bool :=
  fun st => (Ok (path_exists st p), st).

(** [with open(p, 'w') as f: f.write(text)] *)
Definition open_write (p text : string) : M unit :=
  fun st =>
    if is_dir st p then (Raise IsADirectoryError, st)
    else if bool_decide (dirname p ∈ dirs st)
    then (Ok tt, with_files (<[p := text]> (files st)) st)
    else (Raise FileNotFoundError, st).

(** [with open(p) as f: f.read()] *)
Definition open_read (p : string) : M string :=
  fun st =>
    match files st !! p with
    | Some text => (Ok text, st)
    | None =>
        if is_dir st p then (Raise IsADirectoryError, st)
        else (Raise FileNotFoundError, st)
    end.

(** [os.rename(src, dst)] of a regular file; the widget renames nothing
    else, and renaming a directory is left out of the model
    ([Unmodelled]). *)
Definition os_rename (src dst : string) : M unit :=
  fun st =>
    match files st !! src with
    | Some text =>
        if is_dir st dst then (Raise IsADirectoryError, st)
        else if bool_decide (dirname dst ∈ dirs st)
        then (Ok tt, with_files (<[dst := text]> (delete src (files st))) st)
        else (Raise FileNotFoundError, st)
    | None =>
        if is_dir st src then (Raise Unmodelled, st)
        else (Raise FileNotFoundError, st)
    end.

(** [os.remove(p)] *)
Definition os_remove (p : string) : M unit :=
  fun st =>
    match files st !! p with
    | Some _ => (Ok tt, with_files (delete p (files st)) st)
    | None =>
        if is_dir st p then (Raise IsADirectoryError, st)
        else (Raise FileNotFoundError, st)
    end.

Section Widget.

(** [config.data_dir()], which lies outside this module. *)
Variable data_dir : string.

Definition SCRIPTS_FOLDER_PATH : string :=
  os_path_join data_dir "python_script_library/".

(** [os.path.join(SCRIPTS_FOLDER_PATH, filename)] *)
Definition library_path (filename : string) : string :=
  os_path_join SCRIPTS_FOLDER_PATH filename.

(** *** class Script *)

Definition _save_script (self : ref) : M unit :=
  filename <- attr self _filename ;;
  set_attrs self (put_fullname (library_path filename)) ;;
  text <- attr self _script ;;
  open_write (library_path filename) text ;;
  fl <- attr self flags ;;
  set_attrs self
    (put_flags (Z.land fl (Z.lnot (Z.lor Modified MissingFromFilesystem)))).

(** [Script(script, filename, flags)]: a new object, saved at once unless
    it is flagged as missing from the file system. *)
Definition Script__init__ (script filename : string) (fl : Z) : M ref :=
  st <- get ;;
  let self := next_script st in
  modify (with_scripts (<[self := mkScript script filename None fl]> (scripts st))
                       (S self)) ;;
  (if truthy (Z.land fl MissingFromFilesystem) then ret tt
   else _save_script self) ;;
  ret self.

(** The setter of the property [script]. *)
Definition set_script (self : ref) (script : string) : M unit :=
  set_attrs self (put_script script) ;;
  _save_script self.

(** The setter of the property [filename]. *)
Definition set_filename (self : ref) (filename : string) : M unit :=
  old_filename <- attr self _filename ;;
  if String.eqb old_filename filename then ret tt
  else
    set_attrs self (put_filename filename) ;;
    fl <- attr self flags ;;
    if truthy (Z.land fl MissingFromFilesystem) then ret tt
    else
      old_fullname <- attr self fullname ;;
      set_attrs self (put_fullname (library_path filename)) ;;
      match old_fullname with
      | None => raise TypeError
      | Some old =>
          found <- os_path_exists old ;;
          if found then
            os_rename old (library_path filename) ;;
            emit (scriptRenamed old_filename filename)
          else ret tt
      end.

Definition reload (self : ref) : M bool :=
  path <- attr self fullname ;;
  match path with
  | None => raise TypeError
  | Some p =>
      found <- os_path_exists p ;;
      if negb found then
        set_attrs self (put_flags MissingFromFilesystem) ;;
        ret false
      else
        text <- open_read p ;;
        set_attrs self (put_script text) ;;
        ret true
  end.

Definition refresh (self : ref) (new_script : string) (set_modified : bool)
    : M unit :=
  text <- attr self _script ;;
  if negb (String.eqb text new_script) then
    (if set_modified then
       fl <- attr self flags ;;
       set_attrs self (put_flags (Z.lor fl Modified))
     else ret tt) ;;
    set_attrs self (put_script new_script)
  else
    fl <- attr self flags ;;
    set_attrs self (put_flags (Z.land fl (Z.lnot Modified))).

(** *** class OWPythonScript *)

(** Position of index [i] in a Python list of length [n]. *)
Definition py_index (n : nat) (i : Z) : option nat :=
  if ((0 <=? i) && (i <? Z.of_nat n))%Z then Some (Z.to_nat i)
  else if ((- Z.of_nat n <=? i) && (i <? 0))%Z then Some (Z.to_nat (Z.of_nat n + i))
  else None.

(** [self.libraryList[index]] *)
Definition getitem (index : Z) : M ref :=
  st <- get ;;
  match py_index (length (libraryList st)) index with
  | Some k =>
      match libraryList st !! k with
      | Some script => ret script
      | None => raise IndexError
      end
  | None => raise IndexError
  end.

(** [del self.libraryList[index]] *)
Definition delitem (index : Z) : M unit :=
  st <- get ;;
  match py_index (length (libraryList st)) index with
  | Some k => modify (with_libraryList (delete k (libraryList st)))
  | None => raise IndexError
  end.

(** [l.remove(x)]: the list without the first occurrence of [x]. *)
Fixpoint list_remove (x : ref) (l : list ref) : option (list ref) :=
  match l with
  | [] => None
  | y :: l' =>
      if decide (y = x) then Some l'
      else match list_remove x l' with
           | Some r => Some (y :: r)
           | None => None
           end
  end.

(** [select_row(self.libraryView, row)]: the index of a row outside the
    model is invalid, and selecting it clears the selection.  What Qt does
    on its own to the selection when rows come and go, and the slot
    [onSelectedScriptChanged] it calls, are not followed. *)
Definition select_row (row : Z) : M unit :=
  modify (fun st =>
    with_selected_row
      (if ((0 <=? row) && (row <? Z.of_nat (length (libraryList st))))%Z
       then Some (Z.to_nat row) else None) st).

Definition addScript (text : option string) (filename : string) : M unit :=
  st <- get ;;
  let text := match text with None => editor_text st | Some t => t end in
  filename <- lift (uniqueify_filename (scripts st) (libraryList st) None filename) ;;
  script <- Script__init__ text filename 2 ;;
  modify (fun st => with_libraryList (libraryList st ++ [script]) st).

(** The signal is emitted while this widget is disconnected from it. *)
Definition removeScript (index : Z) : M unit :=
  script <- getitem index ;;
  filename <- attr script _filename ;;
  delitem index ;;
  fl <- attr script flags ;;
  (if negb (truthy (Z.land fl MissingFromFilesystem)) then
     os_remove (library_path filename) ;;
     emit (scriptRemoved filename)
   else ret tt) ;;
  st <- get ;;
  (if (length (libraryList st) =? 0)%nat then addScript None DEFAULT_FILENAME
   else ret tt) ;;
  select_row (Z.max (index - 1) 0).

(** [next(s for s in self.libraryList if s.filename == filename)] *)
Definition next_named (filename : string) : M ref :=
  st <- get ;;
  match find (fun s => String.eqb (_filename (scripts st s)) filename)
             (libraryList st) with
  | Some script => ret script
  | None => raise StopIteration
  end.

Definition _handleScriptRemoved (filename : string) : M unit :=
  script <- next_named filename ;;
  st <- get ;;
  if bool_decide (is_Some (_cachedDocuments st !! script)) then
    fl <- attr script flags ;;
    set_attrs script (put_flags (Z.lor fl MissingFromFilesystem))
  else
    match list_remove script (libraryList st) with
    | None => raise ValueError
    | Some l =>
        modify (with_libraryList l) ;;
        if (length l =? 0)%nat then
          addScript None DEFAULT_FILENAME ;;
          select_row 0
        else ret tt
    end.

Definition defaultFont : string := "Menlo".
Definition defaultFontSize : Z := 13.

(** [documentForScript(script)]; the argument is a Script or a row. *)
Definition documentForScript (script : ref + Z) : M ref :=
  script <- match script with
            | inl s => ret s
            | inr row => getitem row
            end ;;
  st <- get ;;
  (if bool_decide (is_Some (_cachedDocuments st !! script)) then ret tt
   else
     text <- attr script _script ;;
     let doc := next_document st in
     modify (with_documents
               (<[doc := mkDoc text false (defaultFont, defaultFontSize)]> (documents st))
               (S doc)
               (<[script := doc]> (_cachedDocuments st)))) ;;
  st <- get ;;
  match _cachedDocuments st !! script with
  | Some doc => ret doc
  | None => raise KeyError
  end.

End Widget.

(** ** Notions used in the statements *)

(** The exceptions [str.format] raises. *)
Definition format_error (e : Exn) : Prop :=
  e = ValueError \/ e = IndexError \/ e = FieldError.

(** The name [uniqueify_filename] tries in round [i] of its loop. *)
Definition candidate (stem : string) (i : nat) : string :=
  (stem ++ ("_" ++ Py.str i)) ++ py_suffix.

(** The default stem stands in for an empty one. *)
Definition or_default (stem : string) : string :=
  if String.eqb stem EmptyString then DEFAULT_FILENAME else stem.

(** Every listed script is an allocated object, listed once. *)
Definition well_formed (st : State) : Prop :=
  NoDup (libraryList st) /\
  Forall (fun r => r < next_script st) (libraryList st).

(** A method keeps the property [P] of states, whether it returns or
    raises. *)
Definition preserves {A} (P : State -> Prop) (m : M A) : Prop :=
  forall st, P st -> P (snd (m st)).

(** ** Example objects *)

Definition blank_script : Script := mkScript EmptyString EmptyString None 2.

Definition named (filename : string) : Script :=
  mkScript EmptyString filename None 2.

(** Three scripts, named [a.py], [b.py] and [a_2.py]. *)
Definition three_scripts (r : ref) : Script :=
  match r with
  | 0 => named "a.py"
  | 1 => named "b.py"
  | 2 => named "a_2.py"
  | _ => blank_script
  end.

(** A process with the Script objects [objs], the regular files [fs] and
    the directories [ds], and a widget that lists [lib] and shows [text] in
    its editor. *)
Definition process (objs : ref -> Script) (n : ref)
    (fs : gmap string string) (ds : gset string) (lib : list ref)
    (text : string) : State :=
  mkState objs n (fun _ => mkDoc EmptyString false (EmptyString, 0%Z)) 0
    fs ds [] lib ∅ None text.

Definition one_script (s : Script) (r : ref) : Script :=
  match r with 0 => s | _ => blank_script end.

Definition library_dir : string := "/d/python_script_library".
Definition x_py : string := "/d/python_script_library/x.py".

(** A script that was never saved, in an existing scripts folder. *)
Definition st_scratch : State :=
  process (one_script (mkScript "old" "x.py" None 2)) 1 ∅ {[library_dir]} [0]
    "typed".

(** A saved script whose file is in place. *)
Definition st_saved : State :=
  process (one_script (mkScript "1" "x.py" (Some x_py) 0)) 1
    {[x_py := "1"]} {[library_dir]} [0] "typed".

(** A saved script whose file was deleted behind the widget's back. *)
Definition st_deleted : State :=
  process (one_script (mkScript "1" "x.py" (Some x_py) 0)) 1
    ∅ {[library_dir]} [0] "typed".

(** A saved script whose scripts folder is gone altogether. *)
Definition st_no_folder : State :=
  process (one_script (mkScript "1" "x.py" (Some x_py) 0)) 1 ∅ ∅ [0] "typed".

Definition a_py : string := "/d/python_script_library/a.py".
Definition b_py : string := "/d/python_script_library/b.py".

Definition two_scripts (r : ref) : Script :=
  match r with
  | 0 => mkScript "print(1)" "a.py" (Some a_py) 0
  | 1 => mkScript "print(2)" "b.py" (Some b_py) 0
  | _ => blank_script
  end.

(** Two saved scripts; the first one has been opened in the editor, so a
    document is cached for it. *)
Definition st_two : State :=
  mkState two_scripts 2
    (fun _ => mkDoc "print(1)" false ("Menlo", 13%Z)) 1
    {[a_py := "print(1)"; b_py := "print(2)"]} {[library_dir]} []
    [0; 1] {[0 := 0]} (Some 0) "print(1)".

(** Deletion of a file by another program. *)
Definition externally_deleted (p : string) (st : State) : State :=
  with_files (delete p (files st)) st.

(** The scenario of a failed reload: the content of the script saved as
    [1] is set to [2], then another program deletes the file. *)
Definition st_set_then_deleted : State :=
  externally_deleted x_py (snd (set_script "/d" 0 "2" st_saved)).

(** The script saved as [1] is changed to [edited] in memory, which sets its
    modified flag, then another program deletes the file. *)
Definition st_edited_then_deleted : State :=
  externally_deleted x_py (snd (refresh 0 "edited" true st_saved)).

(** * More of the module *)

(** ** Exceptions caught *)

(** [try: body except StopIteration: handler] *)
Definition try_StopIteration {A} (body handler : M A) : M A :=
  fun st =>
    match body st with
    | (Raise StopIteration, st') => handler st'
    | other => other
    end.

Section Reconciliation.

Variable data_dir : string.

(** *** class ScriptItemDelegate *)

(** [setModelData(editor, model, index)]: [text] is the text of the line
    edit and [row] the row of the list the view edits. *)
Definition setModelData (text : string) (row : nat) : M unit :=
  script <- getitem (Z.of_nat row) ;;
  st <- get ;;
  filename <- lift (uniqueify_filename (scripts st) (libraryList st)
                      (Some script) text) ;;
  set_filename data_dir script filename.

(** *** The other slots of [script_state_manager] *)

(** The [try] block of [_handleScriptSaved]; the result tells whether it
    left the method by [return]. *)
Definition _handleScriptSaved_try (filename new_script_text : string) : M bool :=
  name_colliding_script <- next_named filename ;;
  fl <- attr name_colliding_script flags ;;
  if negb (truthy (Z.land fl MissingFromFilesystem)) then
    st <- get ;;
    refresh name_colliding_script new_script_text
      (bool_decide (is_Some (_cachedDocuments st !! name_colliding_script))) ;;
    ret true
  else
    st <- get ;;
    name <- lift (uniqueify_filename (scripts st) (libraryList st) None filename) ;;
    set_filename data_dir name_colliding_script name ;;
    ret false.

Definition _handleScriptSaved (filename new_script_text : string) : M unit :=
  returned <- try_StopIteration
                (_handleScriptSaved_try filename new_script_text)
                (ret false) ;;
  if returned then ret tt
  else
    script <- Script__init__ data_dir new_script_text filename 0 ;;
    modify (fun st => with_libraryList (libraryList st ++ [script]) st).

Definition _handleScriptRenamed (old_filename new_filename : string) : M unit :=
  try_StopIteration
    (script <- next_named old_filename ;;
     set_filename data_dir script new_filename)
    (ret tt).

(** *** Selection and modification *)

(** [selectedScriptIndex()] *)
Definition selectedScriptIndex : M (option nat) :=
  fun st => (Ok (selected_row st), st).

(** [onModificationChanged(modified)] *)
Definition onModificationChanged (modified : bool) : M unit :=
  index <- selectedScriptIndex ;;
  match index with
  | None => ret tt
  | Some i =>
      script <- getitem (Z.of_nat i) ;;
      fl <- attr script flags ;;
      if modified then set_attrs script (put_flags (Z.lor fl Modified))
      else set_attrs script (put_flags (Z.land fl (Z.lnot Modified)))
  end.

End Reconciliation.

(** ** Notions used in the statements, continued *)

(** No two listed scripts carry the same filename. *)
Definition unique_names (st : State) : Prop :=
  forall r1 r2, r1 ∈ libraryList st -> r2 ∈ libraryList st ->
    _filename (scripts st r1) = _filename (scripts st r2) -> r1 = r2.

(** The list of the widget is in order: every script is listed once, under
    a filename of its own. *)
Definition library_ok (st : State) : Prop :=
  well_formed st /\ unique_names st.

(** Two states with the same list, the same allocation of scripts and the
    same filenames. *)
Definition same_library (st st' : State) : Prop :=
  libraryList st' = libraryList st /\
  next_script st' = next_script st /\
  forall r, _filename (scripts st' r) = _filename (scripts st r).

(** A method that changes none of these, whether it returns or raises. *)
Definition keeps_library {A} (m : M A) : Prop :=
  forall st, same_library st (snd (m st)).

(** The setter of [filename] from the point where the new name is stored:
    what it does to the file system and the signals. *)
Definition set_filename_tail (data_dir : string) (self : ref)
    (old_filename filename : string) : M unit :=
  fl <- attr self flags ;;
  if truthy (Z.land fl MissingFromFilesystem) then ret tt
  else
    old_fullname <- attr self fullname ;;
    set_attrs self (put_fullname (library_path data_dir filename)) ;;
    match old_fullname with
    | None => raise TypeError
    | Some old =>
        found <- os_path_exists old ;;
        if found then
          os_rename old (library_path data_dir filename) ;;
          emit (scriptRenamed old_filename filename)
        else ret tt
    end.

(** Two widgets on one saved script: the object [0] belongs to another
    widget, the object [1] is listed here; both stand for the file [x.py]. *)
Definition shared_script (r : ref) : Script :=
  match r with
  | 0 => mkScript "1" "x.py" (Some x_py) 0
  | 1 => mkScript "1" "x.py" (Some x_py) 0
  | _ => blank_script
  end.

Definition st_shared : State :=
  process shared_script 2 {[x_py := "1"]} {[library_dir]} [1] "typed".

(** ** The fake function signature *)

(** [sep.join(l)] *)
Fixpoint join (sep : string) (l : list string) : string :=
  match l with
  | [] => EmptyString
  | [x] => x
  | x :: rest => x ++ sep ++ join sep rest
  end.

(** A [FunctionSignature] label: the three strings set by [__init__] and
    the text the label shows ([QLabel.text()]). *)
Record FunctionSignature := mkFunctionSignature {
  signal_prefix : string;
  prefix : string;
  affix : string;
  label_text : string
}.

(** [self.setText(t)] *)
Definition setText (t : string) (self : FunctionSignature) : FunctionSignature :=
  mkFunctionSignature (signal_prefix self) (prefix self) (affix self) t.

(** One round of the loop over [signal_values_lengths.items()]. *)
Definition add_signal (signal_prefix lbl_text : string) (item : string * Z)
    : string :=
  let (name, value) := item in
  if (value =? 1)%Z then lbl_text ++ ((signal_prefix ++ name) ++ ", ")
  else if (1 <? value)%Z then lbl_text ++ ((signal_prefix ++ name) ++ "s, ")
  else lbl_text.

(** [FunctionSignature.update_signal_text(signal_values_lengths)]; the
    dict is given by its items, in their order. *)
Definition update_signal_text (self : FunctionSignature)
    (signal_values_lengths : list (string * Z)) : FunctionSignature :=
  if String.eqb (signal_prefix self) EmptyString then self
  else
    let lbl_text := prefix self in
    let lbl_text :=
      if (0 <? length signal_values_lengths)%nat then
        Py.drop_last 2
          (fold_left (add_signal (signal_prefix self)) signal_values_lengths
                     lbl_text)
      else lbl_text in
    let lbl_text := lbl_text ++ affix self in
    if negb (String.eqb (label_text self) lbl_text) then setText lbl_text self
    else self.

(** The four inputs of the widget, [OWPythonScript.signal_names]. *)
Inductive signal := data | learner | classifier | object.

Definition signal_names : list signal := [data; learner; classifier; object].

Definition signal_name (n : signal) : string :=
  match n with
  | data => "data"
  | learner => "learner"
  | classifier => "classifier"
  | object => "object"
  end.

(** A dict, by its items in insertion order. *)
Definition dict (K V : Type) : Type := list (K * V).

Section Dict.

Context {K V : Type} `{EqDecision K}.

(** [k in dic.keys()] *)
Definition has_key (k : K) (dic : dict K V) : bool :=
  existsb (fun kv => bool_decide (fst kv = k)) dic.

(** [dic[k] = v]: an existing key keeps its place. *)
Fixpoint dict_set (k : K) (v : V) (dic : dict K V) : dict K V :=
  match dic with
  | [] => [(k, v)]
  | (k', v') :: rest =>
      if bool_decide (k' = k) then (k', v) :: rest
      else (k', v') :: dict_set k v rest
  end.

(** [del dic[k]] for a key of the dict *)
Fixpoint dict_del (k : K) (dic : dict K V) : dict K V :=
  match dic with
  | [] => []
  | (k', v') :: rest =>
      if bool_decide (k' = k) then rest else (k', v') :: dict_del k rest
  end.

(** [dic.get(k)] *)
Fixpoint dict_get (k : K) (dic : dict K V) : option V :=
  match dic with
  | [] => None
  | (k', v') :: rest => if bool_decide (k' = k) then Some v' else dict_get k rest
  end.

End Dict.

Section Inputs.

(** The values that arrive on the inputs, and the ids of the links. *)
Context {Obj Id : Type} `{EqDecision Id}.

(** The attributes of the widget that the input handlers use. *)
Record InputState := mkInputState {
  inputs : signal -> dict Id Obj;
  orangeDataTablesEnabled : bool;
  func_sig : FunctionSignature
}.

(** [getattr(self, signal)] and [setattr(self, signal, dic)] *)
Definition getattr (self : InputState) (n : signal) : dict Id Obj :=
  inputs self n.

Global Instance signal_eq_dec : EqDecision signal.
Proof. solve_decision. Defined.

Definition setattr (self : InputState) (n : signal) (dic : dict Id Obj)
    : InputState :=
  mkInputState (fun m => if bool_decide (m = n) then dic else inputs self m)
               (orangeDataTablesEnabled self) (func_sig self).

(** [handle_input(obj, sig_id, signal)]; [sig_id] is a tuple. *)
Definition handle_input (self : InputState) (obj : option Obj)
    (sig_id : list Id) (n : signal) : Res InputState :=
  match sig_id with
  | [] => Raise IndexError
  | sig_id :: _ =>
      let dic := getattr self n in
      match obj with
      | None =>
          if has_key sig_id dic then Ok (setattr self n (dict_del sig_id dic))
          else Ok self
      | Some obj => Ok (setattr self n (dict_set sig_id obj dic))
      end
  end.

(** The name a signal goes by in the script. *)
Definition display_name (self : InputState) (n : signal) : string :=
  if bool_decide (n = data) && negb (orangeDataTablesEnabled self) then "df"
  else signal_name n.

(** [update_fake_function_signature_labels()] *)
Definition update_fake_function_signature_labels (self : InputState)
    : InputState :=
  let display_names := map (display_name self) signal_names in
  mkInputState (inputs self) (orangeDataTablesEnabled self)
    (update_signal_text (func_sig self)
       (fold_left
          (fun d '(n, dn) => dict_set dn (Z.of_nat (length (getattr self n))) d)
          (zip signal_names display_names) [])).

(** [initial_locals_state()], by the items of the dict it returns;
    [table_to_frame] is the conversion of pandas_compat. *)
Definition initial_locals_state (table_to_frame : Obj -> Obj)
    (self : InputState) : dict string (list Obj) :=
  fold_left
    (fun d n =>
       let value := getattr self n in
       if (length value =? 0)%nat then d
       else
         let all_values := map snd value in
         if bool_decide (n = data) && negb (orangeDataTablesEnabled self) then
           dict_set (("in_" ++ "df") ++ "s") (map table_to_frame all_values) d
         else dict_set (("in_" ++ signal_name n) ++ "s") all_values d)
    signal_names [].

End Inputs.

(** The arguments the signature shows for the items of a dict. *)
Definition argument (p : string) (item : string * Z) : option string :=
  let (name, value) := item in
  if (value =? 1)%Z then Some (p ++ name)
  else if (1 <? value)%Z then Some (p ++ name ++ "s")
  else None.

Definition arguments (p : string) (d : list (string * Z)) : list string :=
  omap (argument p) d.

(** A signature label before any text is set, and three inputs. *)
Definition python_script_signature : FunctionSignature :=
  mkFunctionSignature "in_" "def python_script(" "):" EmptyString.

Definition no_inputs : InputState (Obj := string) (Id := Z) :=
  mkInputState (fun _ => []) false python_script_signature.

(** The name the signature shows for a local variable of the script: the
    name of the list, without its plural [s] when the list has one value. *)
Definition shown_as {Obj : Type} (item : string * list Obj) : string :=
  let (key, values) := item in
  if (length values =? 1)%nat then Py.drop_last 1 key else key.

(** Two tables on the data input and one value on the object input. *)
Definition some_inputs : InputState (Obj := string) (Id := Z) :=
  mkInputState
    (fun n =>
       match n with
       | data => [(1%Z, "table 1"); (2%Z, "table 2")]
       | object => [(3%Z, "value")]
       | _ => []
       end)
    false python_script_signature.

(** ** class ReturnStatement *)

(** The prefix of the names, the flag for the name of the data output and
    the texts of the four labels [signal_labels]; the labels for the commas
    between them are never changed and are left out. *)
Record ReturnStatement := mkReturnStatement {
  _prefix : string;
  df_enabled : bool;
  signal_labels : signal -> string
}.

(** [lbl.setText(text)] for [lbl = self.signal_labels[n]] *)
Definition set_label (self : ReturnStatement) (n : signal) (text : string)
    : ReturnStatement :=
  mkReturnStatement (_prefix self) (df_enabled self)
    (fun m => if bool_decide (m = n) then text else signal_labels self m).

(** [make_signal_labels(prefix)] *)
Definition make_signal_labels (self : ReturnStatement) (prefix : string)
    : ReturnStatement :=
  fold_left
    (fun self n =>
       let signal_display_name :=
         if bool_decide (n = data) && df_enabled self then "df"
         else signal_name n in
       set_label self n (("<b></b>" ++ prefix) ++ signal_display_name))
    signal_names
    (mkReturnStatement prefix (df_enabled self) (signal_labels self)).

(** [ReturnStatement.update_signal_text(signal_name, values_length)] *)
Definition return_update_signal_text (self : ReturnStatement) (n : signal)
    (values_length : Z) : ReturnStatement :=
  if String.eqb (_prefix self) EmptyString then self
  else
    let lbl := signal_labels self n in
    let signal_name :=
      if bool_decide (n = data) && df_enabled self then "df"
      else signal_name n in
    let text :=
      if (values_length =? 0)%Z then ("<b></b>" ++ _prefix self) ++ signal_name
      else (("<b>" ++ _prefix self) ++ signal_name) ++ "</b>" in
    if negb (String.eqb lbl text) then set_label self n text
    else self.

(** [use_df_data_label(enabled)] *)
Definition use_df_data_label (self : ReturnStatement) (enabled : bool)
    : ReturnStatement :=
  let self := mkReturnStatement (_prefix self) enabled (signal_labels self) in
  let lbl := signal_labels self data in
  let text :=
    if enabled then
      if String.prefix "<b></b>" lbl then ("<b></b>" ++ _prefix self) ++ "df"
      else ("<b>" ++ _prefix self) ++ "df</b>"
    else
      if String.prefix "<b></b>" lbl then ("<b></b>" ++ _prefix self) ++ "data"
      else ("<b>" ++ _prefix self) ++ "data</b>" in
  if negb (String.eqb lbl text) then set_label self data text else self.

(** The return statement as [__init__] builds it. *)
Definition out_labels : ReturnStatement :=
  make_signal_labels (mkReturnStatement EmptyString true (fun _ => EmptyString))
    "out_".

(** ** Settings of earlier versions *)

(** [s.split(c)] for a separator of one character *)
Fixpoint split_on (c : ascii) (s : string) : list string :=
  match s with
  | EmptyString => [EmptyString]
  | String a rest =>
      if Ascii.eqb a c then EmptyString :: split_on c rest
      else
        match split_on c rest with
        | [] => [String a EmptyString]
        | head :: tail => String a head :: tail
        end
  end.

(** [l.pop(index)] *)
Definition list_pop {A} (index : Z) (l : list A) : Res (A * list A) :=
  match py_index (length l) index with
  | Some k =>
      match l !! k with
      | Some x => Ok (x, delete k l)
      | None => Raise IndexError
      end
  | None => Raise IndexError
  end.

(** [[f(s) for s in l]], stopping at the first exception *)
Fixpoint comprehension {A B} (f : A -> Res B) (l : list A) : Res (list B) :=
  match l with
  | [] => Ok []
  | s :: rest =>
      match f s with
      | Raise e => Raise e
      | Ok y =>
          match comprehension f rest with
          | Raise e => Raise e
          | Ok ys => Ok (y :: ys)
          end
      end
  end.

(** The keys of the settings dict that [migrate_settings] reads or writes;
    a key that is absent is [None].  The scripts of the two old formats are
    dicts (of an object, in the oldest one) with the keys [script] and
    [name]. *)
Record Settings := mkSettings {
  libraryListSource : option (list (gmap string string));
  scriptLibrary : option (list (gmap string string));
  currentScriptIndex : option Z;
  scriptText : option string;
  current_script : option (string * string);
  other_scratch_scripts : option (list (string * string))
}.

(** [(s.__dict__['script'], '_'.join(s.__dict__['name'].split(' ')) + '.py')] *)
Definition library_item_1 (s : gmap string string) : Res (string * string) :=
  match s !! "script" with
  | None => Raise KeyError
  | Some script =>
      match s !! "name" with
      | None => Raise KeyError
      | Some name => Ok (script, join "_" (split_on " " name) ++ ".py")
      end
  end.

(** [(s['script'], s['name'] + '.py')] *)
Definition library_item_2 (s : gmap string string) : Res (string * string) :=
  match s !! "script" with
  | None => Raise KeyError
  | Some script =>
      match s !! "name" with
      | None => Raise KeyError
      | Some name => Ok (script, name ++ ".py")
      end
  end.

(** The branch for [version < 2]. *)
Definition migrate_1 (settings : Settings) : Res unit * Settings :=
  match libraryListSource settings with
  | None => (Raise KeyError, settings)
  | Some scripts =>
      let settings :=
        mkSettings None (scriptLibrary settings) (currentScriptIndex settings)
          (scriptText settings) (current_script settings)
          (other_scratch_scripts settings) in
      match comprehension library_item_1 scripts with
      | Raise e => (Raise e, settings)
      | Ok library =>
          match list_pop 0 library with
          | Raise e => (Raise e, settings)
          | Ok (current, library) =>
              (Ok tt,
               mkSettings None (scriptLibrary settings)
                 (currentScriptIndex settings) (scriptText settings)
                 (Some current) (Some library))
          end
      end
  end.

(** The branch for [version < 3]. *)
Definition migrate_2 (settings : Settings) : Res unit * Settings :=
  match scriptLibrary settings with
  | None => (Raise KeyError, settings)
  | Some scripts =>
      let settings :=
        mkSettings (libraryListSource settings) None
          (currentScriptIndex settings) (scriptText settings)
          (current_script settings) (other_scratch_scripts settings) in
      match currentScriptIndex settings with
      | None => (Raise KeyError, settings)
      | Some index =>
          let settings :=
            mkSettings (libraryListSource settings) None None
              (scriptText settings) (current_script settings)
              (other_scratch_scripts settings) in
          match comprehension library_item_2 scripts with
          | Raise e => (Raise e, settings)
          | Ok library =>
              match list_pop index library with
              | Raise e => (Raise e, settings)
              | Ok (current, library) =>
                  match scriptText settings with
                  | Some text =>
                      (Ok tt,
                       mkSettings (libraryListSource settings) None None None
                         (Some (text, snd current)) (Some library))
                  | None =>
                      (Ok tt,
                       mkSettings (libraryListSource settings) None None None
                         (Some current) (Some library))
                  end
              end
          end
      end
  end.

(** [migrate_settings(settings, version)]: the outcome and the settings
    dict as the call leaves it. *)
Definition migrate_settings (settings : Settings) (version : option Z)
    : Res unit * Settings :=
  if match version with
     | Some v => (v <? 2)%Z
     | None => false
     end
  then migrate_1 settings
  else
    match version with
    | None => (Raise TypeError, settings)
    | Some v => if (v <? 3)%Z then migrate_2 settings else (Ok tt, settings)
    end.

(** [name.replace(' ', '_')], character by character. *)
Fixpoint underscored (name : string) : string :=
  match name with
  | EmptyString => EmptyString
  | String a rest =>
      String (if Ascii.eqb a " " then "_"%char else a) (underscored rest)
  end.

(** What an old script with both keys becomes in the oldest format and in
    the one after it. *)
Definition has_keys (s : gmap string string) : Prop :=
  is_Some (s !! "script") /\ is_Some (s !! "name").

Definition migrated_1 (s : gmap string string) : string * string :=
  (default EmptyString (s !! "script"),
   underscored (default EmptyString (s !! "name")) ++ ".py").

Definition migrated_2 (s : gmap string string) : string * string :=
  (default EmptyString (s !! "script"),
   default EmptyString (s !! "name") ++ ".py").

(** Settings written by the oldest version of the widget. *)
Definition settings_1 : Settings :=
  mkSettings
    (Some [ {["script" := "print(1)"; "name" := "my first script"]};
            {["script" := "print(2)"; "name" := "second"]} ])
    None None None None None.

(** Settings written by version 2, with the text of the editor. *)
Definition settings_2 : Settings :=
  mkSettings None
    (Some [ {["script" := "print(1)"; "name" := "one"]};
            {["script" := "print(2)"; "name" := "two"]} ])
    (Some 1%Z) (Some "print(22)") None None.

(** ** Loading and storing the library *)

Definition with_dirs (ds : gset string) (st : State) : State :=
  mkState (scripts st) (next_script st) (documents st) (next_document st)
    (files st) ds (emitted st) (libraryList st) (_cachedDocuments st)
    (selected_row st) (editor_text st).

(** [os.path.basename(p)]: what follows the last separator. *)
Definition basename (p : string) : string :=
  let i := String.length (upto_last_sep p) in
  substring i (String.length p - i) p.

(** The directories above [p], nearest first. *)
Fixpoint parents (fuel : nat) (p : string) : list string :=
  match fuel with
  | 0 => []
  | S fuel =>
      let head := dirname p in
      if String.eqb head p || String.eqb head EmptyString then []
      else head :: parents fuel head
  end.

(** [os.makedirs(p)]: the directory and the missing ones above it.  It
    fails if the path exists or a regular file is in the way; the OSErrors
    of these cases are not told apart ([Unmodelled]). *)
Definition os_makedirs (p : string) : M unit :=
  fun st =>
    let leaf := match rstrip_sep p with EmptyString => p | stripped => stripped end in
    let above := parents (String.length leaf) leaf in
    if path_exists st p || existsb (is_file st) above
    then (Raise Unmodelled, st)
    else (Ok tt, with_dirs (dirs st ∪ list_to_set (leaf :: above)) st).

(** [for x in l: body(x)] *)
Fixpoint for_ {A} (l : list A) (body : A -> M unit) : M unit :=
  match l with
  | [] => ret tt
  | x :: rest => body x ;; for_ rest body
  end.

(** The first index of a list at which a test holds. *)
Fixpoint find_index {A} (test : A -> bool) (l : list A) : option nat :=
  match l with
  | [] => None
  | x :: rest =>
      if test x then Some 0
      else match find_index test rest with
           | Some i => Some (S i)
           | None => None
           end
  end.

Section Library.

Variable data_dir : string.

(** [glob.glob(pattern)]: the paths that match, in the order of the
    platform, for the file system of a state. *)
Variable glob : State -> string -> list string.

(** The loop of [reloadLibrary] and [_restoreState] over [script_paths]. *)
Fixpoint load_scripts (script_paths : list string) (scripts : list ref)
    : M (list ref) :=
  match script_paths with
  | [] => ret scripts
  | pathname :: rest =>
      text <- open_read pathname ;;
      script <- Script__init__ data_dir text (basename pathname) 0 ;;
      load_scripts rest (scripts ++ [script])
  end.

(** The common start of [reloadLibrary] and [_restoreState]. *)
Definition scripts_of_folder : M (list ref) :=
  found <- os_path_exists (SCRIPTS_FOLDER_PATH data_dir) ;;
  if negb found then
    os_makedirs (SCRIPTS_FOLDER_PATH data_dir) ;;
    ret []
  else
    st <- get ;;
    load_scripts
      (glob st (os_path_join (SCRIPTS_FOLDER_PATH data_dir) "*.py")) [].

(** [reloadLibrary()] *)
Definition reloadLibrary : M unit :=
  scripts_ <- scripts_of_folder ;;
  st <- get ;;
  let scripts_ :=
    (scripts_ ++
     List.filter
       (fun s => truthy (Z.land (flags (scripts st s)) MissingFromFilesystem))
       (libraryList st))%list in
  modify (with_libraryList scripts_) ;;
  (if (length scripts_ =? 0)%nat then addScript data_dir None DEFAULT_FILENAME
   else ret tt) ;;
  select_row 0.

(** [len(self.libraryList) - 1] *)
Definition last_row : M Z :=
  st <- get ;;
  ret (Z.of_nat (length (libraryList st)) - 1)%Z.

(** [_restoreState()], for the settings [current_script] and
    [other_scratch_scripts]; the state of the splitter is left out. *)
Definition _restoreState (current_script : option (string * string))
    (other_scratch_scripts : list (string * string)) : M unit :=
  scripts_ <- scripts_of_folder ;;
  modify (with_libraryList scripts_) ;;
  i <- match current_script with
       | None =>
           addScript data_dir (Some "print('Hello world!')") DEFAULT_FILENAME ;;
           last_row
       | Some (text, filename) =>
           st <- get ;;
           match find_index
                   (fun script =>
                      String.eqb text (_script (scripts st script)) &&
                      String.eqb filename (_filename (scripts st script)))
                   scripts_ with
           | Some i => ret (Z.of_nat i)
           | None =>
               addScript data_dir (Some text) filename ;;
               last_row
           end
       end ;;
  for_ other_scratch_scripts
       (fun script => addScript data_dir (Some (fst script)) (snd script)) ;;
  select_row i.

(** [_saveState()]: the values it stores in the settings [current_script]
    and [other_scratch_scripts]. *)
Definition _saveState : M ((string * string) * list (string * string)) :=
  current_index <- selectedScriptIndex ;;
  match current_index with
  | None => raise TypeError
  | Some current_index =>
      script <- getitem (Z.of_nat current_index) ;;
      st <- get ;;
      ret ((editor_text st, _filename (scripts st script)),
           omap (fun '(i, s) =>
                   if truthy (Z.land (flags (scripts st s)) MissingFromFilesystem)
                      && negb (i =? current_index)%nat
                   then Some (_script (scripts st s), _filename (scripts st s))
                   else None)
                (imap (fun i s => (i, s)) (libraryList st)))
  end.

(** [onAddScript()]; opening the editor of the name is left to Qt. *)
Definition onAddScript : M unit :=
  addScript data_dir (Some EmptyString) DEFAULT_FILENAME ;;
  i <- last_row ;;
  select_row i.

End Library.



(** The flag for a missing file, as a test on a script of a state. *)
Definition is_missing (st : State) (s : ref) : bool :=
  truthy (Z.land (flags (scripts st s)) MissingFromFilesystem).

(** A folder with two scripts, listed in the order [b.py], [a.py], and a
    widget that shows one scratch script. *)
Definition glob_two (st : State) (pattern : string) : list string :=
  if String.eqb pattern "/d/python_script_library/*.py" then [b_py; a_py]
  else [].


(** A widget with two scratch scripts, the first one selected and edited,
    and a widget that has just been made, with the same folder. *)
Definition scratch_scripts (r : ref) : Script :=
  match r with
  | 0 => mkScript "draft" "scratch.py" None 2
  | 1 => mkScript "notes" "notes.py" None 2
  | _ => blank_script
  end.

Definition st_session : State :=
  mkState scratch_scripts 2
    (fun _ => mkDoc EmptyString false (EmptyString, 0%Z)) 0
    {[a_py := "print(1)"; b_py := "print(2)"]} {[library_dir]} []
    [0; 1] ∅ (Some 0) "draft, edited".

Definition st_fresh : State :=
  mkState scratch_scripts 2
    (fun _ => mkDoc EmptyString false (EmptyString, 0%Z)) 0
    {[a_py := "print(1)"; b_py := "print(2)"]} {[library_dir]} []
    [] ∅ None EmptyString.

(** ** The actions of the widget *)

Definition with_editor_text (text : string) (st : State) : State :=
  mkState (scripts st) (next_script st) (documents st) (next_document st)
    (files st) (dirs st) (emitted st) (libraryList st) (_cachedDocuments st)
    (selected_row st) text.

(** A widget: the state above, whether [restoreAction] is enabled, and the
    file named by the error [load_error] while it is shown. *)
Record Widget := mkWidget {
  state_of : State;
  restoreAction_isEnabled : bool;
  Error_load_error : option string
}.

(** Methods that also use these attributes. *)
Definition W (A : Type) : Type := Widget -> Res A * Widget.

Definition retW {A} (a : A) : W A := fun w => (Ok a, w).

Definition bindW {A B} (m : W A) (k : A -> W B) : W B :=
  fun w =>
    match m w with
    | (Ok a, w') => k a w'
    | (Raise e, w') => (Raise e, w')
    end.

(** A method of the state above, run in the widget. *)
Definition liftM {A} (m : M A) : W A :=
  fun w =>
    let (r, st) := m (state_of w) in
    (r, mkWidget st (restoreAction_isEnabled w) (Error_load_error w)).

Declare Scope widget_scope.
Delimit Scope widget_scope with W.
Notation "x <- m ;; k" := (bindW m (fun x => k))
  (at level 100, m at level 99, right associativity) : widget_scope.
Notation "m ;; k" := (bindW m (fun _ => k))
  (at level 100, right associativity) : widget_scope.

(** [update_saved_script_actions(enabled)] *)
Definition update_saved_script_actions (enabled : bool) : W unit :=
  fun w =>
    if negb (Bool.eqb (restoreAction_isEnabled w) enabled)
    then (Ok tt, mkWidget (state_of w) enabled (Error_load_error w))
    else (Ok tt, w).



(** [self.editor.text] *)
Definition editor_text_get : M string :=
  st <- get ;; ret (editor_text st).

Section Actions.

Variable data_dir : string.

(** [self.editor.document().setModified(False)]: Qt calls the slot
    [onModificationChanged(False)] if the flag of the document was set,
    which is given by [was_modified]. *)
Definition setModified_False (was_modified : bool) : M unit :=
  if was_modified then onModificationChanged false else ret tt.

(** [commitChangesToLibrary()]; the signal is emitted while this widget is
    disconnected from it. *)
Definition commitChangesToLibrary (was_modified : bool) : W unit :=
  (index <- liftM selectedScriptIndex ;;
   match index with
   | None => retW tt
   | Some index =>
       text <- liftM editor_text_get ;;
       script <- liftM (getitem (Z.of_nat index)) ;;
       update_saved_script_actions true ;;
       liftM (set_script data_dir script text) ;;
       filename <- liftM (attr script _filename) ;;
       liftM (emit (scriptSaved filename text)) ;;
       liftM (setModified_False was_modified)
   end)%W.

(** [restoreSaved()].  Setting the text of the editor and clearing the flag
    of its document make Qt call the slot [onModificationChanged] some
    number of times, with the arguments [signals]. *)
Definition restoreSaved (signals : list bool) : W unit :=
  (index <- liftM selectedScriptIndex ;;
   match index with
   | None => retW tt
   | Some index =>
       script <- liftM (getitem (Z.of_nat index)) ;;
       file_found <- liftM (reload script) ;;
       update_saved_script_actions file_found ;;
       text <- liftM (attr script _script) ;;
       liftM (modify (with_editor_text text)) ;;
       liftM (for_ signals onModificationChanged) ;;
       fl <- liftM (attr script flags) ;;
       liftM (set_attrs script (put_flags (Z.land fl (Z.lnot Modified))))
   end)%W.


End Actions.

(** The second state differs from the first at most in the modified flag
    of the script [s]. *)
Definition modified_flag_only (s : ref) (st st' : State) : Prop :=
  files st' = files st /\
  dirs st' = dirs st /\
  emitted st' = emitted st /\
  libraryList st' = libraryList st /\
  selected_row st' = selected_row st /\
  editor_text st' = editor_text st /\
  (forall r, r <> s -> scripts st' r = scripts st r) /\
  _script (scripts st' s) = _script (scripts st s) /\
  _filename (scripts st' s) = _filename (scripts st s) /\
  fullname (scripts st' s) = fullname (scripts st s) /\
  Z.land (flags (scripts st' s)) MissingFromFilesystem
    = Z.land (flags (scripts st s)) MissingFromFilesystem.

(** A widget on the two saved scripts, the first one selected and edited
    in the editor, and one on a script whose file was deleted. *)
Definition w_two : Widget :=
  mkWidget (with_editor_text "print(10)" st_two) false None.

Definition w_deleted : Widget :=
  mkWidget (with_selected_row (Some 0) st_deleted) true None.



(** The cache of documents is in order: its documents have been built, and
    no document is cached for two scripts. *)
Definition cache_ok (st : State) : Prop :=
  (forall s d, _cachedDocuments st !! s = Some d -> d < next_document st) /\
  (forall s1 s2 d,
      _cachedDocuments st !! s1 = Some d ->
      _cachedDocuments st !! s2 = Some d -> s1 = s2).

(** * Properties *)

(** ** Facts about strings *)

Section StringFacts.

Lemma append_cons (c : ascii) (s t : string) :
  String c s ++ t = String c (s ++ t).
Proof. reflexivity. Qed.

Lemma append_empty_l (s : string) : EmptyString ++ s = s.
Proof. reflexivity. Qed.

Lemma append_empty_r (s : string) : s ++ EmptyString = s.
Proof.
  induction s as [|c s IH]; [reflexivity|].
  now rewrite append_cons, IH.
Qed.

Lemma append_assoc (s t u : string) : (s ++ t) ++ u = s ++ (t ++ u).
Proof.
  induction s as [|c s IH]; [reflexivity|].
  rewrite !append_cons. now rewrite IH.
Qed.

Lemma length_append (s t : string) :
  String.length (s ++ t) = String.length s + String.length t.
Proof.
  induction s as [|c s IH]; [reflexivity|].
  rewrite append_cons. cbn. now rewrite IH.
Qed.

Lemma append_inv_tail (s t u : string) : s ++ u = t ++ u -> s = t.
Proof.
  revert t. induction s as [|c s IH]; intros [|d t] H.
  - reflexivity.
  - apply (f_equal String.length) in H.
    rewrite !length_append in H. cbn in H. lia.
  - apply (f_equal String.length) in H.
    rewrite !length_append in H. cbn in H. lia.
  - rewrite !append_cons in H. injection H as -> H.
    f_equal. now apply IH.
Qed.

Lemma substring_whole (s : string) : substring 0 (String.length s) s = s.
Proof. induction s as [|c s IH]; cbn; [reflexivity | now rewrite IH]. Qed.

(** A string is its first [k] characters followed by the rest. *)
Lemma substring_split (s : string) (k : nat) :
  k <= String.length s ->
  substring 0 k s ++ substring k (String.length s - k) s = s.
Proof.
  revert k. induction s as [|c s IH]; intros [|k] Hk; cbn in *.
  - reflexivity.
  - lia.
  - now rewrite substring_whole.
  - rewrite append_cons. f_equal. apply IH. lia.
Qed.

Lemma endswith_split (s suffix : string) :
  Py.endswith s suffix = true ->
  s = Py.drop_last (String.length suffix) s ++ suffix.
Proof.
  unfold Py.endswith, Py.drop_last. intros H.
  apply andb_true_iff in H as [Hle Heq].
  apply Nat.leb_le in Hle. apply String.eqb_eq in Heq.
  assert (Hk : String.length s - String.length suffix <= String.length s) by lia.
  pose proof (substring_split s _ Hk) as Hs.
  replace (String.length s - (String.length s - String.length suffix))
    with (String.length suffix) in Hs by lia.
  rewrite Heq in Hs. now symmetry.
Qed.

Lemma to_uint_nonnil (n : nat) : Nat.to_uint n <> Decimal.Nil.
Proof.
  rewrite <- (Unsigned.of_to n) at 1. rewrite Unsigned.to_of.
  apply DecimalFacts.unorm_nonnil.
Qed.

Lemma str_inj (i j : nat) : Py.str i = Py.str j -> i = j.
Proof.
  unfold Py.str. intros H.
  apply (f_equal NilZero.uint_of_string) in H.
  rewrite !NilZero.usu in H by apply to_uint_nonnil.
  injection H as H. now apply Unsigned.to_uint_inj.
Qed.

End StringFacts.

(** ** Facts about uniqueify_filename *)

Section UniqueifyFacts.

Lemma brace_free_append (s t : string) :
  Py.brace_free (s ++ t) = Py.brace_free s && Py.brace_free t.
Proof.
  induction s as [|c s IH]; [reflexivity|].
  rewrite append_cons. cbn [Py.brace_free]. rewrite IH.
  now rewrite andb_assoc.
Qed.

(** Induction on strings, two characters at a time. *)
Lemma string_ind2 (P : string -> Prop) :
  P EmptyString ->
  (forall c, P (String c EmptyString)) ->
  (forall c c' s, P s -> P (String c' s) -> P (String c (String c' s))) ->
  forall s, P s.
Proof.
  intros H0 H1 H2 s.
  assert (H : P s /\ forall c, P (String c s)); [|apply H].
  induction s as [|c' s [IHs IHc]]; [split; [exact H0 | exact H1]|].
  split; [apply IHc|]. intros c. apply H2; [exact IHs | apply IHc].
Qed.

Lemma unescape_cons (c : ascii) (rest : string) :
  Py.unescape (String c rest) =
    if Ascii.eqb c Py.lbrace then
      match rest with
      | EmptyString => None
      | String c' rest' =>
          if Ascii.eqb c' Py.lbrace
          then option_map (String Py.lbrace) (Py.unescape rest')
          else None
      end
    else if Ascii.eqb c Py.rbrace then
      match rest with
      | EmptyString => None
      | String c' rest' =>
          if Ascii.eqb c' Py.rbrace
          then option_map (String Py.rbrace) (Py.unescape rest')
          else None
      end
    else option_map (String c) (Py.unescape rest).
Proof. reflexivity. Qed.

Lemma format_from_cons (auto : nat) (c : ascii) (rest arg : string) :
  Py.format_from auto (String c rest) arg =
    if Ascii.eqb c Py.lbrace then
      match rest with
      | EmptyString => Raise ValueError
      | String c' rest' =>
          if Ascii.eqb c' Py.lbrace
          then Py.literal Py.lbrace (Py.format_from auto rest' arg)
          else if Ascii.eqb c' Py.rbrace then
            match auto with
            | 0 => Py.replaced arg (Py.format_from 1 rest' arg)
            | S _ => Raise IndexError
            end
          else Raise FieldError
      end
    else if Ascii.eqb c Py.rbrace then
      match rest with
      | EmptyString => Raise ValueError
      | String c' rest' =>
          if Ascii.eqb c' Py.rbrace
          then Py.literal Py.rbrace (Py.format_from auto rest' arg)
          else Raise ValueError
      end
    else Py.literal c (Py.format_from auto rest arg).
Proof. reflexivity. Qed.

Ltac brace_cases c :=
  destruct (Ascii.eqb c Py.lbrace) eqn:?;
  [|destruct (Ascii.eqb c Py.rbrace) eqn:?].

(** A template whose stem has no field and no lone brace is formatted by
    putting the argument behind the literal text of the stem. *)
Lemma format_unescaped (stem pre arg : string) :
  Py.unescape stem = Some pre ->
  Py.format (stem ++ "{}") arg = Ok (pre ++ arg).
Proof.
  unfold Py.format. revert pre.
  induction stem as [|c|c c' s IHs IHc] using string_ind2; intros pre.
  - intros Hu. inversion Hu; subst pre.
    change (Py.replaced arg (Ok EmptyString) = Ok arg).
    unfold Py.replaced. now rewrite append_empty_r.
  - rewrite !append_cons, ?append_empty_l.
    rewrite unescape_cons, format_from_cons.
    brace_cases c; intros Hu; try discriminate.
    inversion Hu; subst pre.
    change (Py.literal c (Py.replaced arg (Ok EmptyString))
            = Ok (String c EmptyString ++ arg)).
    unfold Py.replaced, Py.literal. now rewrite append_empty_r.
  - rewrite !append_cons, ?append_empty_l.
    rewrite unescape_cons, format_from_cons.
    brace_cases c.
    + destruct (Ascii.eqb c' Py.lbrace); [|discriminate].
      destruct (Py.unescape s) as [pre'|]; [|discriminate].
      intros Hu. inversion Hu; subst pre. now rewrite (IHs pre' eq_refl).
    + destruct (Ascii.eqb c' Py.rbrace); [|discriminate].
      destruct (Py.unescape s) as [pre'|]; [|discriminate].
      intros Hu. inversion Hu; subst pre. now rewrite (IHs pre' eq_refl).
    + destruct (Py.unescape (String c' s)) as [pre'|] eqn:E; [|discriminate].
      intros Hu. inversion Hu; subst pre.
      rewrite <- append_cons. now rewrite (IHc pre' eq_refl).
Qed.

Ltac raised := unfold format_error; tauto.

Lemma literal_raises (c : ascii) (r : Res string) :
  (exists e, r = Raise e /\ format_error e) ->
  exists e, Py.literal c r = Raise e /\ format_error e.
Proof. intros (e & -> & He). now exists e. Qed.

(** Once the one argument is used up, the final field of the template
    finds none. *)
Lemma format_second_field (stem arg : string) (n : nat) :
  exists e, Py.format_from (S n) (stem ++ "{}") arg = Raise e /\ format_error e.
Proof.
  induction stem as [|c|c c' s IHs IHc] using string_ind2.
  - exists IndexError. split; [reflexivity | raised].
  - rewrite !append_cons, ?append_empty_l. rewrite format_from_cons.
    brace_cases c.
    + exists ValueError. split; [reflexivity | raised].
    + exists ValueError. split; [reflexivity | raised].
    + apply literal_raises. exists IndexError. split; [reflexivity | raised].
  - rewrite !append_cons, ?append_empty_l. rewrite format_from_cons.
    brace_cases c.
    + brace_cases c'.
      * now apply literal_raises.
      * exists IndexError. split; [reflexivity | raised].
      * exists FieldError. split; [reflexivity | raised].
    + destruct (Ascii.eqb c' Py.rbrace).
      * now apply literal_raises.
      * exists ValueError. split; [reflexivity | raised].
    + apply literal_raises. rewrite <- append_cons. exact IHc.
Qed.

(** A template whose stem has a field or a lone brace is refused. *)
Lemma format_refused (stem arg : string) :
  Py.unescape stem = None ->
  exists e, Py.format (stem ++ "{}") arg = Raise e /\ format_error e.
Proof.
  unfold Py.format.
  induction stem as [|c|c c' s IHs IHc] using string_ind2.
  - discriminate.
  - rewrite !append_cons, ?append_empty_l.
    rewrite unescape_cons, format_from_cons.
    brace_cases c; intros Hu; try discriminate.
    + exists ValueError. split; [reflexivity | raised].
    + exists ValueError. split; [reflexivity | raised].
  - rewrite !append_cons, ?append_empty_l.
    rewrite unescape_cons, format_from_cons.
    brace_cases c.
    + brace_cases c'; intros Hu.
      * apply literal_raises, IHs.
        now destruct (Py.unescape s).
      * destruct (format_second_field s arg 0) as (e & -> & He).
        now exists e.
      * exists FieldError. split; [reflexivity | raised].
    + destruct (Ascii.eqb c' Py.rbrace); intros Hu.
      * apply literal_raises, IHs.
        now destruct (Py.unescape s).
      * exists ValueError. split; [reflexivity | raised].
    + intros Hu. apply literal_raises. rewrite <- append_cons. apply IHc.
      now destruct (Py.unescape (String c' s)).
Qed.

Lemma unescape_brace_free (stem : string) :
  Py.brace_free stem = true -> Py.unescape stem = Some stem.
Proof.
  induction stem as [|c stem IH]; intros Hb; [reflexivity|].
  cbn [Py.brace_free] in Hb.
  apply andb_true_iff in Hb as [Hc Hb].
  apply andb_true_iff in Hc as [Hl Hr].
  apply negb_true_iff in Hl, Hr.
  cbn [Py.unescape]. rewrite Hl, Hr. now rewrite (IH Hb).
Qed.

Lemma numbered_unescaped (stem pre : string) (i : nat) :
  Py.unescape stem = Some pre ->
  numbered (stem ++ "{}") i = Ok (candidate pre i).
Proof. intros Hu. unfold numbered. now rewrite (format_unescaped stem pre). Qed.

Lemma candidate_inj (stem : string) (i j : nat) :
  candidate stem i = candidate stem j -> i = j.
Proof.
  unfold candidate. intros H.
  apply append_inv_tail in H.
  apply (inj (String.append stem)) in H.
  apply (inj (String.append "_")) in H.
  now apply str_inj.
Qed.

(** Among [length names + 1] consecutive candidates one is free. *)
Lemma free_candidate (names : list string) (stem : string) (i : nat) :
  exists k, i <= k < i + S (length names) /\ candidate stem k ∉ names.
Proof.
  destruct (decide (Forall (fun k => candidate stem k ∈ names)
                           (seq i (S (length names))))) as [Hall|Hex].
  - exfalso.
    assert (Hnd : NoDup (candidate stem <$> seq i (S (length names)))).
    { apply NoDup_fmap_2; [|apply NoDup_seq].
      intros a b. apply candidate_inj. }
    assert (Hsub : candidate stem <$> seq i (S (length names)) ⊆ names).
    { intros x Hx. apply list_elem_of_fmap in Hx as (k & -> & Hk).
      rewrite Forall_forall in Hall. now apply Hall, list_elem_of_In. }
    pose proof (submseteq_length _ _ (NoDup_submseteq _ _ Hnd
                  (fun x Hx => Hsub x Hx))) as Hlen.
    rewrite length_fmap, length_seq in Hlen. lia.
  - apply not_Forall_Exists in Hex; [|intros k; apply _].
    apply Exists_exists in Hex as (k & Hk & Hfree).
    apply list_elem_of_In, elem_of_seq in Hk. exists k. split; [lia | exact Hfree].
Qed.

(** The loop returns the first free candidate at or after [i], provided
    one lies within the bound. *)
Lemma while_True_first (names : list string) (template stem : string)
    (fuel i : nat) :
  Py.unescape template = Some stem ->
  (exists k, i <= k < i + fuel /\ candidate stem k ∉ names) ->
  exists k, i <= k < i + fuel /\
    (candidate stem k ∉ names) /\
    (forall j, i <= j < k -> candidate stem j ∈ names) /\
    while_True names (template ++ "{}") i fuel = Ok (candidate stem k).
Proof.
  intros Hb. revert i. induction fuel as [|fuel IH]; intros i (k & Hk & Hfree).
  - lia.
  - cbn [while_True]. rewrite (numbered_unescaped template stem) by assumption.
    destruct (decide (candidate stem i ∉ names)) as [Hi|Hi].
    + rewrite bool_decide_eq_true_2 by assumption.
      exists i. repeat split; [lia | lia | assumption | intros j Hj; lia].
    + rewrite bool_decide_eq_false_2 by assumption.
      assert (Hne : k <> i) by (intros ->; contradiction).
      destruct (IH (S i)) as (k' & Hk' & Hfree' & Hmin & Hrun).
      { exists k. split; [lia | assumption]. }
      exists k'. repeat split; [lia | lia | assumption | | assumption].
      intros j Hj. destruct (decide (j = i)) as [->|Hji].
      * destruct (decide (candidate stem i ∈ names)); [assumption|contradiction].
      * apply Hmin. lia.
Qed.

(** The bound the model puts on the loop is never reached. *)
Lemma while_True_returns (names : list string) (template stem : string) :
  Py.unescape template = Some stem ->
  exists k, 2 <= k /\
    (candidate stem k ∉ names) /\
    (forall j, 2 <= j < k -> candidate stem j ∈ names) /\
    while_True names (template ++ "{}") 2 (S (length names))
      = Ok (candidate stem k).
Proof.
  intros Hb.
  destruct (while_True_first names template stem (S (length names)) 2 Hb
              (free_candidate names stem 2)) as (k & Hk & H).
  exists k. split; [lia | exact H].
Qed.

(** More rounds do not change what the loop returns. *)
Lemma while_True_more_fuel (names : list string) (template : string)
    (fuel fuel' i : nat) (name : string) :
  while_True names template i fuel = Ok name ->
  fuel <= fuel' ->
  while_True names template i fuel' = Ok name.
Proof.
  revert fuel' i. induction fuel as [|fuel IH]; intros fuel' i H Hle.
  - discriminate.
  - destruct fuel' as [|fuel']; [lia|].
    cbn [while_True] in *.
    destruct (numbered template i) as [n|e]; [|discriminate].
    destruct (bool_decide (n ∉ names)); [assumption|].
    apply IH; [assumption | lia].
Qed.

Lemma script_names_elem (scripts : ref -> Script) (model : list ref)
    (curr_script : option ref) (script : ref) :
  script ∈ model -> Some script <> curr_script ->
  _filename (scripts script) ∈ script_names scripts model curr_script.
Proof.
  intros Hin Hne. induction Hin as [script model|script other model Hin IH].
  - cbn. destruct (decide (Some script = curr_script)); [contradiction|].
    apply list_elem_of_here.
  - cbn. destruct (decide (Some other = curr_script)); [exact (IH Hne)|].
    apply list_elem_of_further, IH, Hne.
Qed.

(** What [uniqueify_filename] returns when the stem has no field and no
    lone brace; [pre] is the literal text of the stem. *)
Lemma uniqueify_filename_unescaped (scripts : ref -> Script)
    (model : list ref) (curr_script : option ref) (filename pre : string) :
  Py.unescape (stem_of filename) = Some pre ->
  exists name,
    uniqueify_filename scripts model curr_script filename = Ok name /\
    (name ∉ script_names scripts model curr_script) /\
    (name = pre ++ py_suffix \/
     exists k, 2 <= k /\ name = candidate pre k /\
       pre ++ py_suffix ∈ script_names scripts model curr_script /\
       forall j, 2 <= j < k ->
         candidate pre j ∈ script_names scripts model curr_script).
Proof.
  intros Hu. unfold uniqueify_filename.
  set (names := script_names scripts model curr_script).
  rewrite (format_unescaped (stem_of filename) pre) by assumption.
  rewrite append_empty_r.
  destruct (decide (pre ++ py_suffix ∈ names)) as [Hin|Hout].
  - rewrite bool_decide_eq_true_2 by assumption.
    destruct (while_True_returns names (stem_of filename) pre Hu)
      as (k & Hk & Hfree & Hmin & Hrun).
    exists (candidate pre k). repeat split; [assumption | assumption |].
    right. exists k. repeat split; assumption.
  - rewrite bool_decide_eq_false_2 by assumption.
    exists (pre ++ py_suffix). repeat split; [assumption | now left].
Qed.

Lemma uniqueify_filename_plain (scripts : ref -> Script) (model : list ref)
    (curr_script : option ref) (filename : string) :
  Py.brace_free (stem_of filename) = true ->
  exists name,
    uniqueify_filename scripts model curr_script filename = Ok name /\
    (name ∉ script_names scripts model curr_script) /\
    (name = stem_of filename ++ py_suffix \/
     exists k, 2 <= k /\ name = candidate (stem_of filename) k /\
       stem_of filename ++ py_suffix ∈ script_names scripts model curr_script /\
       forall j, 2 <= j < k ->
         candidate (stem_of filename) j
           ∈ script_names scripts model curr_script).
Proof.
  intros Hb. apply uniqueify_filename_unescaped.
  now apply unescape_brace_free.
Qed.

(** With a field or a lone brace in the stem, [str.format] refuses the
    template and [uniqueify_filename] raises its exception. *)
Lemma uniqueify_filename_refused (scripts : ref -> Script)
    (model : list ref) (curr_script : option ref) (filename : string) :
  Py.unescape (stem_of filename) = None ->
  exists e,
    uniqueify_filename scripts model curr_script filename = Raise e /\
    format_error e.
Proof.
  intros Hu. unfold uniqueify_filename.
  destruct (format_refused (stem_of filename) EmptyString Hu) as (e & -> & He).
  now exists e.
Qed.

(** The loop of [uniqueify_filename] always ends within the bound the
    embedding gives it: it is the unbounded loop of the source. *)
Lemma uniqueify_filename_within_bound (scripts : ref -> Script)
    (model : list ref) (curr_script : option ref) (filename : string) :
  uniqueify_filename scripts model curr_script filename <> Raise LoopBound.
Proof.
  destruct (Py.unescape (stem_of filename)) as [pre|] eqn:Hu.
  - destruct (uniqueify_filename_unescaped scripts model curr_script
                filename pre Hu) as (name & -> & _).
    discriminate.
  - destruct (uniqueify_filename_refused scripts model curr_script
                filename Hu) as (e & -> & [->|[->| ->]]); discriminate.
Qed.

End UniqueifyFacts.

(** ** The stem of a candidate filename *)

Section StemFacts.

Lemma substring_append_l (s t : string) :
  substring 0 (String.length s) (s ++ t) = s.
Proof.
  induction s as [|c s IH].
  - now destruct t.
  - rewrite append_cons. cbn. now rewrite IH.
Qed.

Lemma substring_append_r (s t : string) :
  substring (String.length s) (String.length t) (s ++ t) = t.
Proof.
  induction s as [|c s IH].
  - apply substring_whole.
  - rewrite append_cons. cbn. exact IH.
Qed.

Lemma endswith_append (s suffix : string) :
  Py.endswith (s ++ suffix) suffix = true.
Proof.
  unfold Py.endswith. rewrite length_append.
  replace (String.length s + String.length suffix - String.length suffix)
    with (String.length s) by lia.
  rewrite substring_append_r, String.eqb_refl.
  apply andb_true_iff. split; [|reflexivity]. apply Nat.leb_le. lia.
Qed.

Lemma drop_last_append (s suffix : string) :
  Py.drop_last (String.length suffix) (s ++ suffix) = s.
Proof.
  unfold Py.drop_last. rewrite length_append.
  replace (String.length s + String.length suffix - String.length suffix)
    with (String.length s) by lia.
  apply substring_append_l.
Qed.

(** Only a final [.py] is taken off, once; an empty stem becomes the
    default one. *)
Lemma stem_of_spec (filename : string) :
  (exists base, filename = base ++ py_suffix /\
                stem_of filename = or_default base) \/
  ((forall base, filename <> base ++ py_suffix) /\
   stem_of filename = or_default filename).
Proof.
  unfold stem_of. destruct (Py.endswith filename py_suffix) eqn:E.
  - left. exists (Py.drop_last 3 filename). split; [|reflexivity].
    exact (endswith_split filename py_suffix E).
  - right. split; [|reflexivity].
    intros base ->. rewrite endswith_append in E. discriminate.
Qed.

Lemma stem_of_brace_free (filename : string) :
  Py.brace_free filename = true -> Py.brace_free (stem_of filename) = true.
Proof.
  intros Hb.
  destruct (stem_of_spec filename) as [(base & -> & ->)|(_ & ->)];
    unfold or_default.
  - rewrite brace_free_append in Hb. apply andb_true_iff in Hb as [Hb _].
    destruct (String.eqb base EmptyString); [reflexivity | exact Hb].
  - destruct (String.eqb filename EmptyString); [reflexivity | exact Hb].
Qed.

End StemFacts.

(** ** uniqueify_filename: the claims *)

(** The scenario of the specification: with [a.py] and [b.py] in the
    collection, the candidate [a] gives [a_2.py]. *)
Example uniqueify_filename_a :
  uniqueify_filename three_scripts [0; 1] None "a" = Ok "a_2.py".
Proof. reflexivity. Qed.

(** The script being renamed does not count as a collision. *)
Example uniqueify_filename_own_name :
  uniqueify_filename three_scripts [0; 1; 2] (Some 0) "a.py" = Ok "a.py".
Proof. reflexivity. Qed.

(** C1 (the failing input).  [uniqueify_filename] is to return, for every
    collection and every candidate filename, a name that no script other
    than the excluded one carries.  For the candidate [{], whatever the
    collection and the excluded script, it returns no name: the template is
    [{{}], whose closing brace stands alone, and [str.format] raises a
    ValueError. *)
Theorem uniqueify_filename_lone_brace (scripts : ref -> Script)
    (model : list ref) (curr_script : option ref) :
  uniqueify_filename scripts model curr_script "{" = Raise ValueError.
Proof. reflexivity. Qed.

(** For a candidate without braces the name returned differs from the
    filename of every script of the collection but the excluded one. *)
Lemma uniqueify_filename_unique (scripts : ref -> Script) (model : list ref)
    (curr_script : option ref) (filename : string) :
  Py.brace_free filename = true ->
  exists name,
    uniqueify_filename scripts model curr_script filename = Ok name /\
    forall script, script ∈ model -> Some script <> curr_script ->
      _filename (scripts script) <> name.
Proof.
  intros Hb.
  destruct (uniqueify_filename_plain scripts model curr_script filename
              (stem_of_brace_free filename Hb)) as (name & Hrun & Hfree & _).
  exists name. split; [exact Hrun|].
  intros script Hin Hne Heq. apply Hfree. rewrite <- Heq.
  now apply script_names_elem.
Qed.

(** C5 (counterexample).  The candidate [notes.txt] keeps its extension:
    the name returned is [notes.txt.py], not [notes.py]. *)
Lemma uniqueify_filename_keeps_txt :
  uniqueify_filename three_scripts [0; 1; 2] None "notes.txt" = Ok "notes.txt.py" /\
  uniqueify_filename three_scripts [0; 1; 2] None "notes.txt" <> Ok "notes.py".
Proof. split; [reflexivity | discriminate]. Qed.

(** C5 (amended).  For every candidate filename without braces,
    [uniqueify_filename] takes off a final [.py] and nothing else, puts the
    default stem [scratch] for an empty stem, and returns [stem.py] when no
    other script carries that name, else [stem_k.py] for the least [k] from
    2 on that no other script carries. *)
Theorem uniqueify_filename_resolves (scripts : ref -> Script)
    (model : list ref) (curr_script : option ref) (filename : string) :
  Py.brace_free filename = true ->
  exists stem name,
    ((exists base, filename = base ++ ".py" /\ stem = or_default base) \/
     ((forall base, filename <> base ++ ".py") /\ stem = or_default filename)) /\
    uniqueify_filename scripts model curr_script filename = Ok name /\
    (name ∉ script_names scripts model curr_script) /\
    (name = stem ++ ".py" \/
     exists k, 2 <= k /\
       name = stem ++ "_" ++ Py.str k ++ ".py" /\
       stem ++ ".py" ∈ script_names scripts model curr_script /\
       forall j, 2 <= j < k ->
         stem ++ "_" ++ Py.str j ++ ".py" ∈ script_names scripts model curr_script).
Proof.
  intros Hb.
  destruct (uniqueify_filename_plain scripts model curr_script filename
              (stem_of_brace_free filename Hb))
    as (name & Hrun & Hfree & Hshape).
  exists (stem_of filename), name.
  split; [exact (stem_of_spec filename)|].
  split; [exact Hrun|]. split; [exact Hfree|].
  assert (Hc : forall i, candidate (stem_of filename) i
                         = stem_of filename ++ "_" ++ Py.str i ++ ".py").
  { intros i. unfold candidate, py_suffix. now rewrite !append_assoc. }
  destruct Hshape as [->|(k & Hk & -> & Hin & Hmin)]; [now left|].
  right. exists k. split; [exact Hk|]. split; [apply Hc|].
  split; [exact Hin|]. intros j Hj. rewrite <- Hc. now apply Hmin.
Qed.

Lemma uniqueify_filename_resolves_witness :
  Py.brace_free "a.py" = true /\
  exists stem name,
    ((exists base, "a.py" = base ++ ".py" /\ stem = or_default base) \/
     ((forall base, "a.py" <> base ++ ".py") /\ stem = or_default "a.py")) /\
    uniqueify_filename three_scripts [0; 1; 2] None "a.py" = Ok name /\
    (name ∉ script_names three_scripts [0; 1; 2] None) /\
    (name = stem ++ ".py" \/
     exists k, 2 <= k /\
       name = stem ++ "_" ++ Py.str k ++ ".py" /\
       stem ++ ".py" ∈ script_names three_scripts [0; 1; 2] None /\
       forall j, 2 <= j < k ->
         stem ++ "_" ++ Py.str j ++ ".py" ∈ script_names three_scripts [0; 1; 2] None).
Proof.
  split; [reflexivity|].
  apply (uniqueify_filename_resolves three_scripts [0; 1; 2] None "a.py").
  reflexivity.
Defined.

(** ** Running methods *)

Ltac state_simpl :=
  cbn [scripts next_script documents next_document files dirs emitted
       libraryList _cachedDocuments selected_row editor_text
       with_scripts with_documents with_files with_emitted
       with_libraryList with_selected_row
       _script _filename fullname flags
       put_script put_filename put_fullname put_flags fst snd].

Ltac run :=
  unfold bind, attr, set_attrs, modify, ret, raise, get, lift, emit,
    os_path_exists, path_exists, is_file, is_dir in *;
  repeat (state_simpl; rewrite ?fn_lookup_insert).

(** ** class Script: the claims *)

Lemma cleared_missing (fl : Z) :
  truthy (Z.land (Z.land fl (Z.lnot (Z.lor Modified MissingFromFilesystem)))
                 MissingFromFilesystem) = false.
Proof. rewrite <- Z.land_assoc. now rewrite Z.land_0_r. Qed.

Lemma cleared_modified (fl : Z) :
  truthy (Z.land (Z.land fl (Z.lnot (Z.lor Modified MissingFromFilesystem)))
                 Modified) = false.
Proof. rewrite <- Z.land_assoc. now rewrite Z.land_0_r. Qed.

(** C2 (counterexample).  A script flagged as missing from the file system,
    in an existing scripts folder: setting its content creates the file
    with that content. *)
Lemma set_script_missing_writes :
  truthy (Z.land (flags (scripts st_scratch 0)) MissingFromFilesystem) = true /\
  files st_scratch !! x_py = None /\
  fst (set_script "/d" 0 "new" st_scratch) = Ok tt /\
  files (snd (set_script "/d" 0 "new" st_scratch)) !! x_py = Some "new".
Proof. vm_compute. repeat split. Qed.

(** C2 (amended).  For every Script whose missing flag is set, setting its
    content updates the content in memory and, the scripts folder being
    there, also writes it to the file of the script in that folder; the
    missing and the modified flag are cleared. *)
Theorem set_script_saves_missing (data_dir : string) (st : State)
    (self : ref) (text : string) :
  truthy (Z.land (flags (scripts st self)) MissingFromFilesystem) = true ->
  is_dir st (library_path data_dir (_filename (scripts st self))) = false ->
  dirname (library_path data_dir (_filename (scripts st self))) ∈ dirs st ->
  exists st',
    set_script data_dir self text st = (Ok tt, st') /\
    _script (scripts st' self) = text /\
    files st' =
      <[library_path data_dir (_filename (scripts st self)) := text]> (files st) /\
    fullname (scripts st' self) =
      Some (library_path data_dir (_filename (scripts st self))) /\
    truthy (Z.land (flags (scripts st' self)) MissingFromFilesystem) = false /\
    truthy (Z.land (flags (scripts st' self)) Modified) = false.
Proof.
  intros _ Hd Hp. unfold set_script, _save_script, open_write. run.
  rewrite Hd, bool_decide_eq_true_2 by assumption.
  eexists. split; [reflexivity|]. run.
  repeat split; [apply cleared_missing | apply cleared_modified].
Qed.

Lemma set_script_saves_missing_witness :
  exists st',
    set_script "/d" 0 "new" st_scratch = (Ok tt, st') /\
    _script (scripts st' 0) = "new" /\
    files st' = <[x_py := "new"]> (files st_scratch) /\
    fullname (scripts st' 0) = Some x_py /\
    truthy (Z.land (flags (scripts st' 0)) MissingFromFilesystem) = false /\
    truthy (Z.land (flags (scripts st' 0)) Modified) = false.
Proof.
  apply (set_script_saves_missing "/d" st_scratch 0 "new").
  - reflexivity.
  - vm_compute. reflexivity.
  - vm_compute. set_solver.
Defined.

(** The constructor is the one place that leaves the file system alone for
    a script flagged as missing. *)
Lemma Script__init__missing (data_dir : string) (st : State)
    (script filename : string) (fl : Z) :
  truthy (Z.land fl MissingFromFilesystem) = true ->
  exists st',
    Script__init__ data_dir script filename fl st = (Ok (next_script st), st') /\
    files st' = files st /\
    scripts st' (next_script st) = mkScript script filename None fl.
Proof.
  intros Hm. unfold Script__init__. run. rewrite Hm. run.
  eexists. split; [reflexivity|]. run. split; reflexivity.
Qed.




(** C4 (counterexample).  A saved script whose file is gone: a new filename
    is accepted without any error, nothing is renamed on disk and no
    signal is emitted. *)
Lemma set_filename_source_absent :
  truthy (Z.land (flags (scripts st_deleted 0)) MissingFromFilesystem) = false /\
  path_exists st_deleted x_py = false /\
  fst (set_filename "/d" 0 "y.py" st_deleted) = Ok tt /\
  files (snd (set_filename "/d" 0 "y.py" st_deleted)) = files st_deleted /\
  emitted (snd (set_filename "/d" 0 "y.py" st_deleted)) = [].
Proof. vm_compute. repeat split. Qed.

(** C4 (amended).  For every Script not flagged as missing, setting its
    filename to a different name stores the name and the new path in
    memory.  When the file at the old path exists (and the new path can be
    written), it is renamed to the new path and the signal scriptRenamed is
    emitted with the old and the new filename.  When nothing exists at the
    old path, no error is raised: nothing is renamed and no signal is
    emitted. *)
Theorem set_filename_renames (data_dir : string) (st : State) (self : ref)
    (filename old : string) :
  truthy (Z.land (flags (scripts st self)) MissingFromFilesystem) = false ->
  _filename (scripts st self) <> filename ->
  fullname (scripts st self) = Some old ->
  (forall content,
      files st !! old = Some content ->
      is_dir st (library_path data_dir filename) = false ->
      dirname (library_path data_dir filename) ∈ dirs st ->
      exists st',
        set_filename data_dir self filename st = (Ok tt, st') /\
        files st' = <[library_path data_dir filename := content]>
                      (delete old (files st)) /\
        emitted st' = (emitted st ++
                        [scriptRenamed (_filename (scripts st self)) filename])%list /\
        _filename (scripts st' self) = filename /\
        fullname (scripts st' self) = Some (library_path data_dir filename)) /\
  (path_exists st old = false ->
      exists st',
        set_filename data_dir self filename st = (Ok tt, st') /\
        files st' = files st /\
        emitted st' = emitted st /\
        _filename (scripts st' self) = filename /\
        fullname (scripts st' self) = Some (library_path data_dir filename)).
Proof.
  intros Hm Hne Hold.
  apply String.eqb_neq in Hne.
  split.
  - intros content Hfile Hd Hp.
    unfold set_filename, os_rename. run.
    rewrite Hne. run. rewrite Hm. run. rewrite Hold. run.
    rewrite Hfile. rewrite bool_decide_eq_true_2 by (now exists content).
    cbn [orb]. run. rewrite Hfile. run.
    rewrite Hd, bool_decide_eq_true_2 by assumption.
    eexists. split; [reflexivity|]. run. repeat split.
  - intros Habsent.
    unfold set_filename. run.
    rewrite Hne. run. rewrite Hm. run. rewrite Hold. run.
    rewrite Habsent.
    eexists. split; [reflexivity|]. run. repeat split.
Qed.

Lemma set_filename_renames_witness :
  (exists st',
      set_filename "/d" 0 "y.py" st_saved = (Ok tt, st') /\
      files st' = <[library_path "/d" "y.py" := "1"]> (delete x_py (files st_saved)) /\
      emitted st' = (emitted st_saved ++ [scriptRenamed "x.py" "y.py"])%list /\
      _filename (scripts st' 0) = "y.py" /\
      fullname (scripts st' 0) = Some (library_path "/d" "y.py")) /\
  (exists st',
      set_filename "/d" 0 "y.py" st_deleted = (Ok tt, st') /\
      files st' = files st_deleted /\
      emitted st' = emitted st_deleted /\
      _filename (scripts st' 0) = "y.py" /\
      fullname (scripts st' 0) = Some (library_path "/d" "y.py")).
Proof.
  split.
  - apply (set_filename_renames "/d" st_saved 0 "y.py" x_py);
      [reflexivity | discriminate | reflexivity | | |].
    + vm_compute. reflexivity.
    + vm_compute. reflexivity.
    + vm_compute. set_solver.
  - apply (set_filename_renames "/d" st_deleted 0 "y.py" x_py);
      [reflexivity | discriminate | reflexivity |].
    vm_compute. reflexivity.
Defined.

(** C8.  For every Script whose file is absent when [reload] is called,
    [reload] returns False, the missing flag is set afterwards, and the
    content in memory is what it was; the file system is not touched. *)
Theorem reload_absent_file (st : State) (self : ref) (p : string) :
  fullname (scripts st self) = Some p ->
  path_exists st p = false ->
  exists st',
    reload self st = (Ok false, st') /\
    truthy (Z.land (flags (scripts st' self)) MissingFromFilesystem) = true /\
    _script (scripts st' self) = _script (scripts st self) /\
    files st' = files st.
Proof.
  intros Hp Habsent. unfold reload. run. rewrite Hp. run. rewrite Habsent.
  cbn [negb]. run.
  eexists. split; [reflexivity|]. run. repeat split.
Qed.

(** The scenario of C8: [reload] after the content was set to [2] and the
    file deleted by another program. *)
Lemma reload_absent_file_witness :
  _script (scripts st_set_then_deleted 0) = "2" /\
  exists st',
    reload 0 st_set_then_deleted = (Ok false, st') /\
    truthy (Z.land (flags (scripts st' 0)) MissingFromFilesystem) = true /\
    _script (scripts st' 0) = _script (scripts st_set_then_deleted 0) /\
    files st' = files st_set_then_deleted.
Proof.
  split; [reflexivity|].
  apply (reload_absent_file st_set_then_deleted 0 x_py).
  - reflexivity.
  - vm_compute. reflexivity.
Defined.

(** A script that was never saved has no path yet, and [reload] cannot ask
    whether its file exists: [os.path.exists(None)] raises TypeError. *)
Lemma reload_never_saved (st : State) (self : ref) :
  fullname (scripts st self) = None ->
  reload self st = (Raise TypeError, st).
Proof. intros Hp. unfold reload. run. now rewrite Hp. Qed.

(** C10.  For every Script whose file is absent, the failed [reload] stores
    MissingFromFilesystem as the whole of [flags]: whatever the flags were,
    the modified flag is off afterwards, while the content in memory is
    left as it was. *)
Theorem reload_drops_modified (st : State) (self : ref) (p : string) :
  fullname (scripts st self) = Some p ->
  path_exists st p = false ->
  exists st',
    reload self st = (Ok false, st') /\
    flags (scripts st' self) = MissingFromFilesystem /\
    truthy (Z.land (flags (scripts st' self)) Modified) = false /\
    _script (scripts st' self) = _script (scripts st self).
Proof.
  intros Hp Habsent. unfold reload. run. rewrite Hp. run. rewrite Habsent.
  cbn [negb]. run.
  eexists. split; [reflexivity|]. run. repeat split.
Qed.

(** A script saved as [1] and changed to [edited] in memory, with the
    modified flag set, loses that flag when its file is gone. *)
Lemma reload_drops_modified_witness :
  truthy (Z.land (flags (scripts st_edited_then_deleted 0)) Modified) = true /\
  _script (scripts st_edited_then_deleted 0) = "edited" /\
  exists st',
    reload 0 st_edited_then_deleted = (Ok false, st') /\
    flags (scripts st' 0) = MissingFromFilesystem /\
    truthy (Z.land (flags (scripts st' 0)) Modified) = false /\
    _script (scripts st' 0) = _script (scripts st_edited_then_deleted 0).
Proof.
  split; [reflexivity|]. split; [reflexivity|].
  apply (reload_drops_modified st_edited_then_deleted 0 x_py).
  - reflexivity.
  - vm_compute. reflexivity.
Defined.

(** ** The list of the widget stays well formed *)

Lemma preserves_bind {A B} (P : State -> Prop) (m : M A) (k : A -> M B) :
  preserves P m -> (forall a, preserves P (k a)) -> preserves P (bind m k).
Proof.
  intros Hm Hk st HP. unfold bind. specialize (Hm st HP).
  destruct (m st) as [[a|e] st']; cbn [snd] in *; [now apply Hk | assumption].
Qed.

Lemma preserves_if {A} (P : State -> Prop) (b : bool) (m1 m2 : M A) :
  preserves P m1 -> preserves P m2 -> preserves P (if b then m1 else m2).
Proof. now destruct b. Qed.

Lemma well_formed_empty (st : State) :
  libraryList st = [] -> well_formed st.
Proof. unfold well_formed. intros ->. split; constructor. Qed.

Lemma well_formed_same (st st' : State) :
  libraryList st' = libraryList st -> next_script st' = next_script st ->
  well_formed st -> well_formed st'.
Proof. unfold well_formed. now intros -> ->. Qed.

Lemma well_formed_append (st st' : State) :
  libraryList st' = (libraryList st ++ [next_script st])%list ->
  next_script st' = S (next_script st) ->
  well_formed st -> well_formed st'.
Proof.
  unfold well_formed. intros -> -> [Hnd Hall]. split.
  - apply list.NoDup_app. split; [assumption|]. split; [|apply NoDup_singleton].
    intros x Hx Hx'. apply list_elem_of_singleton in Hx'. subst x.
    rewrite list.Forall_forall in Hall. apply Hall in Hx. lia.
  - apply Forall_app. split.
    + eapply Forall_impl; [|exact Hall]. cbn. intros; lia.
    + repeat constructor.
Qed.

Lemma well_formed_sublist (st st' : State) :
  libraryList st' `sublist_of` libraryList st ->
  next_script st <= next_script st' ->
  well_formed st -> well_formed st'.
Proof.
  unfold well_formed. intros Hsub Hle [Hnd Hall]. split.
  - eapply sublist_NoDup; eassumption.
  - rewrite list.Forall_forall in *. intros r Hr.
    apply (sublist_subseteq _ _ Hsub), Hall in Hr. lia.
Qed.

(** Methods that touch neither the list nor the allocation of scripts. *)
Ltac same_shape :=
  let st := fresh "st" in
  let Hwf := fresh "Hwf" in
  intros st Hwf; apply (well_formed_same st); [| |exact Hwf];
  repeat case_match; reflexivity.

Lemma wf_ret {A} (a : A) : preserves well_formed (ret a).
Proof. unfold ret. same_shape. Qed.

Lemma wf_raise {A} (e : Exn) : preserves well_formed (@raise A e).
Proof. unfold raise. same_shape. Qed.

Lemma wf_get : preserves well_formed get.
Proof. unfold get. same_shape. Qed.

Lemma wf_attr {A} (self : ref) (f : Script -> A) :
  preserves well_formed (attr self f).
Proof. unfold attr. same_shape. Qed.

Lemma wf_set_attrs (self : ref) (f : Script -> Script) :
  preserves well_formed (set_attrs self f).
Proof. unfold set_attrs, modify. same_shape. Qed.

Lemma wf_emit (sig : Signal) : preserves well_formed (emit sig).
Proof. unfold emit, modify. same_shape. Qed.

Lemma wf_os_path_exists (p : string) : preserves well_formed (os_path_exists p).
Proof. unfold os_path_exists. same_shape. Qed.

Lemma wf_open_write (p text : string) : preserves well_formed (open_write p text).
Proof. unfold open_write. same_shape. Qed.

Lemma wf_open_read (p : string) : preserves well_formed (open_read p).
Proof. unfold open_read. same_shape. Qed.

Lemma wf_os_rename (p q : string) : preserves well_formed (os_rename p q).
Proof. unfold os_rename. same_shape. Qed.

Lemma wf_os_remove (p : string) : preserves well_formed (os_remove p).
Proof. unfold os_remove. same_shape. Qed.

Lemma wf_select_row (row : Z) : preserves well_formed (select_row row).
Proof. unfold select_row, modify. same_shape. Qed.

Lemma wf_getitem (index : Z) : preserves well_formed (getitem index).
Proof. unfold getitem, bind, get, ret, raise. same_shape. Qed.

Create HintDb wf.
#[local] Hint Resolve preserves_bind preserves_if wf_ret wf_raise wf_get
  wf_attr wf_set_attrs wf_emit wf_os_path_exists wf_open_write wf_open_read
  wf_os_rename wf_os_remove wf_select_row wf_getitem : wf.

Lemma wf__save_script (data_dir : string) (self : ref) :
  preserves well_formed (_save_script data_dir self).
Proof. unfold _save_script. auto 20 with wf. Qed.

Lemma wf_set_script (data_dir : string) (self : ref) (text : string) :
  preserves well_formed (set_script data_dir self text).
Proof. unfold set_script. auto using wf__save_script with wf. Qed.

Lemma wf_set_filename (data_dir : string) (self : ref) (filename : string) :
  preserves well_formed (set_filename data_dir self filename).
Proof.
  unfold set_filename.
  apply preserves_bind; [auto with wf|]. intros old.
  apply preserves_if; [auto with wf|].
  apply preserves_bind; [auto with wf|]. intros _.
  apply preserves_bind; [auto with wf|]. intros fl.
  apply preserves_if; [auto with wf|].
  apply preserves_bind; [auto with wf|]. intros [p|]; auto 20 with wf.
Qed.

Lemma wf_reload (self : ref) : preserves well_formed (reload self).
Proof.
  unfold reload. apply preserves_bind; [auto with wf|].
  intros [p|]; auto 20 with wf.
Qed.

Lemma wf_refresh (self : ref) (text : string) (set_modified : bool) :
  preserves well_formed (refresh self text set_modified).
Proof. unfold refresh. auto 20 with wf. Qed.

Lemma wf_addScript (data_dir : string) (text : option string)
    (filename : string) :
  preserves well_formed (addScript data_dir text filename).
Proof.
  intros st Hwf. unfold addScript, Script__init__. run.
  destruct (uniqueify_filename _ _ _ _) as [name|e]; run; [|assumption].
  change (truthy (Z.land 2 MissingFromFilesystem)) with true. run.
  now apply (well_formed_append st).
Qed.

Lemma wf_delitem (index : Z) : preserves well_formed (delitem index).
Proof.
  intros st Hwf. unfold delitem. run.
  destruct (py_index _ _) as [k|]; run; [|assumption].
  apply (well_formed_sublist st); [apply sublist_delete | reflexivity | assumption].
Qed.

Lemma wf_removeScript (data_dir : string) (index : Z) :
  preserves well_formed (removeScript data_dir index).
Proof.
  unfold removeScript.
  apply preserves_bind; [apply wf_getitem|intros script].
  apply preserves_bind; [apply wf_attr|intros filename].
  apply preserves_bind; [apply wf_delitem|intros _].
  apply preserves_bind; [apply wf_attr|intros fl].
  apply preserves_bind; [auto 10 with wf|intros _].
  apply preserves_bind; [apply wf_get|intros st].
  apply preserves_bind; [auto using wf_addScript with wf|intros _].
  apply wf_select_row.
Qed.

Lemma list_remove_sublist (x : ref) (l l' : list ref) :
  list_remove x l = Some l' -> l' `sublist_of` l.
Proof.
  revert l'. induction l as [|y l IH]; intros l' H; [discriminate|].
  cbn in H. destruct (decide (y = x)) as [->|Hne].
  - inversion H; subst. now apply sublist_cons.
  - destruct (list_remove x l) as [r|] eqn:E; [|discriminate].
    inversion H; subst. apply sublist_skip. now apply IH.
Qed.

Lemma wf__handleScriptRemoved (data_dir : string) (filename : string) :
  preserves well_formed (_handleScriptRemoved data_dir filename).
Proof.
  intros st Hwf. unfold _handleScriptRemoved, next_named. run.
  destruct (find _ _) as [script|]; run; [|assumption].
  destruct (bool_decide _); run.
  - now apply (well_formed_same st).
  - destruct (list_remove script (libraryList st)) as [l|] eqn:Hl; run;
      [|assumption].
    assert (Hwf1 : well_formed (with_libraryList l st)).
    { apply (well_formed_sublist st);
        [now apply (list_remove_sublist script) | reflexivity | assumption]. }
    destruct (length l =? 0)%nat.
    + apply (preserves_bind well_formed
               (addScript data_dir None DEFAULT_FILENAME)
               (fun _ => select_row 0));
        auto using wf_addScript with wf.
    + exact Hwf1.
Qed.

Lemma wf_documentForScript (script : ref + Z) :
  preserves well_formed (documentForScript script).
Proof.
  unfold documentForScript.
  apply preserves_bind; [destruct script; [apply wf_ret|apply wf_getitem]|].
  intros s.
  apply preserves_bind; [apply wf_get|intros st0].
  apply preserves_bind.
  - apply preserves_if; [apply wf_ret|].
    apply preserves_bind; [apply wf_attr|intros text].
    unfold modify. same_shape.
  - intros _. apply preserves_bind; [apply wf_get|intros st1].
    destruct (_cachedDocuments st1 !! s); [apply wf_ret|apply wf_raise].
Qed.

(** ** class OWPythonScript: the claims *)

Lemma list_remove_elem (x : ref) (l : list ref) :
  x ∈ l -> exists l', list_remove x l = Some l'.
Proof.
  induction l as [|y l IH]; intros Hin.
  - now apply not_elem_of_nil in Hin.
  - cbn. destruct (decide (y = x)) as [->|Hne]; [now exists l|].
    apply elem_of_cons in Hin as [->|Hin]; [contradiction|].
    destruct (IH Hin) as (l' & ->). now exists (y :: l').
Qed.

Lemma list_remove_NoDup (x : ref) (l l' : list ref) :
  list_remove x l = Some l' -> NoDup l -> x ∉ l'.
Proof.
  revert l'. induction l as [|y l IH]; intros l' H Hnd; [discriminate|].
  cbn in H. inversion Hnd as [|? ? Hy Hnd']; subst.
  destruct (decide (y = x)) as [->|Hne].
  - inversion H; now subst.
  - destruct (list_remove x l) as [r|] eqn:E; [|discriminate].
    inversion H; subst. specialize (IH r eq_refl Hnd').
    intros Hin. apply elem_of_cons in Hin as [->|Hin]; contradiction.
Qed.

Lemma find_elem (f : ref -> bool) (l : list ref) (x : ref) :
  find f l = Some x -> x ∈ l.
Proof. intros H. apply find_some in H as [H _]. now apply list_elem_of_In. Qed.

Lemma uniqueify_filename_first (scripts : ref -> Script) :
  uniqueify_filename scripts [] None DEFAULT_FILENAME = Ok "scratch.py".
Proof. reflexivity. Qed.

(** Adding the default script to an empty list. *)
Lemma addScript_empty (data_dir : string) (st : State) :
  libraryList st = [] ->
  addScript data_dir None DEFAULT_FILENAME st =
    (Ok tt,
     with_libraryList [next_script st]
       (with_scripts
          (<[next_script st := mkScript (editor_text st) "scratch.py" None 2]>
             (scripts st))
          (S (next_script st)) st)).
Proof.
  intros Hl. unfold addScript, Script__init__. run.
  rewrite Hl, uniqueify_filename_first. run.
  change (truthy (Z.land 2 MissingFromFilesystem)) with true. run.
  rewrite Hl. reflexivity.
Qed.

Lemma set_missing_flag (fl : Z) :
  truthy (Z.land (Z.lor fl MissingFromFilesystem) MissingFromFilesystem) = true.
Proof.
  assert (H : Z.land (Z.lor fl MissingFromFilesystem) MissingFromFilesystem
              = MissingFromFilesystem).
  { apply Z.bits_inj'. intros n _. rewrite Z.land_spec, Z.lor_spec.
    destruct (Z.testbit MissingFromFilesystem n);
      [now rewrite orb_true_r | now rewrite andb_false_r]. }
  now rewrite H.
Qed.

(** C7.  A widget receives the signal scriptRemoved for a filename that a
    script of its list carries; [script] is the first such script.  If the
    script has a cached document it stays listed and only its missing flag
    is set.  If it has none it is taken off the list; and if the list is
    empty then, a new script is added and row 0 is selected. *)
Theorem _handleScriptRemoved_reconciles (data_dir : string) (st : State)
    (filename : string) (script : ref) :
  well_formed st ->
  find (fun s => String.eqb (_filename (scripts st s)) filename)
       (libraryList st) = Some script ->
  (is_Some (_cachedDocuments st !! script) ->
     exists st',
       _handleScriptRemoved data_dir filename st = (Ok tt, st') /\
       libraryList st' = libraryList st /\
       scripts st' script =
         put_flags (Z.lor (flags (scripts st script)) MissingFromFilesystem)
                   (scripts st script) /\
       truthy (Z.land (flags (scripts st' script)) MissingFromFilesystem) = true /\
       (forall r, r <> script -> scripts st' r = scripts st r) /\
       files st' = files st /\
       _cachedDocuments st' = _cachedDocuments st /\
       selected_row st' = selected_row st) /\
  (_cachedDocuments st !! script = None ->
     exists st' l,
       _handleScriptRemoved data_dir filename st = (Ok tt, st') /\
       list_remove script (libraryList st) = Some l /\
       (script ∉ libraryList st') /\
       (l <> [] -> libraryList st' = l) /\
       (l = [] ->
          libraryList st' = [next_script st] /\
          scripts st' (next_script st) =
            mkScript (editor_text st) "scratch.py" None 2 /\
          selected_row st' = Some 0)).
Proof.
  intros [Hnd Halloc] Hfind.
  pose proof (find_elem _ _ _ Hfind) as Hin.
  split.
  - intros Hcached.
    unfold _handleScriptRemoved, next_named. run. rewrite Hfind. run.
    rewrite bool_decide_eq_true_2 by assumption. run.
    eexists. split; [reflexivity|]. run.
    repeat split; [apply set_missing_flag|].
    intros r Hr. now apply fn_lookup_insert_ne.
  - intros Hnone.
    destruct (list_remove_elem script (libraryList st) Hin) as (l & Hl).
    pose proof (list_remove_NoDup _ _ _ Hl Hnd) as Hgone.
    unfold _handleScriptRemoved, next_named. run. rewrite Hfind. run.
    rewrite bool_decide_eq_false_2
      by (rewrite Hnone; intros [? ?]; discriminate).
    rewrite Hl. run.
    destruct l as [|r l].
    + cbn [length Nat.eqb].
      rewrite addScript_empty by reflexivity.
      unfold select_row. run.
      eexists; exists []. split; [reflexivity|]. run.
      split; [reflexivity|]. split.
      * intros Hs. apply list_elem_of_singleton in Hs.
        rewrite Forall_forall in Halloc.
        apply list_elem_of_In, Halloc in Hin. lia.
      * split; [congruence|]. intros _. repeat split.
    + cbn [length Nat.eqb]. run.
      eexists; exists (r :: l). split; [reflexivity|]. run.
      split; [reflexivity|]. split; [exact Hgone|].
      split; [reflexivity | discriminate].
Qed.

Lemma _handleScriptRemoved_reconciles_witness :
  (exists st',
      _handleScriptRemoved "/d" "a.py" st_two = (Ok tt, st') /\
      libraryList st' = [0; 1] /\
      truthy (Z.land (flags (scripts st' 0)) MissingFromFilesystem) = true) /\
  (exists st',
      _handleScriptRemoved "/d" "b.py" st_two = (Ok tt, st') /\
      libraryList st' = [0]) /\
  (exists st',
      _handleScriptRemoved "/d" "x.py" st_saved = (Ok tt, st') /\
      libraryList st' = [1] /\
      scripts st' 1 = mkScript "typed" "scratch.py" None 2 /\
      selected_row st' = Some 0).
Proof.
  assert (Htwo : well_formed st_two).
  { split; [apply (NoDup_seq 0 2) | repeat constructor]. }
  assert (Hone : well_formed st_saved).
  { split; [apply (NoDup_seq 0 1) | repeat constructor]. }
  split; [|split].
  - destruct (_handleScriptRemoved_reconciles "/d" st_two "a.py" 0 Htwo eq_refl)
      as [Hcached _].
    destruct Hcached as (st' & Hrun & Hlist & _ & Hflag & _).
    { exists 0. reflexivity. }
    exists st'. repeat split; assumption.
  - destruct (_handleScriptRemoved_reconciles "/d" st_two "b.py" 1 Htwo eq_refl)
      as [_ Hplain].
    destruct Hplain as (st' & l & Hrun & Hl & _ & Hrest & _).
    { reflexivity. }
    injection Hl as Hl. subst l.
    exists st'. split; [assumption|]. apply Hrest. discriminate.
  - destruct (_handleScriptRemoved_reconciles "/d" st_saved "x.py" 0 Hone eq_refl)
      as [_ Hplain].
    destruct Hplain as (st' & l & Hrun & Hl & _ & _ & Hnew).
    { reflexivity. }
    injection Hl as Hl. subst l.
    destruct (Hnew eq_refl) as (Hlist & Hobj & Hsel).
    exists st'. repeat split; assumption.
Defined.

Lemma py_index_bounds (n : nat) (i : Z) (k : nat) :
  py_index n i = Some k ->
  k < n /\ (- Z.of_nat n <= i < Z.of_nat n)%Z.
Proof.
  unfold py_index. intros H.
  destruct ((0 <=? i) && (i <? Z.of_nat n))%Z eqn:E1.
  - apply andb_true_iff in E1 as [H0 H1].
    apply Z.leb_le in H0. apply Z.ltb_lt in H1.
    injection H as H. subst k. lia.
  - destruct ((- Z.of_nat n <=? i) && (i <? 0))%Z eqn:E2; [|discriminate].
    apply andb_true_iff in E2 as [H0 H1].
    apply Z.leb_le in H0. apply Z.ltb_lt in H1.
    injection H as H. subst k. lia.
Qed.

Lemma row_in_range (row : Z) (n : nat) :
  (0 <= row < Z.of_nat n)%Z ->
  ((0 <=? row) && (row <? Z.of_nat n))%Z = true.
Proof.
  intros [H0 H1]. apply andb_true_iff.
  split; [now apply Z.leb_le | now apply Z.ltb_lt].
Qed.

(** C6 (counterexample).  The only script of the list is removed while the
    editor shows the text [typed]: the script created in its place holds
    that text, it is not blank. *)
Lemma removeScript_new_script_not_blank :
  libraryList st_scratch = [0] /\
  fst (removeScript "/d" 0 st_scratch) = Ok tt /\
  libraryList (snd (removeScript "/d" 0 st_scratch)) = [1] /\
  _script (scripts (snd (removeScript "/d" 0 st_scratch)) 1) = "typed" /\
  _script (scripts (snd (removeScript "/d" 0 st_scratch)) 1) <> EmptyString.
Proof. vm_compute. repeat split. discriminate. Qed.

(** C6 (amended).  For every non-empty collection and every index of it,
    removing the Script at that index, when the script is flagged as
    missing or its file is in the scripts folder, does not leave the
    collection empty: if the last entity was removed, a new Script named
    [scratch.py] that holds the text of the editor and is flagged as
    missing is created at once; and the row [max(index - 1, 0)], a row of
    the collection, is selected. *)
Theorem removeScript_leaves_one (data_dir : string) (st : State)
    (index : Z) (k : nat) (script : ref) :
  py_index (length (libraryList st)) index = Some k ->
  libraryList st !! k = Some script ->
  truthy (Z.land (flags (scripts st script)) MissingFromFilesystem) = true \/
    is_Some (files st !! library_path data_dir (_filename (scripts st script))) ->
  exists st',
    removeScript data_dir index st = (Ok tt, st') /\
    libraryList st' <> [] /\
    (delete k (libraryList st) <> [] ->
       libraryList st' = delete k (libraryList st)) /\
    (delete k (libraryList st) = [] ->
       libraryList st' = [next_script st] /\
       scripts st' (next_script st) =
         mkScript (editor_text st) "scratch.py" None MissingFromFilesystem) /\
    selected_row st' = Some (Z.to_nat (Z.max (index - 1) 0)) /\
    Z.to_nat (Z.max (index - 1) 0) < length (libraryList st').
Proof.
  intros Hk Hs Hdisk.
  destruct (py_index_bounds _ _ _ Hk) as [Hlt Hrange].
  pose proof (Z.max_spec (index - 1) 0) as Hmax.
  assert (Hlen : length (delete k (libraryList st)) = length (libraryList st) - 1).
  { apply length_delete. now exists script. }
  unfold removeScript, getitem, delitem, os_remove, select_row.
  run. rewrite Hk. run. rewrite Hs. run. rewrite Hk. run.
  remember (delete k (libraryList st)) as rest eqn:Hrest.
  assert (Hrow : rest <> [] ->
                 (0 <= Z.max (index - 1) 0 < Z.of_nat (length rest))%Z).
  { intros Hne. destruct rest; [contradiction|]. cbn [length] in *. lia. }
  assert (Hrun : forall st1 : State,
    libraryList st1 = rest -> next_script st1 = next_script st ->
    scripts st1 = scripts st -> editor_text st1 = editor_text st ->
    exists st',
      (let (r, st2) :=
         (if (length rest =? 0)%nat
          then addScript data_dir None DEFAULT_FILENAME
          else fun st => (Ok tt, st)) st1 in
       match r with
       | Ok _ =>
           (Ok tt,
            with_selected_row
              (if ((0 <=? Z.max (index - 1) 0)
                   && (Z.max (index - 1) 0 <? Z.of_nat (length (libraryList st2))))%Z
               then Some (Z.to_nat (Z.max (index - 1) 0)) else None) st2)
       | Raise e => (Raise e, st2)
       end) = (Ok tt, st') /\
      libraryList st' <> [] /\
      (rest <> [] -> libraryList st' = rest) /\
      (rest = [] ->
         libraryList st' = [next_script st] /\
         scripts st' (next_script st) =
           mkScript (editor_text st) "scratch.py" None MissingFromFilesystem) /\
      selected_row st' = Some (Z.to_nat (Z.max (index - 1) 0)) /\
      Z.to_nat (Z.max (index - 1) 0) < length (libraryList st')).
  { intros st1 Hl1 Hn1 Hs1 He1.
    destruct rest as [|r l]; cbn [length Nat.eqb] in *.
    - rewrite addScript_empty by assumption. run.
      rewrite row_in_range by (cbn [length]; lia).
      eexists. split; [reflexivity|]. run. rewrite Hn1, Hs1, He1.
      rewrite fn_lookup_insert.
      repeat split; [discriminate | congruence | cbn [length]; lia].
    - rewrite Hl1. rewrite row_in_range by (apply Hrow; discriminate).
      eexists. split; [reflexivity|]. run. rewrite Hl1.
      repeat split; [discriminate | discriminate | discriminate |].
      specialize (Hrow ltac:(discriminate)). cbn [length]. lia. }
  destruct (truthy (Z.land (flags (scripts st script)) MissingFromFilesystem))
    eqn:Hm; cbn [negb]; run.
  - apply Hrun; reflexivity.
  - destruct Hdisk as [Hc|[content Hc]]; [discriminate|].
    rewrite Hc. run. apply Hrun; reflexivity.
Qed.

Lemma removeScript_leaves_one_witness :
  (exists st',
      removeScript "/d" 0 st_scratch = (Ok tt, st') /\
      libraryList st' = [1] /\
      scripts st' 1 = mkScript "typed" "scratch.py" None MissingFromFilesystem /\
      selected_row st' = Some 0) /\
  (exists st',
      removeScript "/d" (-1) st_two = (Ok tt, st') /\
      libraryList st' = [0] /\
      selected_row st' = Some 0).
Proof.
  split.
  - destruct (removeScript_leaves_one "/d" st_scratch 0 0 0)
      as (st' & Hrun & _ & _ & Hnew & Hsel & _);
      [reflexivity | reflexivity | left; reflexivity |].
    destruct (Hnew eq_refl) as [Hlist Hobj].
    exists st'. repeat split; assumption.
  - destruct (removeScript_leaves_one "/d" st_two (-1) 1 1)
      as (st' & Hrun & _ & Hrest & _ & Hsel & _);
      [reflexivity | reflexivity | right; exists "print(2)"; reflexivity |].
    exists st'. repeat split; [assumption | | assumption].
    apply Hrest. discriminate.
Defined.

(** Where the guard of C6 fails: the script is not flagged as missing but
    its file is gone.  [os.remove] raises after the script has left the
    list, and the list stays empty. *)
Lemma removeScript_file_gone :
  fst (removeScript "/d" 0 st_deleted) = Raise FileNotFoundError /\
  libraryList (snd (removeScript "/d" 0 st_deleted)) = [].
Proof. vm_compute. split; reflexivity. Qed.

(** An index outside the list raises IndexError and changes nothing. *)
Lemma removeScript_bad_index (data_dir : string) (st : State) (index : Z) :
  py_index (length (libraryList st)) index = None ->
  removeScript data_dir index st = (Raise IndexError, st).
Proof.
  intros Hk. unfold removeScript, getitem. run. now rewrite Hk.
Qed.

(** C9.  For every Script [s], a first call of [documentForScript] returns
    a document, and a second call returns that very document, the one the
    cache holds for [s]: no document is built and nothing changes. *)
Theorem documentForScript_cached (st : State) (s : ref) :
  exists doc st1,
    documentForScript (inl s) st = (Ok doc, st1) /\
    _cachedDocuments st1 !! s = Some doc /\
    documentForScript (inl s) st1 = (Ok doc, st1).
Proof.
  unfold documentForScript. run.
  destruct (_cachedDocuments st !! s) as [doc|] eqn:Hc.
  - rewrite bool_decide_eq_true_2 by (now exists doc). run. rewrite Hc.
    exists doc, st. repeat split; [assumption|].
    rewrite bool_decide_eq_true_2 by (now exists doc). run. now rewrite Hc.
  - rewrite bool_decide_eq_false_2 by (intros [? ?]; discriminate). run.
    rewrite lookup_insert_eq.
    eexists; eexists. split; [reflexivity|]. run.
    rewrite lookup_insert_eq. split; [reflexivity|].
    rewrite bool_decide_eq_true_2 by (now eexists). run.
    now rewrite lookup_insert_eq.
Qed.

(** The first call on a script without a document builds one from the
    content of the script. *)
Lemma documentForScript_builds (st : State) (s : ref) :
  _cachedDocuments st !! s = None ->
  exists st1,
    documentForScript (inl s) st = (Ok (next_document st), st1) /\
    documents st1 (next_document st) =
      mkDoc (_script (scripts st s)) false (defaultFont, defaultFontSize) /\
    next_document st1 = S (next_document st).
Proof.
  intros Hc. unfold documentForScript. run. rewrite Hc.
  rewrite bool_decide_eq_false_2 by (intros [? ?]; discriminate). run.
  rewrite lookup_insert_eq.
  eexists. split; [reflexivity|]. run. split; reflexivity.
Qed.

(** * More properties *)

(** ** class Script, continued *)

Lemma land_not_modified_missing (fl : Z) :
  Z.land (Z.land fl (Z.lnot Modified)) MissingFromFilesystem
  = Z.land fl MissingFromFilesystem.
Proof. now rewrite <- Z.land_assoc. Qed.

Lemma land_or_modified_missing (fl : Z) :
  Z.land (Z.lor fl Modified) MissingFromFilesystem
  = Z.land fl MissingFromFilesystem.
Proof. rewrite Z.land_lor_distr_l. apply Z.lor_0_r. Qed.

Lemma land_not_modified (fl : Z) :
  Z.land (Z.land fl (Z.lnot Modified)) Modified = 0%Z.
Proof. rewrite <- Z.land_assoc. apply Z.land_0_r. Qed.



(** X2.  Two calls of [refresh] with the same text, whatever their
    [set_modified]: the script holds that text and its modified flag is
    off, also when the first call turned it on; the missing flag and the
    file system are as before. *)
Theorem refresh_twice (st : State) (self : ref) (text : string)
    (first second : bool) :
  exists st',
    (refresh self text first ;; refresh self text second) st = (Ok tt, st') /\
    _script (scripts st' self) = text /\
    truthy (Z.land (flags (scripts st' self)) Modified) = false /\
    Z.land (flags (scripts st' self)) MissingFromFilesystem
      = Z.land (flags (scripts st self)) MissingFromFilesystem /\
    files st' = files st.
Proof.
  unfold refresh. run.
  destruct (String.eqb (_script (scripts st self)) text) eqn:E; cbn [negb]; run.
  - rewrite E. cbn [negb]. run.
    apply String.eqb_eq in E.
    eexists. split; [reflexivity|]. run.
    repeat split; [assumption | now rewrite land_not_modified |].
    now rewrite !land_not_modified_missing.
  - destruct first; run; rewrite String.eqb_refl; cbn [negb]; run;
      (eexists; split; [reflexivity|]); run;
      (repeat split; [now rewrite land_not_modified|]).
    + now rewrite land_not_modified_missing, land_or_modified_missing.
    + now rewrite land_not_modified_missing.
Qed.

(** ** uniqueify_filename, continued *)

Lemma script_names_inv (scripts : ref -> Script) (model : list ref)
    (curr_script : option ref) (name : string) :
  name ∈ script_names scripts model curr_script ->
  exists script, script ∈ model /\ Some script <> curr_script /\
                 _filename (scripts script) = name.
Proof.
  induction model as [|r model IH]; cbn; intros Hin.
  - now apply not_elem_of_nil in Hin.
  - destruct (decide (Some r = curr_script)) as [Heq|Hne].
    + destruct (IH Hin) as (s & Hs & Hc & Hn).
      exists s. split; [now apply list_elem_of_further | now split].
    + apply elem_of_cons in Hin as [->|Hin].
      * exists r. split; [apply list_elem_of_here | now split].
      * destruct (IH Hin) as (s & Hs & Hc & Hn).
        exists s. split; [now apply list_elem_of_further | now split].
Qed.

(** Whatever [uniqueify_filename] returns is free and ends in [.py]. *)
Lemma uniqueify_filename_Ok (scripts : ref -> Script) (model : list ref)
    (curr_script : option ref) (filename name : string) :
  uniqueify_filename scripts model curr_script filename = Ok name ->
  (name ∉ script_names scripts model curr_script) /\
  Py.endswith name ".py" = true.
Proof.
  intros Hrun.
  destruct (Py.unescape (stem_of filename)) as [pre|] eqn:Hu.
  - destruct (uniqueify_filename_unescaped scripts model curr_script
                filename pre Hu) as (name' & Hrun' & Hfree & Hshape).
    rewrite Hrun in Hrun'. injection Hrun' as <-.
    split; [exact Hfree|].
    destruct Hshape as [->|(k & _ & -> & _)]; apply endswith_append.
  - destruct (uniqueify_filename_refused scripts model curr_script
                filename Hu) as (e & Hrun' & _).
    rewrite Hrun in Hrun'. discriminate.
Qed.

Lemma uniqueify_filename_Raise (scripts : ref -> Script) (model : list ref)
    (curr_script : option ref) (filename : string) (e : Exn) :
  uniqueify_filename scripts model curr_script filename = Raise e ->
  format_error e.
Proof.
  intros Hrun. destruct (Py.unescape (stem_of filename)) as [pre|] eqn:Hu.
  - destruct (uniqueify_filename_unescaped scripts model curr_script
                filename pre Hu) as (name' & Hrun' & _).
    rewrite Hrun in Hrun'. discriminate.
  - destruct (uniqueify_filename_refused scripts model curr_script
                filename Hu) as (e' & Hrun' & He).
    rewrite Hrun in Hrun'. now injection Hrun' as <-.
Qed.

(** X3.  Whatever the collection, the excluded script and the candidate,
    [uniqueify_filename] either returns a name that ends in [.py] and that
    no script of the collection but the excluded one carries, or raises the
    ValueError, IndexError or other exception of [str.format]; its loop
    always ends. *)
Theorem uniqueify_filename_outcome (scripts : ref -> Script)
    (model : list ref) (curr_script : option ref) (filename : string) :
  (exists name,
      uniqueify_filename scripts model curr_script filename = Ok name /\
      Py.endswith name ".py" = true /\
      forall script, script ∈ model -> Some script <> curr_script ->
        _filename (scripts script) <> name) \/
  (exists e,
      uniqueify_filename scripts model curr_script filename = Raise e /\
      format_error e).
Proof.
  destruct (uniqueify_filename scripts model curr_script filename)
    as [name|e] eqn:Hrun.
  - left. destruct (uniqueify_filename_Ok _ _ _ _ _ Hrun) as [Hfree Hpy].
    exists name. repeat split; [assumption|].
    intros script Hin Hne Heq. apply Hfree. rewrite <- Heq.
    now apply script_names_elem.
  - right. exists e. split; [reflexivity|].
    exact (uniqueify_filename_Raise _ _ _ _ _ Hrun).
Qed.

Lemma brace_free_digits (d : Decimal.uint) :
  Py.brace_free (NilEmpty.string_of_uint d) = true.
Proof. induction d; cbn; auto. Qed.

Lemma brace_free_str (i : nat) : Py.brace_free (Py.str i) = true.
Proof.
  unfold Py.str, NilZero.string_of_uint.
  destruct (Nat.to_uint i) eqn:E; try (rewrite <- E; apply brace_free_digits).
  reflexivity.
Qed.

Lemma or_default_nonempty (s : string) : or_default s <> EmptyString.
Proof.
  unfold or_default. destruct (String.eqb s EmptyString) eqn:E.
  - discriminate.
  - now apply String.eqb_neq in E.
Qed.

Lemma stem_of_nonempty (filename : string) : stem_of filename <> EmptyString.
Proof.
  destruct (stem_of_spec filename) as [(base & _ & ->)|(_ & ->)];
    apply or_default_nonempty.
Qed.

Lemma stem_of_append_py (stem : string) :
  stem <> EmptyString -> stem_of (stem ++ ".py") = stem.
Proof.
  intros Hne. unfold stem_of.
  change (stem ++ ".py") with (stem ++ py_suffix).
  rewrite (endswith_append stem py_suffix).
  change 3 with (String.length py_suffix).
  rewrite (drop_last_append stem py_suffix).
  apply String.eqb_neq in Hne. now rewrite Hne.
Qed.

Lemma append_nonempty (s t : string) :
  s <> EmptyString -> s ++ t <> EmptyString.
Proof. destruct s; [contradiction|discriminate]. Qed.

(** X4.  The name [uniqueify_filename] returns for a candidate without
    braces is a fixed point: given back as the candidate, with the same
    collection and excluded script, it is returned unchanged. *)
Theorem uniqueify_filename_again (scripts : ref -> Script) (model : list ref)
    (curr_script : option ref) (filename name : string) :
  Py.brace_free filename = true ->
  uniqueify_filename scripts model curr_script filename = Ok name ->
  uniqueify_filename scripts model curr_script name = Ok name.
Proof.
  intros Hb Hrun.
  pose proof (stem_of_brace_free filename Hb) as Hbs.
  pose proof (stem_of_nonempty filename) as Hne.
  destruct (uniqueify_filename_plain scripts model curr_script filename Hbs)
    as (name' & Hrun' & Hfree & Hshape).
  rewrite Hrun in Hrun'. injection Hrun' as <-.
  assert (Hx : exists x, name = x ++ ".py" /\ x <> EmptyString /\
                         Py.brace_free x = true).
  { destruct Hshape as [->|(k & _ & -> & _)].
    - now exists (stem_of filename).
    - exists (stem_of filename ++ ("_" ++ Py.str k)).
      split; [reflexivity|]. split; [now apply append_nonempty|].
      rewrite !brace_free_append, Hbs, brace_free_str. reflexivity. }
  destruct Hx as (x & -> & Hxne & Hxb).
  unfold uniqueify_filename. rewrite (stem_of_append_py x Hxne).
  rewrite (format_unescaped x x) by now apply unescape_brace_free.
  rewrite append_empty_r.
  now rewrite bool_decide_eq_false_2.
Qed.

Lemma uniqueify_filename_again_witness :
  uniqueify_filename three_scripts [0; 1; 2] None "a_2.py" = Ok "a_2_2.py" /\
  uniqueify_filename three_scripts [0; 1; 2] None "a_2_2.py" = Ok "a_2_2.py".
Proof.
  split; [reflexivity|].
  apply (uniqueify_filename_again three_scripts [0; 1; 2] None "a_2.py");
    reflexivity.
Defined.

(** ** Filenames stay unique *)

Lemma bind_Ok {A B} (m : M A) (k : A -> M B) (st st1 : State) (a : A) :
  m st = (Ok a, st1) -> bind m k st = k a st1.
Proof. intros E. unfold bind. now rewrite E. Qed.

Lemma bind_Raise {A B} (m : M A) (k : A -> M B) (st st1 : State) (e : Exn) :
  m st = (Raise e, st1) -> bind m k st = (Raise e, st1).
Proof. intros E. unfold bind. now rewrite E. Qed.

Lemma same_library_refl (st : State) : same_library st st.
Proof. repeat split. Qed.

Lemma same_library_trans (st1 st2 st3 : State) :
  same_library st1 st2 -> same_library st2 st3 -> same_library st1 st3.
Proof.
  intros (Hl & Hn & Hf) (Hl' & Hn' & Hf'). repeat split.
  - now rewrite Hl'. - now rewrite Hn'. - intros r. now rewrite Hf'.
Qed.

Lemma library_ok_same (st st' : State) :
  same_library st st' -> library_ok st -> library_ok st'.
Proof.
  intros (Hl & Hn & Hf) [Hwf Hun]. split.
  - now apply (well_formed_same st).
  - intros r1 r2. rewrite Hl, !Hf. apply Hun.
Qed.

Lemma keeps_preserves {A} (m : M A) :
  keeps_library m -> preserves library_ok m.
Proof. intros Hk st Hok. exact (library_ok_same st _ (Hk st) Hok). Qed.

Lemma keeps_bind {A B} (m : M A) (k : A -> M B) :
  keeps_library m -> (forall a, keeps_library (k a)) -> keeps_library (bind m k).
Proof.
  intros Hm Hk st. unfold bind. specialize (Hm st).
  destruct (m st) as [[a|e] st1]; cbn [snd] in *; [|assumption].
  exact (same_library_trans _ _ _ Hm (Hk a st1)).
Qed.

Lemma keeps_if {A} (b : bool) (m1 m2 : M A) :
  keeps_library m1 -> keeps_library m2 -> keeps_library (if b then m1 else m2).
Proof. now destruct b. Qed.

Ltac keeps_all :=
  let st := fresh "st" in
  intros st; repeat case_match; apply same_library_refl.

Lemma keeps_ret {A} (a : A) : keeps_library (ret a).
Proof. unfold ret. keeps_all. Qed.

Lemma keeps_raise {A} (e : Exn) : keeps_library (@raise A e).
Proof. unfold raise. keeps_all. Qed.

Lemma keeps_lift {A} (r : Res A) : keeps_library (lift r).
Proof. unfold lift. keeps_all. Qed.

Lemma keeps_get : keeps_library get.
Proof. unfold get. keeps_all. Qed.

Lemma keeps_attr {A} (self : ref) (f : Script -> A) : keeps_library (attr self f).
Proof. unfold attr. keeps_all. Qed.

Lemma keeps_set_attrs (self : ref) (f : Script -> Script) :
  (forall s, _filename (f s) = _filename s) ->
  keeps_library (set_attrs self f).
Proof.
  intros Hf st. unfold set_attrs, modify. repeat split. intros r. run.
  destruct (decide (self = r)) as [->|Hne].
  - now rewrite fn_lookup_insert.
  - now rewrite fn_lookup_insert_ne.
Qed.

Ltac keeps_shape :=
  let st := fresh "st" in
  intros st; repeat case_match; repeat split.

Lemma keeps_emit (sig : Signal) : keeps_library (emit sig).
Proof. unfold emit, modify. keeps_shape. Qed.

Lemma keeps_os_path_exists (p : string) : keeps_library (os_path_exists p).
Proof. unfold os_path_exists. keeps_all. Qed.

Lemma keeps_open_write (p text : string) : keeps_library (open_write p text).
Proof. unfold open_write. keeps_shape. Qed.

Lemma keeps_open_read (p : string) : keeps_library (open_read p).
Proof. unfold open_read. keeps_all. Qed.

Lemma keeps_os_rename (p q : string) : keeps_library (os_rename p q).
Proof. unfold os_rename. keeps_shape. Qed.

Lemma keeps_os_remove (p : string) : keeps_library (os_remove p).
Proof. unfold os_remove. keeps_shape. Qed.

Lemma keeps_select_row (row : Z) : keeps_library (select_row row).
Proof. unfold select_row, modify. keeps_shape. Qed.

Lemma keeps_getitem (index : Z) : keeps_library (getitem index).
Proof. unfold getitem, bind, get, ret, raise. keeps_all. Qed.

Lemma keeps_next_named (filename : string) : keeps_library (next_named filename).
Proof. unfold next_named, bind, get, ret, raise. keeps_all. Qed.

Create HintDb lib.
#[local] Hint Resolve keeps_bind keeps_if keeps_ret keeps_raise keeps_lift
  keeps_get keeps_attr keeps_emit keeps_os_path_exists keeps_open_write
  keeps_open_read keeps_os_rename keeps_os_remove keeps_select_row
  keeps_getitem keeps_next_named : lib.

Lemma keeps_put_script (self : ref) (text : string) :
  keeps_library (set_attrs self (put_script text)).
Proof. now apply keeps_set_attrs. Qed.

Lemma keeps_put_fullname (self : ref) (path : string) :
  keeps_library (set_attrs self (put_fullname path)).
Proof. now apply keeps_set_attrs. Qed.

Lemma keeps_put_flags (self : ref) (fl : Z) :
  keeps_library (set_attrs self (put_flags fl)).
Proof. now apply keeps_set_attrs. Qed.

#[local] Hint Resolve keeps_put_script keeps_put_fullname keeps_put_flags : lib.

Lemma keeps__save_script (data_dir : string) (self : ref) :
  keeps_library (_save_script data_dir self).
Proof. unfold _save_script. auto 20 with lib. Qed.

Lemma keeps_set_script (data_dir : string) (self : ref) (text : string) :
  keeps_library (set_script data_dir self text).
Proof. unfold set_script. auto using keeps__save_script with lib. Qed.

Lemma keeps_reload (self : ref) : keeps_library (reload self).
Proof.
  unfold reload. apply keeps_bind; [auto with lib|].
  intros [p|]; auto 20 with lib.
Qed.

Lemma keeps_refresh (self : ref) (text : string) (set_modified : bool) :
  keeps_library (refresh self text set_modified).
Proof. unfold refresh. auto 20 with lib. Qed.

Lemma library_ok_append (st st' : State) :
  library_ok st ->
  libraryList st' = (libraryList st ++ [next_script st])%list ->
  next_script st' = S (next_script st) ->
  (forall r, r <> next_script st ->
     _filename (scripts st' r) = _filename (scripts st r)) ->
  (forall r, r ∈ libraryList st ->
     _filename (scripts st r) <> _filename (scripts st' (next_script st))) ->
  library_ok st'.
Proof.
  intros [Hwf Hun] Hl Hn Hold Hfree. split.
  - now apply (well_formed_append st).
  - assert (Hlt : forall r, r ∈ libraryList st -> r <> next_script st).
    { intros r Hr. destruct Hwf as [_ Hall].
      rewrite list.Forall_forall in Hall. apply Hall in Hr. lia. }
    intros r1 r2. rewrite Hl, !elem_of_app, !list_elem_of_singleton.
    intros [H1| ->] [H2| ->] Heq.
    + rewrite !Hold in Heq by auto. now apply Hun.
    + rewrite (Hold r1) in Heq by auto. now apply Hfree in H1.
    + rewrite (Hold r2) in Heq by auto. symmetry in Heq. now apply Hfree in H2.
    + reflexivity.
Qed.

Lemma library_ok_rename (st st' : State) (s : ref) :
  library_ok st ->
  libraryList st' = libraryList st ->
  next_script st' = next_script st ->
  (forall r, r <> s -> _filename (scripts st' r) = _filename (scripts st r)) ->
  (forall r, r ∈ libraryList st -> r <> s ->
     _filename (scripts st r) <> _filename (scripts st' s)) ->
  library_ok st'.
Proof.
  intros [Hwf Hun] Hl Hn Hold Hfree. split.
  - now apply (well_formed_same st).
  - intros r1 r2. rewrite Hl. intros H1 H2 Heq.
    destruct (decide (r1 = s)) as [->|N1], (decide (r2 = s)) as [->|N2].
    + reflexivity.
    + rewrite (Hold r2) in Heq by assumption. symmetry in Heq.
      now apply Hfree in Heq.
    + rewrite (Hold r1) in Heq by assumption. now apply Hfree in Heq.
    + rewrite !Hold in Heq by assumption. now apply Hun.
Qed.

Lemma library_ok_sublist (st st' : State) :
  library_ok st ->
  libraryList st' `sublist_of` libraryList st ->
  next_script st' = next_script st ->
  (forall r, _filename (scripts st' r) = _filename (scripts st r)) ->
  library_ok st'.
Proof.
  intros [Hwf Hun] Hsub Hn Hf. split.
  - apply (well_formed_sublist st); [assumption | lia | assumption].
  - intros r1 r2 H1 H2. rewrite !Hf.
    apply Hun; now apply (sublist_subseteq _ _ Hsub).
Qed.

Lemma preserves_after_modify {B} (P : State -> Prop) (f : State -> State)
    (k : M B) (st : State) :
  P (f st) -> preserves P k -> P (snd ((modify f ;; k) st)).
Proof. intros HP Hk. exact (Hk (f st) HP). Qed.

(** Giving a script a filename no other listed script has. *)
Lemma library_ok_set_filename (data_dir : string) (st : State) (s : ref)
    (name : string) :
  library_ok st ->
  (forall r, r ∈ libraryList st -> r <> s -> _filename (scripts st r) <> name) ->
  library_ok (snd (set_filename data_dir s name st)).
Proof.
  intros Hok Hfree. unfold set_filename.
  unfold bind at 1, attr.
  destruct (String.eqb (_filename (scripts st s)) name); [exact Hok|].
  apply (preserves_after_modify library_ok).
  - apply (library_ok_rename st _ s); run; try reflexivity; try assumption.
    intros r Hr. now rewrite fn_lookup_insert_ne.
  - apply keeps_preserves.
    apply keeps_bind; [auto with lib|]. intros fl.
    apply keeps_if; [auto with lib|].
    apply keeps_bind; [auto with lib|]. intros [old|]; auto 20 with lib.
Qed.

Lemma ok_addScript (data_dir : string) (text : option string)
    (filename : string) :
  preserves library_ok (addScript data_dir text filename).
Proof.
  intros st Hok. unfold addScript, Script__init__. run.
  destruct (uniqueify_filename _ _ _ _) as [name|e] eqn:Hrun; run;
    [|assumption].
  change (truthy (Z.land 2 MissingFromFilesystem)) with true. run.
  destruct (uniqueify_filename_Ok _ _ _ _ _ Hrun) as [Hfree _].
  apply (library_ok_append st); run; try reflexivity; try assumption.
  - intros r Hr. now rewrite fn_lookup_insert_ne.
  - intros r Hr Heq. apply Hfree. rewrite <- Heq.
    now apply script_names_elem.
Qed.

Lemma ok_delitem (index : Z) : preserves library_ok (delitem index).
Proof.
  intros st Hok. unfold delitem. run.
  destruct (py_index _ _) as [k|]; run; [|assumption].
  apply (library_ok_sublist st); run;
    [assumption | apply sublist_delete | reflexivity | reflexivity].
Qed.

Lemma ok_removeScript (data_dir : string) (index : Z) :
  preserves library_ok (removeScript data_dir index).
Proof.
  unfold removeScript.
  apply preserves_bind; [apply keeps_preserves, keeps_getitem|intros script].
  apply preserves_bind; [apply keeps_preserves, keeps_attr|intros filename].
  apply preserves_bind; [apply ok_delitem|intros _].
  apply preserves_bind; [apply keeps_preserves, keeps_attr|intros fl].
  apply preserves_bind; [apply keeps_preserves; auto 10 with lib|intros _].
  apply preserves_bind; [apply keeps_preserves, keeps_get|intros st].
  apply preserves_bind;
    [apply preserves_if; [apply ok_addScript|apply keeps_preserves, keeps_ret]|].
  intros _. apply keeps_preserves, keeps_select_row.
Qed.

Lemma ok__handleScriptRemoved (data_dir : string) (filename : string) :
  preserves library_ok (_handleScriptRemoved data_dir filename).
Proof.
  intros st Hok. unfold _handleScriptRemoved, next_named. run.
  destruct (find _ _) as [script|]; run; [|assumption].
  destruct (bool_decide _); run.
  - apply (library_ok_same st); [|assumption]. repeat split. intros r. run.
    destruct (decide (script = r)) as [->|Hne].
    + now rewrite fn_lookup_insert.
    + now rewrite fn_lookup_insert_ne.
  - destruct (list_remove script (libraryList st)) as [l|] eqn:Hl; run;
      [|assumption].
    assert (Hok1 : library_ok (with_libraryList l st)).
    { apply (library_ok_sublist st); run;
        [assumption | now apply (list_remove_sublist script)
        | reflexivity | reflexivity]. }
    destruct (length l =? 0)%nat.
    + apply (preserves_bind library_ok
               (addScript data_dir None DEFAULT_FILENAME)
               (fun _ => select_row 0)).
      * apply ok_addScript.
      * intros _. apply keeps_preserves, keeps_select_row.
      * exact Hok1.
    + exact Hok1.
Qed.

(** X5.  [addScript], [removeScript] and the slot for scriptRemoved keep the
    list of the widget in order, whether they return or raise: every script
    is listed once, and no two listed scripts carry the same filename. *)
Theorem library_ok_add_remove (data_dir : string) (st : State)
    (text : option string) (filename removed : string) (index : Z) :
  library_ok st ->
  library_ok (snd (addScript data_dir text filename st)) /\
  library_ok (snd (removeScript data_dir index st)) /\
  library_ok (snd (_handleScriptRemoved data_dir removed st)).
Proof.
  intros Hok. split; [|split].
  - now apply ok_addScript.
  - now apply ok_removeScript.
  - now apply ok__handleScriptRemoved.
Qed.

Lemma library_ok_st_two : library_ok st_two.
Proof.
  split.
  - split; [apply (NoDup_seq 0 2) | repeat constructor].
  - intros r1 r2 H1 H2.
    apply (elem_of_seq 0 2) in H1. apply (elem_of_seq 0 2) in H2.
    destruct r1 as [|[|r1]], r2 as [|[|r2]];
      try lia; try reflexivity; discriminate.
Qed.

Lemma library_ok_add_remove_witness :
  library_ok (snd (addScript "/d" None "a.py" st_two)) /\
  library_ok (snd (removeScript "/d" 0 st_two)) /\
  library_ok (snd (_handleScriptRemoved "/d" "b.py" st_two)).
Proof.
  apply (library_ok_add_remove "/d" st_two None "a.py" "b.py" 0).
  apply library_ok_st_two.
Defined.

(** *** Renaming in the list view *)

Lemma set_filename_unfold (data_dir : string) (st : State) (s : ref)
    (name : string) :
  set_filename data_dir s name st =
    if String.eqb (_filename (scripts st s)) name then (Ok tt, st)
    else set_filename_tail data_dir s (_filename (scripts st s)) name
           (with_scripts (<[s := put_filename name (scripts st s)]> (scripts st))
                         (next_script st) st).
Proof.
  unfold set_filename, set_filename_tail. unfold bind at 1, attr.
  now destruct (String.eqb (_filename (scripts st s)) name).
Qed.

Lemma keeps_set_filename_tail (data_dir : string) (s : ref)
    (old name : string) :
  keeps_library (set_filename_tail data_dir s old name).
Proof.
  unfold set_filename_tail.
  apply keeps_bind; [auto with lib|]. intros fl.
  apply keeps_if; [auto with lib|].
  apply keeps_bind; [auto with lib|]. intros [p|]; auto 20 with lib.
Qed.

(** What [set_filename] leaves of the list, however it ends. *)
Lemma set_filename_names (data_dir : string) (st : State) (s : ref)
    (name : string) :
  libraryList (snd (set_filename data_dir s name st)) = libraryList st /\
  next_script (snd (set_filename data_dir s name st)) = next_script st /\
  _filename (scripts (snd (set_filename data_dir s name st)) s) = name /\
  forall r, r <> s ->
    _filename (scripts (snd (set_filename data_dir s name st)) r)
    = _filename (scripts st r).
Proof.
  rewrite set_filename_unfold.
  destruct (String.eqb (_filename (scripts st s)) name) eqn:E.
  - apply String.eqb_eq in E. now repeat split.
  - destruct (keeps_set_filename_tail data_dir s (_filename (scripts st s)) name
                (with_scripts
                   (<[s := put_filename name (scripts st s)]> (scripts st))
                   (next_script st) st)) as (Hl & Hn & Hf).
    repeat split.
    + exact Hl.
    + exact Hn.
    + rewrite Hf. run. reflexivity.
    + intros r Hr. rewrite Hf. run. now rewrite fn_lookup_insert_ne.
Qed.

Lemma ok_setModelData (data_dir : string) (text : string) (row : nat) :
  preserves library_ok (setModelData data_dir text row).
Proof.
  intros st Hok. unfold setModelData.
  destruct (getitem (Z.of_nat row) st) as [[script|e] st1] eqn:Eg.
  - assert (st1 = st) as ->.
    { revert Eg. unfold getitem. run. repeat case_match; congruence. }
    rewrite (bind_Ok _ _ _ _ _ Eg). run.
    destruct (uniqueify_filename _ _ _ _) as [name|e] eqn:Hrun; run;
      [|assumption].
    destruct (uniqueify_filename_Ok _ _ _ _ _ Hrun) as [Hfree _].
    apply library_ok_set_filename; [assumption|].
    intros r Hr Hne Heq. apply Hfree. rewrite <- Heq.
    apply script_names_elem; [assumption | congruence].
  - rewrite (bind_Raise _ _ _ _ _ Eg). cbn [snd].
    assert (st1 = st) as ->; [|assumption].
    revert Eg. unfold getitem. run. repeat case_match; congruence.
Qed.

(** X6.  Renaming a script in the list view: when [setModelData] returns,
    the script carries the name [uniqueify_filename] made of the text typed,
    every other script its old name, and the list of the widget is still in
    order, no two listed scripts sharing a filename. *)
Theorem setModelData_renames (data_dir : string) (st st' : State)
    (text : string) (row : nat) (script : ref) :
  library_ok st ->
  libraryList st !! row = Some script ->
  setModelData data_dir text row st = (Ok tt, st') ->
  library_ok st' /\
  libraryList st' = libraryList st /\
  uniqueify_filename (scripts st) (libraryList st) (Some script) text
    = Ok (_filename (scripts st' script)) /\
  forall r, r <> script ->
    _filename (scripts st' r) = _filename (scripts st r).
Proof.
  intros Hok Hrow Hrun.
  split.
  { pose proof (ok_setModelData data_dir text row st Hok) as H.
    now rewrite Hrun in H. }
  revert Hrun. unfold setModelData, getitem. run.
  assert (Hk : py_index (length (libraryList st)) (Z.of_nat row) = Some row).
  { unfold py_index. apply lookup_lt_Some in Hrow.
    rewrite row_in_range by lia. now rewrite Nat2Z.id. }
  rewrite Hk. run. rewrite Hrow. run.
  destruct (uniqueify_filename _ _ _ _) as [name|e] eqn:Hu; run;
    [|discriminate].
  intros Hrun.
  destruct (set_filename_names data_dir st script name) as (Hl & _ & Hs & Hr).
  rewrite Hrun in Hl, Hs, Hr. cbn [snd] in *.
  split; [exact Hl|]. split; [now rewrite Hs | exact Hr].
Qed.

Lemma setModelData_renames_witness :
  exists st',
    setModelData "/d" "a" 1 st_two = (Ok tt, st') /\
    library_ok st' /\
    libraryList st' = libraryList st_two /\
    uniqueify_filename (scripts st_two) (libraryList st_two) (Some 1) "a"
      = Ok (_filename (scripts st' 1)) /\
    _filename (scripts st' 1) = "a_2.py".
Proof.
  assert (E : setModelData "/d" "a" 1 st_two
              = (Ok tt, snd (setModelData "/d" "a" 1 st_two))).
  { vm_compute. reflexivity. }
  exists (snd (setModelData "/d" "a" 1 st_two)). split; [exact E|].
  destruct (setModelData_renames "/d" st_two _ "a" 1 1 library_ok_st_two
              eq_refl E) as (Hok & Hl & Hu & _).
  split; [exact Hok|]. split; [exact Hl|]. split; [exact Hu|]. reflexivity.
Defined.

(** *** The slot for scriptSaved *)

(** What the constructor leaves behind, however it ends. *)
Lemma Script__init__shape (data_dir : string) (text filename : string)
    (fl : Z) (st : State) :
  libraryList (snd (Script__init__ data_dir text filename fl st)) = libraryList st /\
  next_script (snd (Script__init__ data_dir text filename fl st))
    = S (next_script st) /\
  (forall r, r <> next_script st ->
     scripts (snd (Script__init__ data_dir text filename fl st)) r = scripts st r) /\
  _filename (scripts (snd (Script__init__ data_dir text filename fl st))
                     (next_script st)) = filename /\
  _script (scripts (snd (Script__init__ data_dir text filename fl st))
                   (next_script st)) = text /\
  forall a, fst (Script__init__ data_dir text filename fl st) = Ok a ->
    a = next_script st /\
    (truthy (Z.land fl MissingFromFilesystem) = false ->
     truthy (Z.land (flags (scripts (snd (Script__init__ data_dir text filename fl st))
                                    (next_script st)))
                    MissingFromFilesystem) = false).
Proof.
  unfold Script__init__, _save_script, open_write. run.
  destruct (truthy (Z.land fl MissingFromFilesystem)) eqn:Hm; run;
    [|destruct (_ || _); run; [|destruct (bool_decide _); run]];
    repeat split; intros;
    try (now rewrite ?fn_lookup_insert_ne by auto);
    try congruence; try discriminate; try apply cleared_missing.
Qed.

Lemma refresh_spec (st : State) (self : ref) (text : string) (b : bool) :
  fst (refresh self text b st) = Ok tt /\
  _script (scripts (snd (refresh self text b st)) self) = text /\
  Z.land (flags (scripts (snd (refresh self text b st)) self)) MissingFromFilesystem
    = Z.land (flags (scripts st self)) MissingFromFilesystem.
Proof.
  unfold refresh. run.
  destruct (String.eqb (_script (scripts st self)) text) eqn:E; cbn [negb]; run.
  - apply String.eqb_eq in E. repeat split; [assumption|].
    apply land_not_modified_missing.
  - destruct b; run; repeat split. apply land_or_modified_missing.
Qed.

Lemma set_filename_tail_missing (data_dir : string) (st : State) (s : ref)
    (old name : string) :
  truthy (Z.land (flags (scripts st s)) MissingFromFilesystem) = true ->
  set_filename_tail data_dir s old name st = (Ok tt, st).
Proof. intros Hm. unfold set_filename_tail. run. now rewrite Hm. Qed.

Lemma find_named (st : State) (filename : string) (s : ref) :
  find (fun r => String.eqb (_filename (scripts st r)) filename) (libraryList st)
    = Some s ->
  s ∈ libraryList st /\ _filename (scripts st s) = filename.
Proof.
  intros H. apply find_some in H as [Hin Heq].
  split; [now apply list_elem_of_In | now apply String.eqb_eq].
Qed.

Lemma find_unnamed (st : State) (filename : string) :
  find (fun r => String.eqb (_filename (scripts st r)) filename) (libraryList st)
    = None ->
  forall r, r ∈ libraryList st -> _filename (scripts st r) <> filename.
Proof.
  intros H r Hr. apply list_elem_of_In in Hr.
  pose proof (find_none _ _ H r Hr) as Hf. now apply String.eqb_neq in Hf.
Qed.

(** The [try] block of [_handleScriptSaved] with its [except]: either the
    method is left with the named script refreshed, or no listed script
    carries the filename any more. *)
Lemma _handleScriptSaved_try_spec (data_dir : string) (st : State)
    (filename text : string) :
  library_ok st ->
  library_ok (snd (try_StopIteration
                     (_handleScriptSaved_try data_dir filename text)
                     (ret false) st)) /\
  (fst (try_StopIteration (_handleScriptSaved_try data_dir filename text)
                          (ret false) st) = Ok true ->
   exists script,
     script ∈ libraryList (snd (try_StopIteration
                                  (_handleScriptSaved_try data_dir filename text)
                                  (ret false) st)) /\
     _filename (scripts (snd (try_StopIteration
                                (_handleScriptSaved_try data_dir filename text)
                                (ret false) st)) script) = filename /\
     _script (scripts (snd (try_StopIteration
                              (_handleScriptSaved_try data_dir filename text)
                              (ret false) st)) script) = text /\
     truthy (Z.land (flags (scripts (snd (try_StopIteration
                              (_handleScriptSaved_try data_dir filename text)
                              (ret false) st)) script))
                    MissingFromFilesystem) = false) /\
  (fst (try_StopIteration (_handleScriptSaved_try data_dir filename text)
                          (ret false) st) = Ok false ->
   forall r,
     r ∈ libraryList (snd (try_StopIteration
                             (_handleScriptSaved_try data_dir filename text)
                             (ret false) st)) ->
     _filename (scripts (snd (try_StopIteration
                                (_handleScriptSaved_try data_dir filename text)
                                (ret false) st)) r) <> filename).
Proof.
  intros Hok.
  set (res := try_StopIteration
                (_handleScriptSaved_try data_dir filename text) (ret false) st).
  destruct (find (fun r => String.eqb (_filename (scripts st r)) filename)
                 (libraryList st)) as [s|] eqn:Hfind.
  - destruct (find_named st filename s Hfind) as [Hin Hname].
    destruct (truthy (Z.land (flags (scripts st s)) MissingFromFilesystem))
      eqn:Hm.
    + (* a scratch script carries the name *)
      destruct (uniqueify_filename (scripts st) (libraryList st) None filename)
        as [name|e] eqn:Hu.
      * destruct (uniqueify_filename_Ok _ _ _ _ _ Hu) as [Hfree _].
        assert (Hne : name <> filename).
        { intros ->. apply Hfree. rewrite <- Hname.
          now apply script_names_elem. }
        assert (E : String.eqb filename name = false).
        { apply String.eqb_neq. congruence. }
        assert (Hres : res = (Ok false,
                  with_scripts
                    (<[s := put_filename name (scripts st s)]> (scripts st))
                    (next_script st) st)).
        { unfold res, try_StopIteration, _handleScriptSaved_try, next_named.
          run. rewrite Hfind. run. rewrite Hm. cbn [negb]. run.
          rewrite Hu. run. rewrite set_filename_unfold, Hname, E.
          rewrite set_filename_tail_missing by (run; exact Hm).
          reflexivity. }
        rewrite Hres. cbn [fst snd].
        split; [|split; [discriminate|]].
        -- apply (library_ok_rename st _ s); run; try reflexivity; try assumption.
           ++ intros r Hr. now rewrite fn_lookup_insert_ne.
           ++ intros r Hr _ Heq. apply Hfree. rewrite <- Heq.
              now apply script_names_elem.
        -- intros _ r. run. intros Hr.
           destruct (decide (s = r)) as [->|Hsr].
           ++ now rewrite fn_lookup_insert.
           ++ rewrite fn_lookup_insert_ne by assumption.
              intros Heq. apply Hsr. destruct Hok as [_ Hun].
              apply Hun; [assumption | assumption | congruence].
      * assert (He : format_error e).
        { exact (uniqueify_filename_Raise _ _ _ _ _ Hu). }
        assert (Hres : res = (Raise e, st)).
        { unfold res, try_StopIteration, _handleScriptSaved_try, next_named.
          run. rewrite Hfind. run. rewrite Hm. cbn [negb]. run.
          rewrite Hu. run. now destruct He as [->|[->| ->]]. }
        rewrite Hres. cbn [fst snd].
        split; [assumption | split; discriminate].
    + (* a saved script carries the name *)
      destruct (refresh_spec st s text
                  (bool_decide (is_Some (_cachedDocuments st !! s))))
        as (Hr & Hs & Hf).
      pose proof (keeps_refresh s text
                    (bool_decide (is_Some (_cachedDocuments st !! s))) st)
        as (Hl & Hn & Hnames).
      assert (Hres : res = (Ok true,
                snd (refresh s text
                       (bool_decide (is_Some (_cachedDocuments st !! s))) st))).
      { unfold res, try_StopIteration, _handleScriptSaved_try, next_named.
        run. rewrite Hfind. run. rewrite Hm. cbn [negb]. run.
        destruct (refresh s text _ st) as [[[]|e] st1]; cbn [fst snd] in *;
          [reflexivity | discriminate]. }
      rewrite Hres. cbn [fst snd].
      split; [|split; [|discriminate]].
      * apply (library_ok_same st); [now repeat split | assumption].
      * intros _. exists s. rewrite Hl, Hnames.
        repeat split; try assumption.
        unfold truthy in *. now rewrite Hf.
  - assert (Hres : res = (Ok false, st)).
    { unfold res, try_StopIteration, _handleScriptSaved_try, next_named.
      run. now rewrite Hfind. }
    rewrite Hres. cbn [fst snd].
    split; [assumption | split; [discriminate|]].
    intros _. now apply find_unnamed.
Qed.

(** X7.  A widget whose list is in order handles scriptSaved(filename,
    text): when the slot returns, the list holds a script with that
    filename and that text which is not flagged as missing, and the list is
    still in order, no two listed scripts sharing a filename; a scratch
    script that carried the filename has been given another name. *)
Theorem _handleScriptSaved_lists (data_dir : string) (st st' : State)
    (filename text : string) :
  library_ok st ->
  _handleScriptSaved data_dir filename text st = (Ok tt, st') ->
  library_ok st' /\
  exists script,
    script ∈ libraryList st' /\
    _filename (scripts st' script) = filename /\
    _script (scripts st' script) = text /\
    truthy (Z.land (flags (scripts st' script)) MissingFromFilesystem) = false.
Proof.
  intros Hok. unfold _handleScriptSaved.
  destruct (_handleScriptSaved_try_spec data_dir st filename text Hok)
    as (Hok1 & Htrue & Hfalse).
  destruct (try_StopIteration (_handleScriptSaved_try data_dir filename text)
              (ret false) st) as [[returned|e] st1] eqn:ET;
    cbn [fst snd] in *.
  - rewrite (bind_Ok _ _ _ _ _ ET). destruct returned.
    + unfold ret. intros H. injection H as <-.
      split; [assumption | now apply Htrue].
    + specialize (Hfalse eq_refl).
      destruct (Script__init__shape data_dir text filename 0 st1)
        as (Hl & Hn & Hr & Hf & Hs & Ha).
      destruct (Script__init__ data_dir text filename 0 st1)
        as [[a|e] st2] eqn:EI; cbn [fst snd] in *.
      * rewrite (bind_Ok _ _ _ _ _ EI). unfold modify.
        intros H. injection H as <-.
        destruct (Ha a eq_refl) as [-> Hflag].
        split.
        -- apply (library_ok_append st1); run; try assumption.
           ++ now rewrite Hl.
           ++ intros r Hne. now rewrite Hr.
           ++ intros r Hin. rewrite Hf. now apply Hfalse.
        -- exists (next_script st1). run. rewrite Hl.
           split; [apply elem_of_app; right; apply list_elem_of_here|].
           repeat split; try assumption. now apply Hflag.
      * rewrite (bind_Raise _ _ _ _ _ EI). discriminate.
  - rewrite (bind_Raise _ _ _ _ _ ET). discriminate.
Qed.

Lemma library_ok_one (st : State) (r : ref) :
  libraryList st = [r] -> r < next_script st -> library_ok st.
Proof.
  intros Hl Hr. split.
  - unfold well_formed. rewrite Hl. split; [apply NoDup_singleton|].
    now repeat constructor.
  - intros r1 r2. rewrite Hl, !list_elem_of_singleton. congruence.
Qed.

Lemma _handleScriptSaved_lists_witness :
  exists st',
    _handleScriptSaved "/d" "x.py" "shared" st_scratch = (Ok tt, st') /\
    library_ok st' /\
    (exists script,
        script ∈ libraryList st' /\
        _filename (scripts st' script) = "x.py" /\
        _script (scripts st' script) = "shared" /\
        truthy (Z.land (flags (scripts st' script)) MissingFromFilesystem) = false) /\
    libraryList st' = [0; 1] /\
    _filename (scripts st' 0) = "x_2.py".
Proof.
  assert (E : _handleScriptSaved "/d" "x.py" "shared" st_scratch
              = (Ok tt, snd (_handleScriptSaved "/d" "x.py" "shared" st_scratch))).
  { vm_compute. reflexivity. }
  exists (snd (_handleScriptSaved "/d" "x.py" "shared" st_scratch)).
  split; [exact E|].
  destruct (_handleScriptSaved_lists "/d" st_scratch _ "x.py" "shared"
              (library_ok_one st_scratch 0 eq_refl (le_n 1)) E) as [Hok Hex].
  split; [exact Hok|]. split; [exact Hex|]. split; reflexivity.
Defined.

(** X8.  scriptSaved for a listed script that is not flagged as missing and
    whose text differs: the text is replaced in place.  Nothing is written,
    no script is created, and the modified flag is set only if this widget
    has a document for the script; without one the flag stays as it was. *)
Theorem _handleScriptSaved_in_place (data_dir : string) (st : State)
    (filename text : string) (s : ref) :
  find (fun r => String.eqb (_filename (scripts st r)) filename) (libraryList st)
    = Some s ->
  truthy (Z.land (flags (scripts st s)) MissingFromFilesystem) = false ->
  _script (scripts st s) <> text ->
  exists st',
    _handleScriptSaved data_dir filename text st = (Ok tt, st') /\
    libraryList st' = libraryList st /\
    next_script st' = next_script st /\
    files st' = files st /\
    _script (scripts st' s) = text /\
    flags (scripts st' s) =
      (if bool_decide (is_Some (_cachedDocuments st !! s))
       then Z.lor (flags (scripts st s)) Modified
       else flags (scripts st s)).
Proof.
  intros Hfind Hm Hne. apply String.eqb_neq in Hne.
  unfold _handleScriptSaved, try_StopIteration, _handleScriptSaved_try,
    next_named, refresh.
  run. rewrite Hfind. run. rewrite Hm. cbn [negb]. run.
  rewrite Hne. cbn [negb].
  destruct (bool_decide (is_Some (_cachedDocuments st !! s))); run;
    (eexists; split; [reflexivity|]); run; repeat split.
Qed.

Lemma _handleScriptSaved_in_place_witness :
  (exists st',
      _handleScriptSaved "/d" "a.py" "print(3)" st_two = (Ok tt, st') /\
      _script (scripts st' 0) = "print(3)" /\
      flags (scripts st' 0) = Modified) /\
  (exists st',
      _handleScriptSaved "/d" "b.py" "print(3)" st_two = (Ok tt, st') /\
      _script (scripts st' 1) = "print(3)" /\
      flags (scripts st' 1) = 0%Z).
Proof.
  split.
  - destruct (_handleScriptSaved_in_place "/d" st_two "a.py" "print(3)" 0)
      as (st' & Hrun & _ & _ & _ & Hs & Hf);
      [reflexivity | reflexivity | discriminate |].
    exists st'. repeat split; assumption.
  - destruct (_handleScriptSaved_in_place "/d" st_two "b.py" "print(3)" 1)
      as (st' & Hrun & _ & _ & _ & Hs & Hf);
      [reflexivity | reflexivity | discriminate |].
    exists st'. repeat split; assumption.
Defined.

(** *** The slot for scriptRenamed *)

Lemma find_agree {A} (f g : A -> bool) (l : list A) :
  (forall x, x ∈ l -> f x = g x) -> find f l = find g l.
Proof.
  induction l as [|x l IH]; intros H; [reflexivity|].
  cbn [find]. rewrite (H x) by apply list_elem_of_here.
  rewrite IH; [reflexivity|]. intros y Hy. apply H. now apply list_elem_of_further.
Qed.

Lemma set_filename_moves (data_dir : string) (st : State) (self : ref)
    (new path content : string) :
  _filename (scripts st self) <> new ->
  truthy (Z.land (flags (scripts st self)) MissingFromFilesystem) = false ->
  fullname (scripts st self) = Some path ->
  files st !! path = Some content ->
  is_dir st (library_path data_dir new) = false ->
  dirname (library_path data_dir new) ∈ dirs st ->
  exists st',
    set_filename data_dir self new st = (Ok tt, st') /\
    (forall r, r <> self -> scripts st' r = scripts st r) /\
    _filename (scripts st' self) = new /\
    fullname (scripts st' self) = Some (library_path data_dir new) /\
    files st' = <[library_path data_dir new := content]> (delete path (files st)) /\
    dirs st' = dirs st /\
    libraryList st' = libraryList st /\
    emitted st' =
      (emitted st ++ [scriptRenamed (_filename (scripts st self)) new])%list.
Proof.
  intros Hne Hm Hfull Hfile Hdir Hparent. apply String.eqb_neq in Hne.
  unfold set_filename, os_rename. run.
  rewrite Hne. run. rewrite Hm. run. rewrite Hfull. run.
  rewrite Hfile. rewrite (bool_decide_eq_true_2 (is_Some (Some content)))
    by (now eexists).
  cbn [orb]. run. rewrite ?Hfile, Hdir.
  rewrite bool_decide_eq_true_2 by assumption. run. rewrite ?Hfile.
  eexists. split; [reflexivity|]. run.
  split; [|repeat split].
  intros r Hr. now rewrite !fn_lookup_insert_ne by congruence.
Qed.

Lemma set_filename_in_memory (data_dir : string) (st : State) (self : ref)
    (new path : string) :
  _filename (scripts st self) <> new ->
  truthy (Z.land (flags (scripts st self)) MissingFromFilesystem) = false ->
  fullname (scripts st self) = Some path ->
  path_exists st path = false ->
  exists st',
    set_filename data_dir self new st = (Ok tt, st') /\
    _filename (scripts st' self) = new /\
    fullname (scripts st' self) = Some (library_path data_dir new) /\
    (forall r, r <> self -> scripts st' r = scripts st r) /\
    files st' = files st /\
    emitted st' = emitted st.
Proof.
  intros Hne Hm Hfull Hgone. apply String.eqb_neq in Hne.
  unfold set_filename. run.
  rewrite Hne. run. rewrite Hm. run. rewrite Hfull. run.
  rewrite Hgone.
  eexists. split; [reflexivity|]. run. repeat split.
  intros r Hr. now rewrite !fn_lookup_insert_ne by congruence.
Qed.

(** X9.  Two widgets hold one saved script, [a] in one and [b] in the list
    of the other.  The first widget renames [a], the second then handles
    the signal: the file is renamed once, the signal is emitted once, and
    [b] takes the new name and path in memory without touching the disk or
    emitting again, since nothing is left at the old path. *)
Theorem rename_then__handleScriptRenamed (data_dir : string) (st : State)
    (a b : ref) (old new path content : string) :
  a <> b -> old <> new ->
  scripts st a = scripts st b ->
  _filename (scripts st b) = old ->
  fullname (scripts st b) = Some path ->
  truthy (Z.land (flags (scripts st b)) MissingFromFilesystem) = false ->
  find (fun r => String.eqb (_filename (scripts st r)) old) (libraryList st)
    = Some b ->
  a ∉ libraryList st ->
  files st !! path = Some content ->
  path <> library_path data_dir new ->
  is_dir st path = false ->
  is_dir st (library_path data_dir new) = false ->
  dirname (library_path data_dir new) ∈ dirs st ->
  exists st',
    (set_filename data_dir a new ;; _handleScriptRenamed data_dir old new) st
      = (Ok tt, st') /\
    files st' = <[library_path data_dir new := content]> (delete path (files st)) /\
    emitted st' = (emitted st ++ [scriptRenamed old new])%list /\
    _filename (scripts st' a) = new /\
    _filename (scripts st' b) = new /\
    fullname (scripts st' b) = Some (library_path data_dir new).
Proof.
  intros Hab Hon Hsame Hname Hfull Hm Hfind Hnotin Hfile Hpath Hdir Hdirn Hparent.
  destruct (set_filename_moves data_dir st a new path content)
    as (st1 & Hrun1 & Hother & Ha & _ & Hfiles & Hdirs & Hlist & Hemit);
    try (rewrite Hsame; assumption); try assumption.
  { rewrite Hsame, Hname. assumption. }
  assert (Hb : scripts st1 b = scripts st b) by (apply Hother; congruence).
  assert (Hfind1 :
    find (fun r => String.eqb (_filename (scripts st1 r)) old) (libraryList st1)
      = Some b).
  { rewrite Hlist, <- Hfind. apply find_agree. intros r Hr.
    rewrite Hother; [reflexivity|]. intros ->. now apply Hnotin. }
  destruct (set_filename_in_memory data_dir st1 b new path)
    as (st2 & Hrun2 & Hb1 & Hb2 & Hother2 & Hfiles2 & Hemit2);
    try (rewrite Hb; assumption).
  { rewrite Hb, Hname. assumption. }
  { unfold path_exists, is_file, is_dir. rewrite Hfiles, Hdirs.
    rewrite lookup_insert_ne by congruence. rewrite lookup_delete_eq.
    rewrite bool_decide_eq_false_2 by (intros [? ?]; discriminate).
    exact Hdir. }
  exists st2. split.
  - rewrite (bind_Ok _ _ _ _ _ Hrun1).
    unfold _handleScriptRenamed, try_StopIteration, next_named.
    unfold bind at 1. unfold get at 1. unfold bind at 1. rewrite Hfind1.
    unfold ret at 1. rewrite Hrun2. reflexivity.
  - rewrite Hfiles2, Hemit2, Hfiles, Hemit, Hsame, Hname.
    rewrite Hother2 by congruence. repeat split; assumption.
Qed.

Lemma rename_then__handleScriptRenamed_witness :
  exists st',
    (set_filename "/d" 0 "y.py" ;; _handleScriptRenamed "/d" "x.py" "y.py") st_shared
      = (Ok tt, st') /\
    files st' = <[library_path "/d" "y.py" := "1"]> (delete x_py (files st_shared)) /\
    emitted st' = [scriptRenamed "x.py" "y.py"] /\
    _filename (scripts st' 0) = "y.py" /\
    _filename (scripts st' 1) = "y.py" /\
    fullname (scripts st' 1) = Some (library_path "/d" "y.py").
Proof.
  apply (rename_then__handleScriptRenamed "/d" st_shared 0 1 "x.py" "y.py" x_py "1").
  - discriminate.
  - discriminate.
  - reflexivity.
  - reflexivity.
  - reflexivity.
  - reflexivity.
  - reflexivity.
  - intros H. apply list_elem_of_singleton in H. discriminate.
  - reflexivity.
  - discriminate.
  - vm_compute. reflexivity.
  - vm_compute. reflexivity.
  - apply (bool_decide_unpack _). vm_compute. reflexivity.
Defined.

(** *** The editor's modification flag *)

Lemma getitem_row (st : State) (i : nat) (s : ref) :
  libraryList st !! i = Some s -> getitem (Z.of_nat i) st = (Ok s, st).
Proof.
  intros Hi. pose proof (lookup_lt_Some _ _ _ Hi) as Hlt.
  unfold getitem, py_index. run.
  rewrite row_in_range by lia. rewrite Nat2Z.id, Hi. reflexivity.
Qed.

Lemma land_or_modified (fl : Z) :
  truthy (Z.land (Z.lor fl Modified) Modified) = true.
Proof.
  unfold truthy. apply negb_true_iff, Z.eqb_neq.
  rewrite Z.land_lor_distr_l. intros E.
  apply Z.lor_eq_0_iff in E as [_ E]. discriminate.
Qed.

(** X10.  [onModificationChanged] writes the modified flag of the selected
    script and nothing else: afterwards the flag is the argument, the
    flag for a missing file, the text, the names and every other script are
    as before, and so are the files.  With no row selected the call changes
    nothing. *)
Theorem onModificationChanged_flag (st : State) (modified : bool) :
  (forall i s,
      selected_row st = Some i -> libraryList st !! i = Some s ->
      exists st',
        onModificationChanged modified st = (Ok tt, st') /\
        truthy (Z.land (flags (scripts st' s)) Modified) = modified /\
        Z.land (flags (scripts st' s)) MissingFromFilesystem
          = Z.land (flags (scripts st s)) MissingFromFilesystem /\
        _script (scripts st' s) = _script (scripts st s) /\
        _filename (scripts st' s) = _filename (scripts st s) /\
        fullname (scripts st' s) = fullname (scripts st s) /\
        (forall r, r <> s -> scripts st' r = scripts st r) /\
        libraryList st' = libraryList st /\
        files st' = files st) /\
  (selected_row st = None -> onModificationChanged modified st = (Ok tt, st)).
Proof.
  split.
  - intros i s Hsel Hi.
    unfold onModificationChanged, selectedScriptIndex.
    unfold bind at 1. rewrite Hsel.
    rewrite (bind_Ok _ _ _ _ _ (getitem_row st i s Hi)).
    destruct modified; run; (eexists; split; [reflexivity|]); run.
    + split; [apply land_or_modified|].
      split; [apply land_or_modified_missing|].
      repeat split. intros r Hr. now rewrite fn_lookup_insert_ne by congruence.
    + split; [now rewrite land_not_modified|].
      split; [apply land_not_modified_missing|].
      repeat split. intros r Hr. now rewrite fn_lookup_insert_ne by congruence.
  - intros Hsel. unfold onModificationChanged, selectedScriptIndex.
    unfold bind. now rewrite Hsel.
Qed.

(** ** The fake function signature *)

Lemma add_signal_argument (p acc : string) (item : string * Z) :
  add_signal p acc item =
    match argument p item with
    | Some a => acc ++ a ++ ", "
    | None => acc
    end.
Proof.
  destruct item as [name value]. unfold add_signal, argument.
  destruct (value =? 1)%Z; [now rewrite !append_assoc|].
  destruct (1 <? value)%Z; [|reflexivity].
  now rewrite !append_assoc.
Qed.

Lemma arguments_cons (p : string) (item : string * Z) (d : list (string * Z)) :
  arguments p (item :: d) =
    match argument p item with
    | Some a => a :: arguments p d
    | None => arguments p d
    end.
Proof. reflexivity. Qed.

Lemma fold_add_signal (p : string) (d : list (string * Z)) (acc : string) :
  fold_left (add_signal p) d acc =
    match arguments p d with
    | [] => acc
    | args => (acc ++ join ", " args) ++ ", "
    end.
Proof.
  revert acc. induction d as [|item d IH]; intros acc; [reflexivity|].
  cbn [fold_left]. rewrite IH, add_signal_argument, arguments_cons.
  destruct (argument p item) as [a|]; [|reflexivity].
  destruct (arguments p d) as [|b args].
  - cbn [join app]. now rewrite !append_assoc.
  - cbn [join app]. now rewrite !append_assoc.
Qed.

Lemma update_signal_text_label (self : FunctionSignature)
    (d : list (string * Z)) :
  signal_prefix self <> EmptyString ->
  label_text (update_signal_text self d) =
    match arguments (signal_prefix self) d with
    | [] =>
        match d with
        | [] => prefix self
        | _ => Py.drop_last 2 (prefix self)
        end ++ affix self
    | args => (prefix self ++ join ", " args) ++ affix self
    end.
Proof.
  intros Hp. apply String.eqb_neq in Hp.
  unfold update_signal_text. rewrite Hp.
  match goal with
  | |- label_text (if negb (String.eqb _ ?t) then _ else _) = _ =>
      assert (E : forall t', t = t' ->
        label_text (if negb (String.eqb (label_text self) t)
                    then setText t self else self) = t')
  end.
  { intros t' <-.
    match goal with
    | |- context [String.eqb ?a ?b] => destruct (String.eqb_spec a b) as [e|e]
    end; [exact e | reflexivity]. }
  apply E. clear E.
  destruct d as [|item d]; [reflexivity|].
  change (0 <? length (item :: d))%nat with true. cbv iota.
  rewrite fold_add_signal.
  destruct (arguments (signal_prefix self) (item :: d)); [reflexivity|].
  change 2 with (String.length ", "). now rewrite drop_last_append.
Qed.

(** X11.  The text of the signature label after [update_signal_text]: the
    prefix, the names of the inputs that have a value ([in_name] for one
    value, [in_names] for more) separated by commas, and the affix.  For a
    dict that is not empty but has no input with a value, the last two
    characters of the prefix are cut off. *)
Theorem update_signal_text_shows (self : FunctionSignature)
    (d : list (string * Z)) :
  signal_prefix self <> EmptyString ->
  label_text (update_signal_text self d) =
    match arguments (signal_prefix self) d with
    | [] =>
        match d with
        | [] => prefix self
        | _ => Py.drop_last 2 (prefix self)
        end ++ affix self
    | args => (prefix self ++ join ", " args) ++ affix self
    end.
Proof. apply update_signal_text_label. Qed.

Lemma update_signal_text_shows_witness :
  label_text (update_signal_text python_script_signature
                [("data", 1%Z); ("learner", 0%Z); ("object", 2%Z)])
    = "def python_script(in_data, in_objects):" /\
  label_text (update_signal_text python_script_signature
                [("data", 0%Z); ("learner", 0%Z)])
    = "def python_scrip):".
Proof.
  split.
  - rewrite (update_signal_text_shows python_script_signature
               [("data", 1%Z); ("learner", 0%Z); ("object", 2%Z)]);
      [reflexivity | discriminate].
  - rewrite (update_signal_text_shows python_script_signature
               [("data", 0%Z); ("learner", 0%Z)]);
      [reflexivity | discriminate].
Defined.

Lemma argument_of_length (p name : string) (n : nat) :
  argument p (name, Z.of_nat n) =
    match n with
    | 0 => None
    | 1 => Some (p ++ name)
    | _ => Some (p ++ name ++ "s")
    end.
Proof.
  unfold argument. destruct n as [|[|n]]; [reflexivity | reflexivity |].
  destruct (Z.eqb_spec (Z.of_nat (S (S n))) 1); [lia|].
  destruct (Z.ltb_spec 1 (Z.of_nat (S (S n)))); [reflexivity | lia].
Qed.

(** X12.  The signature label set by
    [update_fake_function_signature_labels] names the local variables that
    [initial_locals_state] gives the script, in the same order, except that
    an input with a single value is shown without the plural [s] of its
    variable.  With no input at all the label is the prefix without its
    last two characters, followed by the affix. *)
Theorem signature_shows_locals {Obj Id : Type} `{EqDecision Id}
    (table_to_frame : Obj -> Obj) (self : InputState (Obj := Obj) (Id := Id)) :
  signal_prefix (func_sig self) = "in_" ->
  label_text (func_sig (update_fake_function_signature_labels self)) =
    match initial_locals_state table_to_frame self with
    | [] => Py.drop_last 2 (prefix (func_sig self)) ++ affix (func_sig self)
    | locals =>
        (prefix (func_sig self) ++ join ", " (map shown_as locals))
          ++ affix (func_sig self)
    end.
Proof.
  intros Hp.
  unfold update_fake_function_signature_labels. cbn [func_sig].
  rewrite update_signal_text_label by (rewrite Hp; discriminate).
  rewrite Hp.
  match goal with
  | |- context [arguments _ ?d] =>
      assert (Hd : d =
        [(display_name self data, Z.of_nat (length (inputs self data)));
         ("learner", Z.of_nat (length (inputs self learner)));
         ("classifier", Z.of_nat (length (inputs self classifier)));
         ("object", Z.of_nat (length (inputs self object)))])
  end.
  { unfold display_name. destruct (orangeDataTablesEnabled self); reflexivity. }
  rewrite Hd. clear Hd.
  rewrite !arguments_cons, !argument_of_length.
  unfold initial_locals_state, getattr, signal_names, display_name.
  cbn [fold_left].
  destruct (orangeDataTablesEnabled self);
    destruct (inputs self data) as [|? [|? ?]];
    destruct (inputs self learner) as [|? [|? ?]];
    destruct (inputs self classifier) as [|? [|? ?]];
    destruct (inputs self object) as [|? [|? ?]];
    reflexivity.
Qed.

Lemma signature_shows_locals_witness :
  label_text (func_sig (update_fake_function_signature_labels some_inputs))
    = "def python_script(in_dfs, in_object):" /\
  map fst (initial_locals_state (fun v => v) some_inputs)
    = ["in_dfs"; "in_objects"] /\
  label_text (func_sig (update_fake_function_signature_labels no_inputs))
    = "def python_scrip):".
Proof.
  split; [|split].
  - rewrite (signature_shows_locals (fun v => v) some_inputs eq_refl).
    reflexivity.
  - reflexivity.
  - rewrite (signature_shows_locals (fun v => v) no_inputs eq_refl).
    reflexivity.
Defined.

(** ** The inputs *)

Section DictFacts.

Context {K V : Type} `{EqDecision K}.

Lemma dict_get_set (k : K) (v : V) (dic : dict K V) :
  dict_get k (dict_set k v dic) = Some v.
Proof.
  induction dic as [|[k' v'] dic IH]; cbn [dict_set dict_get].
  - now rewrite bool_decide_eq_true_2.
  - destruct (bool_decide (k' = k)) eqn:E; cbn [dict_get]; now rewrite E.
Qed.

Lemma dict_get_set_ne (k k0 : K) (v : V) (dic : dict K V) :
  k0 <> k -> dict_get k0 (dict_set k v dic) = dict_get k0 dic.
Proof.
  intros Hne. induction dic as [|[k' v'] dic IH]; cbn [dict_set dict_get].
  - now rewrite bool_decide_eq_false_2 by congruence.
  - destruct (bool_decide (k' = k)) eqn:E; cbn [dict_get].
    + apply bool_decide_eq_true_1 in E. subst k'.
      now rewrite bool_decide_eq_false_2 by congruence.
    + now rewrite IH.
Qed.

Lemma dict_set_length (k : K) (v : V) (dic : dict K V) :
  length (dict_set k v dic) =
    if has_key k dic then length dic else S (length dic).
Proof.
  induction dic as [|[k' v'] dic IH]; [reflexivity|].
  cbn [dict_set has_key existsb fst].
  destruct (bool_decide (k' = k)); cbn [orb length]; [reflexivity|].
  fold (has_key k dic). rewrite IH. now destruct (has_key k dic).
Qed.

Lemma has_key_set (k : K) (v : V) (dic : dict K V) :
  has_key k (dict_set k v dic) = true.
Proof.
  induction dic as [|[k' v'] dic IH]; cbn [dict_set has_key existsb fst].
  - now rewrite bool_decide_eq_true_2.
  - destruct (bool_decide (k' = k)) eqn:E; cbn [has_key existsb fst];
      rewrite E; [reflexivity|exact IH].
Qed.

Lemma dict_del_set (k : K) (v : V) (dic : dict K V) :
  has_key k dic = false -> dict_del k (dict_set k v dic) = dic.
Proof.
  induction dic as [|[k' v'] dic IH]; cbn [dict_set dict_del has_key existsb fst].
  - now rewrite bool_decide_eq_true_2.
  - destruct (bool_decide (k' = k)) eqn:E; [discriminate|].
    cbn [orb dict_del]. rewrite E. intros Hk. now rewrite (IH Hk).
Qed.

End DictFacts.

Lemma getattr_setattr {Obj Id : Type} `{EqDecision Id}
    (self : InputState (Obj := Obj) (Id := Id)) (n m : signal)
    (dic : dict Id Obj) :
  getattr (setattr self n dic) m = if bool_decide (m = n) then dic else getattr self m.
Proof. reflexivity. Qed.

(** X13.  A value arriving on a link that had none is stored under the id
    of the link, as one more item of that input and of no other; when the
    link then delivers [None] the item is deleted and every input is as it
    was before. *)
Theorem handle_input_round_trip {Obj Id : Type} `{EqDecision Id}
    (self : InputState (Obj := Obj) (Id := Id)) (obj : Obj) (id : Id)
    (rest : list Id) (n : signal) :
  has_key id (getattr self n) = false ->
  exists self1 self2,
    handle_input self (Some obj) (id :: rest) n = Ok self1 /\
    dict_get id (getattr self1 n) = Some obj /\
    length (getattr self1 n) = S (length (getattr self n)) /\
    (forall id', id' <> id ->
       dict_get id' (getattr self1 n) = dict_get id' (getattr self n)) /\
    (forall m, m <> n -> getattr self1 m = getattr self m) /\
    handle_input self1 None (id :: rest) n = Ok self2 /\
    (forall m, getattr self2 m = getattr self m).
Proof.
  intros Hfresh.
  exists (setattr self n (dict_set id obj (getattr self n))).
  exists (setattr (setattr self n (dict_set id obj (getattr self n))) n
            (dict_del id (dict_set id obj (getattr self n)))).
  split; [reflexivity|].
  rewrite !getattr_setattr, bool_decide_eq_true_2 by reflexivity.
  split; [apply dict_get_set|].
  split; [now rewrite dict_set_length, Hfresh|].
  split; [intros id' Hne; now apply dict_get_set_ne|].
  split.
  { intros m Hm. now rewrite getattr_setattr, bool_decide_eq_false_2. }
  split.
  { unfold handle_input.
    rewrite !getattr_setattr, bool_decide_eq_true_2 by reflexivity.
    now rewrite has_key_set. }
  intros m. rewrite !getattr_setattr.
  destruct (bool_decide (m = n)) eqn:E; [|reflexivity].
  apply bool_decide_eq_true_1 in E. subst m. now apply dict_del_set.
Qed.

Lemma handle_input_round_trip_witness :
  exists self1 self2,
    handle_input no_inputs (Some "table") [7%Z] data = Ok self1 /\
    dict_get 7%Z (getattr self1 data) = Some "table" /\
    length (getattr self1 data) = 1 /\
    (forall id', id' <> 7%Z ->
       dict_get id' (getattr self1 data) = dict_get id' (getattr no_inputs data)) /\
    (forall m, m <> data -> getattr self1 m = getattr no_inputs m) /\
    handle_input self1 None [7%Z] data = Ok self2 /\
    (forall m, getattr self2 m = getattr no_inputs m).
Proof.
  exact (handle_input_round_trip no_inputs "table" 7%Z [] data eq_refl).
Defined.

(** ** The fake return statement *)

Lemma set_label_if (self : ReturnStatement) (n : signal) (text : string) :
  (let self' :=
     if negb (String.eqb (signal_labels self n) text)
     then set_label self n text else self in
   signal_labels self' n = text /\
   (forall m, m <> n -> signal_labels self' m = signal_labels self m) /\
   _prefix self' = _prefix self /\
   df_enabled self' = df_enabled self).
Proof.
  cbv zeta.
  destruct (String.eqb_spec (signal_labels self n) text) as [e|e]; cbn [negb].
  - repeat split; assumption.
  - unfold set_label. cbn [signal_labels _prefix df_enabled].
    rewrite bool_decide_eq_true_2 by reflexivity.
    repeat split. intros m Hm. now rewrite bool_decide_eq_false_2.
Qed.

Lemma prefix_empty (s : string) : String.prefix EmptyString s = true.
Proof. now destruct s. Qed.

Lemma prefix_cons (a b : ascii) (s1 s2 : string) :
  String.prefix (String a s1) (String b s2)
  = Ascii.eqb a b && String.prefix s1 s2.
Proof.
  cbn [String.prefix]. destruct (ascii_dec a b) as [e|e].
  - subst. now rewrite Ascii.eqb_refl.
  - apply Ascii.eqb_neq in e. now rewrite e.
Qed.

Lemma prefix_plain (s : string) : String.prefix "<b></b>" ("<b></b>" ++ s) = true.
Proof. rewrite !append_cons, !prefix_cons, append_empty_l. apply prefix_empty. Qed.

Lemma prefix_bold (p name : string) :
  String.prefix "</b>" p = false ->
  name = "df" \/ name = "data" ->
  String.prefix "<b></b>" ((("<b>" ++ p) ++ name) ++ "</b>") = false.
Proof.
  intros Hp Hname.
  rewrite !append_assoc, !append_cons, append_empty_l, !prefix_cons.
  cbn [Ascii.eqb Bool.eqb andb].
  destruct p as [|c1 [|c2 [|c3 [|c4 p]]]];
    destruct Hname as [-> | ->];
    rewrite ?append_cons, ?append_empty_l, ?prefix_cons in *;
    rewrite ?prefix_empty, ?andb_true_r in *;
    repeat match goal with
           | |- context [Ascii.eqb ?a ?b] =>
               destruct (Ascii.eqb_spec a b); try subst; cbn [andb] in *
           end;
    try reflexivity; try discriminate; try congruence.
Qed.

Lemma return_update_signal_text_label (self : ReturnStatement) (n : signal)
    (len : Z) :
  _prefix self <> EmptyString ->
  let name := if bool_decide (n = data) && df_enabled self then "df"
              else signal_name n in
  let shown := return_update_signal_text self n len in
  signal_labels shown n =
    (if (len =? 0)%Z then ("<b></b>" ++ _prefix self) ++ name
     else (("<b>" ++ _prefix self) ++ name) ++ "</b>") /\
  (forall m, m <> n -> signal_labels shown m = signal_labels self m) /\
  _prefix shown = _prefix self /\
  df_enabled shown = df_enabled self.
Proof.
  intros Hp. apply String.eqb_neq in Hp. cbv zeta.
  unfold return_update_signal_text. rewrite Hp.
  apply set_label_if.
Qed.

Lemma use_df_data_label_label (self : ReturnStatement) (enabled : bool) :
  let name := if enabled then "df" else "data" in
  let shown := use_df_data_label self enabled in
  signal_labels shown data =
    (if String.prefix "<b></b>" (signal_labels self data)
     then ("<b></b>" ++ _prefix self) ++ name
     else (("<b>" ++ _prefix self) ++ name) ++ "</b>") /\
  (forall m, m <> data -> signal_labels shown m = signal_labels self m) /\
  _prefix shown = _prefix self /\
  df_enabled shown = enabled.
Proof.
  cbv zeta. unfold use_df_data_label.
  cbn [signal_labels _prefix df_enabled].
  match goal with
  | |- context [set_label ?s data ?t] =>
      pose proof (set_label_if s data t) as H; cbv zeta in H;
      cbn [signal_labels _prefix df_enabled] in H;
      destruct H as (H1 & H2 & H3 & H4)
  end.
  split; [|split; [|split]]; try assumption.
  rewrite H1.
  destruct enabled; destruct (String.prefix "<b></b>" (signal_labels self data));
    rewrite ?append_assoc; reflexivity.
Qed.

(** X14.  Switching the name of the data output after its label was set
    keeps the label's weight: the label is plain for no value and bold
    otherwise, under the name chosen last, exactly as if the name had been
    switched first.  The other labels are not touched.  This needs a prefix
    that does not itself begin with a closing bold tag. *)
Theorem use_df_data_label_keeps_weight (self : ReturnStatement) (len : Z)
    (enabled : bool) :
  _prefix self <> EmptyString ->
  String.prefix "</b>" (_prefix self) = false ->
  let name := if enabled then "df" else "data" in
  let shown := use_df_data_label (return_update_signal_text self data len) enabled in
  signal_labels shown data =
    (if (len =? 0)%Z then ("<b></b>" ++ _prefix self) ++ name
     else (("<b>" ++ _prefix self) ++ name) ++ "</b>") /\
  (forall m,
     signal_labels shown m =
     signal_labels
       (return_update_signal_text (use_df_data_label self enabled) data len) m) /\
  (forall m, m <> data -> signal_labels shown m = signal_labels self m).
Proof.
  intros Hp Hb. cbv zeta.
  destruct (return_update_signal_text_label self data len Hp)
    as (U1 & U2 & U3 & U4).
  destruct (use_df_data_label_label
              (return_update_signal_text self data len) enabled)
    as (D1 & D2 & D3 & D4).
  destruct (use_df_data_label_label self enabled) as (E1 & E2 & E3 & E4).
  assert (Hp' : _prefix (use_df_data_label self enabled) <> EmptyString)
    by now rewrite E3.
  destruct (return_update_signal_text_label
              (use_df_data_label self enabled) data len Hp')
    as (V1 & V2 & V3 & V4).
  cbv zeta in *.
  assert (Hshown :
    signal_labels
      (use_df_data_label (return_update_signal_text self data len) enabled) data
    = (if (len =? 0)%Z
       then ("<b></b>" ++ _prefix self) ++ (if enabled then "df" else "data")
       else (("<b>" ++ _prefix self) ++ (if enabled then "df" else "data"))
              ++ "</b>")).
  { rewrite D1, U1, U3.
    rewrite bool_decide_eq_true_2 by reflexivity. cbn [andb].
    destruct (len =? 0)%Z.
    - rewrite append_assoc. now rewrite prefix_plain.
    - rewrite prefix_bold; [reflexivity | assumption |].
      destruct (df_enabled self); auto. }
  split; [exact Hshown|]. split.
  - intros m. destruct (decide (m = data)) as [->|Hm].
    + rewrite Hshown, V1, E3, E4.
      rewrite bool_decide_eq_true_2 by reflexivity. cbn [andb].
      now destruct enabled.
    + now rewrite D2, U2, V2, E2.
  - intros m Hm. now rewrite D2, U2.
Qed.

Lemma use_df_data_label_keeps_weight_witness :
  signal_labels
    (use_df_data_label (return_update_signal_text out_labels data 1) false) data
    = "<b>out_data</b>" /\
  signal_labels
    (use_df_data_label (return_update_signal_text out_labels data 0) false) data
    = "<b></b>out_data".
Proof.
  split.
  - apply (use_df_data_label_keeps_weight out_labels 1 false);
      [discriminate | reflexivity].
  - apply (use_df_data_label_keeps_weight out_labels 0 false);
      [discriminate | reflexivity].
Defined.

(** ** Settings of earlier versions *)

Lemma split_on_nonempty (c : ascii) (s : string) : split_on c s <> [].
Proof.
  destruct s as [|a rest]; cbn [split_on]; [discriminate|].
  destruct (Ascii.eqb a c); [discriminate|].
  destruct (split_on c rest); discriminate.
Qed.

Lemma join_split_on (name : string) :
  join "_" (split_on " " name) = underscored name.
Proof.
  induction name as [|a rest IH]; [reflexivity|].
  cbn [split_on underscored].
  pose proof (split_on_nonempty " " rest) as Hne.
  destruct (Ascii.eqb a " ").
  - destruct (split_on " " rest) as [|h t]; [congruence|].
    change (join "_" (EmptyString :: h :: t))
      with (EmptyString ++ "_" ++ join "_" (h :: t)).
    now rewrite append_empty_l, append_cons, append_empty_l, IH.
  - destruct (split_on " " rest) as [|h t]; [congruence|].
    rewrite <- IH. destruct t as [|h' t]; [reflexivity|].
    cbn [join]. now rewrite append_cons.
Qed.

Lemma comprehension_map {A B} (f : A -> Res B) (g : A -> B) (l : list A) :
  Forall (fun s => f s = Ok (g s)) l -> comprehension f l = Ok (map g l).
Proof.
  induction 1 as [|s l Hs _ IH]; [reflexivity|].
  cbn [comprehension map]. now rewrite Hs, IH.
Qed.

Lemma library_item_1_keys (s : gmap string string) :
  has_keys s -> library_item_1 s = Ok (migrated_1 s).
Proof.
  intros [[script Hs] [name Hn]]. unfold library_item_1, migrated_1.
  rewrite Hs, Hn. cbn [default]. now rewrite join_split_on.
Qed.

Lemma library_item_2_keys (s : gmap string string) :
  has_keys s -> library_item_2 s = Ok (migrated_2 s).
Proof.
  intros [[script Hs] [name Hn]]. unfold library_item_2, migrated_2.
  now rewrite Hs, Hn.
Qed.

Lemma underscored_no_space (name : string) (n : nat) :
  String.get n (underscored name ++ ".py") <> Some " "%char.
Proof.
  revert n. induction name as [|a rest IH]; intros n.
  - cbn [underscored]. rewrite append_empty_l.
    destruct n as [|[|[|n]]]; cbn [String.get]; discriminate.
  - cbn [underscored]. rewrite append_cons.
    destruct n as [|n]; cbn [String.get]; [|apply IH].
    destruct (Ascii.eqb_spec a " "); [discriminate|congruence].
Qed.

(** X15.  Settings of a version before 2 whose scripts all have a text and
    a name: the first script becomes the current one and the others the
    scratch scripts, in their order; each keeps its text and gets its name
    with every space replaced by an underscore, followed by [.py].  The old
    key is removed. *)
Theorem migrate_settings_from_1 (settings : Settings) (v : Z)
    (first : gmap string string) (others : list (gmap string string)) :
  (v < 2)%Z ->
  libraryListSource settings = Some (first :: others) ->
  Forall has_keys (first :: others) ->
  exists settings',
    migrate_settings settings (Some v) = (Ok tt, settings') /\
    current_script settings' = Some (migrated_1 first) /\
    other_scratch_scripts settings' = Some (map migrated_1 others) /\
    libraryListSource settings' = None /\
    (forall s n,
        s ∈ first :: others ->
        String.get n (snd (migrated_1 s)) <> Some " "%char).
Proof.
  intros Hv Hl Hkeys. apply Z.ltb_lt in Hv.
  unfold migrate_settings, migrate_1. rewrite Hv, Hl.
  rewrite (comprehension_map library_item_1 migrated_1).
  2:{ eapply Forall_impl; [|exact Hkeys].
      intros s Hs. now apply library_item_1_keys. }
  cbn [map]. unfold list_pop, py_index. cbn [length].
  rewrite row_in_range by lia.
  change (Z.to_nat 0) with 0. cbn [lookup list_lookup delete list_delete].
  eexists. split; [reflexivity|]. cbn.
  repeat split. intros s n _. unfold migrated_1. cbn [snd].
  apply underscored_no_space.
Qed.

Lemma has_keys_insert (script name : string) :
  has_keys {["script" := script; "name" := name]}.
Proof. split; eexists; reflexivity. Qed.

Lemma migrate_settings_from_1_witness :
  exists settings',
    migrate_settings settings_1 (Some 1%Z) = (Ok tt, settings') /\
    current_script settings' = Some ("print(1)", "my_first_script.py") /\
    other_scratch_scripts settings' = Some [("print(2)", "second.py")].
Proof.
  destruct (migrate_settings_from_1 settings_1 1
              {["script" := "print(1)"; "name" := "my first script"]}
              [ {["script" := "print(2)"; "name" := "second"]} ])
    as (settings' & Hrun & Hcur & Hothers & _).
  - lia.
  - reflexivity.
  - repeat constructor; apply has_keys_insert.
  - exists settings'. split; [exact Hrun|]. split.
    + rewrite Hcur. reflexivity.
    + rewrite Hothers. reflexivity.
Defined.

(** X16.  Settings of version 2 whose scripts all have a text and a name,
    with an index that is in range as Python counts it: the script at the
    index becomes the current one, with the text of [scriptText] in place
    of its own when that key is there; the others become the scratch
    scripts in their order; the names get [.py]; the three old keys are
    removed. *)
Theorem migrate_settings_from_2 (settings : Settings) (v index : Z)
    (scripts : list (gmap string string)) (k : nat) (s : gmap string string) :
  (2 <= v < 3)%Z ->
  scriptLibrary settings = Some scripts ->
  currentScriptIndex settings = Some index ->
  Forall has_keys scripts ->
  py_index (length scripts) index = Some k ->
  scripts !! k = Some s ->
  exists settings',
    migrate_settings settings (Some v) = (Ok tt, settings') /\
    current_script settings' =
      Some (match scriptText settings with
            | Some text => text
            | None => fst (migrated_2 s)
            end, snd (migrated_2 s)) /\
    other_scratch_scripts settings' = Some (map migrated_2 (delete k scripts)) /\
    scriptLibrary settings' = None /\
    currentScriptIndex settings' = None /\
    scriptText settings' = None.
Proof.
  intros [Hv2 Hv3] Hl Hi Hkeys Hk Hs.
  unfold migrate_settings.
  destruct (Z.ltb_spec v 2) as [|_]; [lia|].
  destruct (Z.ltb_spec v 3) as [_|]; [|lia].
  unfold migrate_2. rewrite Hl. cbn [currentScriptIndex scriptText]. rewrite Hi.
  rewrite (comprehension_map library_item_2 migrated_2).
  2:{ eapply Forall_impl; [|exact Hkeys].
      intros s0 Hs0. now apply library_item_2_keys. }
  unfold list_pop. rewrite length_map, Hk, list_lookup_fmap, Hs.
  cbn [fmap option_fmap option_map].
  change (delete k (map migrated_2 scripts))
    with (delete k (migrated_2 <$> scripts)).
  rewrite <- list_fmap_delete.
  destruct (scriptText settings) as [text|];
    (eexists; split; [reflexivity|]); cbn; repeat split.
Qed.

Lemma migrate_settings_from_2_witness :
  exists settings',
    migrate_settings settings_2 (Some 2%Z) = (Ok tt, settings') /\
    current_script settings' = Some ("print(22)", "two.py") /\
    other_scratch_scripts settings' = Some [("print(1)", "one.py")].
Proof.
  destruct (migrate_settings_from_2 settings_2 2 1
              [ {["script" := "print(1)"; "name" := "one"]};
                {["script" := "print(2)"; "name" := "two"]} ]
              1 {["script" := "print(2)"; "name" := "two"]})
    as (settings' & Hrun & Hcur & Hothers & _).
  - lia.
  - reflexivity.
  - reflexivity.
  - repeat constructor; apply has_keys_insert.
  - reflexivity.
  - reflexivity.
  - exists settings'. split; [exact Hrun|]. split.
    + rewrite Hcur. reflexivity.
    + rewrite Hothers. reflexivity.
Defined.

(** X17.  Where [migrate_settings] raises.  Without a version the second
    comparison fails with a TypeError.  With a version below 3, a library
    without scripts makes the call fail with an IndexError when it takes
    the current script out of it, whatever the stored index; by then the
    old keys are already removed from the settings. *)
Theorem migrate_settings_raises (settings : Settings) :
  migrate_settings settings None = (Raise TypeError, settings) /\
  (forall v,
      (v < 2)%Z -> libraryListSource settings = Some [] ->
      exists settings',
        migrate_settings settings (Some v) = (Raise IndexError, settings') /\
        libraryListSource settings' = None /\
        current_script settings' = current_script settings) /\
  (forall v index,
      (2 <= v < 3)%Z -> scriptLibrary settings = Some [] ->
      currentScriptIndex settings = Some index ->
      exists settings',
        migrate_settings settings (Some v) = (Raise IndexError, settings') /\
        scriptLibrary settings' = None /\
        currentScriptIndex settings' = None /\
        current_script settings' = current_script settings).
Proof.
  split; [reflexivity|]. split.
  - intros v Hv Hl. apply Z.ltb_lt in Hv.
    unfold migrate_settings, migrate_1. rewrite Hv, Hl.
    cbn [comprehension]. eexists. split; [reflexivity|]. now cbn.
  - intros v index [Hv2 Hv3] Hl Hi.
    unfold migrate_settings.
    destruct (Z.ltb_spec v 2) as [|_]; [lia|].
    destruct (Z.ltb_spec v 3) as [_|]; [|lia].
    unfold migrate_2. rewrite Hl. cbn [currentScriptIndex]. rewrite Hi.
    cbn [comprehension].
    assert (Hpop : list_pop index (@nil (string * string)) = Raise IndexError).
    { unfold list_pop, py_index. cbn [length].
      destruct (Z.leb_spec 0 index); destruct (Z.ltb_spec index (Z.of_nat 0));
        destruct (Z.leb_spec (- Z.of_nat 0) index);
        destruct (Z.ltb_spec index 0); cbn [andb]; try reflexivity; lia. }
    rewrite Hpop. eexists. split; [reflexivity|]. now cbn.
Qed.

Lemma migrate_settings_raises_witness :
  (exists settings',
      migrate_settings (mkSettings (Some []) None None None None None) (Some 1%Z)
        = (Raise IndexError, settings') /\
      libraryListSource settings' = None) /\
  (exists settings',
      migrate_settings (mkSettings None (Some []) (Some 0%Z) None None None)
        (Some 2%Z) = (Raise IndexError, settings') /\
      scriptLibrary settings' = None).
Proof.
  split.
  - destruct (proj1 (proj2 (migrate_settings_raises
                 (mkSettings (Some []) None None None None None)))
                1%Z ltac:(lia) eq_refl) as (settings' & Hrun & Hl & _).
    exists settings'. split; assumption.
  - destruct (proj2 (proj2 (migrate_settings_raises
                 (mkSettings None (Some []) (Some 0%Z) None None None)))
                2%Z 0%Z ltac:(lia) eq_refl eq_refl)
      as (settings' & Hrun & Hl & _).
    exists settings'. split; assumption.
Defined.

(** ** Loading the library *)









Lemma select_row_0 (st : State) :
  libraryList st <> [] ->
  select_row 0 st = (Ok tt, with_selected_row (Some 0) st).
Proof.
  intros Hne. unfold select_row. run.
  destruct (libraryList st) as [|r l] eqn:E; [congruence|].
  rewrite row_in_range by (cbn [length]; lia). reflexivity.
Qed.





(** X19.  [reloadLibrary] without the scripts folder: the folder is made,
    no file is touched, and the list keeps only the earlier scripts that
    are flagged as missing; if there is none, one scratch script with the
    text of the editor is added.  Row 0 is selected. *)
Theorem reloadLibrary_makes_folder (data_dir : string)
    (glob : State -> string -> list string) (st : State) :
  path_exists st (SCRIPTS_FOLDER_PATH data_dir) = false ->
  fst (os_makedirs (SCRIPTS_FOLDER_PATH data_dir) st) = Ok tt ->
  exists st',
    reloadLibrary data_dir glob st = (Ok tt, st') /\
    is_dir st' (SCRIPTS_FOLDER_PATH data_dir) = true /\
    files st' = files st /\
    selected_row st' = Some 0 /\
    match List.filter (is_missing st) (libraryList st) with
    | [] =>
        libraryList st' = [next_script st] /\
        scripts st' (next_script st)
        = mkScript (editor_text st) "scratch.py" None 2
    | kept => libraryList st' = kept
    end.
Proof.
  intros Hfolder Hmk.
  assert (Hdir : forall st0, dirs st0 = dirs (snd (os_makedirs (SCRIPTS_FOLDER_PATH data_dir) st)) ->
                 is_dir st0 (SCRIPTS_FOLDER_PATH data_dir) = true).
  { intros st0 Hd. unfold is_dir. rewrite Hd.
    revert Hmk. unfold os_makedirs. rewrite Hfolder. cbn [orb].
    destruct (existsb _ _); [discriminate|]. intros _.
    cbn [snd]. unfold with_dirs. cbn [dirs].
    apply orb_true_iff.
    destruct (rstrip_sep (SCRIPTS_FOLDER_PATH data_dir)) eqn:E.
    - left. apply bool_decide_eq_true_2, elem_of_union. right.
      apply elem_of_list_to_set, list_elem_of_here.
    - right. apply bool_decide_eq_true_2, elem_of_union. right.
      apply elem_of_list_to_set, list_elem_of_here. }
  unfold reloadLibrary, scripts_of_folder.
  unfold bind at 1. unfold bind at 1. unfold os_path_exists at 1.
  rewrite Hfolder. cbn [negb].
  unfold bind at 1.
  revert Hmk Hdir. unfold os_makedirs. rewrite Hfolder. cbn [orb].
  destruct (existsb _ _); [discriminate|]. intros _ Hdir.
  cbn [snd] in Hdir. unfold ret at 1.
  cbn [app]. unfold bind at 1. unfold get at 1.
  unfold bind at 1. unfold modify at 1.
  change (List.filter _ (libraryList (with_dirs _ st)))
    with (List.filter (is_missing st) (libraryList st)).
  destruct (List.filter (is_missing st) (libraryList st)) as [|r l] eqn:Hkept.
  - cbn [length Nat.eqb]. unfold bind at 1.
    rewrite addScript_empty by reflexivity.
    rewrite select_row_0 by (run; discriminate).
    eexists. split; [reflexivity|]. run.
    split; [now apply Hdir|]. repeat split.
  - cbn [length Nat.eqb]. unfold bind at 1. unfold ret at 1.
    rewrite select_row_0 by (run; discriminate).
    eexists. split; [reflexivity|]. run.
    split; [now apply Hdir|]. repeat split.
Qed.

Lemma reloadLibrary_makes_folder_witness :
  exists st',
    reloadLibrary "/d" glob_two st_no_folder = (Ok tt, st') /\
    is_dir st' (SCRIPTS_FOLDER_PATH "/d") = true /\
    files st' = files st_no_folder /\
    selected_row st' = Some 0.
Proof.
  destruct (reloadLibrary_makes_folder "/d" glob_two st_no_folder)
    as (st' & Hrun & Hdir & Hfiles & Hsel & _).
  - vm_compute. reflexivity.
  - vm_compute. reflexivity.
  - exists st'. repeat split; assumption.
Defined.

(** ** Restoring the widget *)

Lemma bind_inv {A B} (m : M A) (k : A -> M B) (st st' : State) (b : B) :
  bind m k st = (Ok b, st') ->
  exists a st1, m st = (Ok a, st1) /\ k a st1 = (Ok b, st').
Proof.
  unfold bind. destruct (m st) as [[a|e] st1]; [|discriminate].
  intros H. now exists a, st1.
Qed.

Lemma addScript_Ok (data_dir : string) (text filename : string)
    (st st' : State) :
  addScript data_dir (Some text) filename st = (Ok tt, st') ->
  libraryList st' = (libraryList st ++ [next_script st])%list /\
  next_script st' = S (next_script st) /\
  (forall r, r <> next_script st -> scripts st' r = scripts st r) /\
  _script (scripts st' (next_script st)) = text /\
  is_missing st' (next_script st) = true.
Proof.
  unfold addScript, Script__init__. run.
  destruct (uniqueify_filename _ _ _ _) as [name|e]; run; [|discriminate].
  change (truthy (Z.land 2 MissingFromFilesystem)) with true. run.
  intros H. injection H as <-. unfold is_missing. run.
  repeat split. intros r Hr. now rewrite fn_lookup_insert_ne.
Qed.

Lemma Forall_lt_le (l : list ref) (n m : nat) :
  Forall (fun r => r < n) l -> n <= m -> Forall (fun r => r < m) l.
Proof.
  intros H Hle. eapply Forall_impl; [|exact H]. cbv beta. intros r Hr. lia.
Qed.

Lemma for_addScript_Ok (data_dir : string) (others : list (string * string)) :
  forall st st',
    for_ others (fun script => addScript data_dir (Some (fst script)) (snd script)) st
      = (Ok tt, st') ->
    Forall (fun r => r < next_script st) (libraryList st) ->
    (exists extra, libraryList st' = (libraryList st ++ extra)%list) /\
    next_script st <= next_script st' /\
    (forall r, r < next_script st -> scripts st' r = scripts st r) /\
    Forall (fun r => r < next_script st') (libraryList st') /\
    Forall (fun item =>
              exists s, s ∈ libraryList st' /\
                        _script (scripts st' s) = fst item /\
                        is_missing st' s = true) others.
Proof.
  induction others as [|item others IH]; intros st st' Hrun Hall.
  - cbn [for_] in Hrun. unfold ret in Hrun. injection Hrun as <-.
    split; [exists []; now rewrite app_nil_r|].
    split; [lia|]. split; [reflexivity|]. split; [assumption|constructor].
  - cbn [for_] in Hrun.
    apply bind_inv in Hrun as ([] & st1 & Hadd & Hrest).
    apply addScript_Ok in Hadd as (L1 & N1 & O1 & T1 & M1).
    assert (Hall1 : Forall (fun r => r < next_script st1) (libraryList st1)).
    { rewrite L1, N1. apply Forall_app. split.
      - eapply Forall_lt_le; [exact Hall | lia].
      - repeat constructor. }
    destruct (IH st1 st' Hrest Hall1) as ([extra L2] & N2 & O2 & A2 & S2).
    split; [exists (next_script st :: extra); rewrite L2, L1; now rewrite <- app_assoc|].
    split; [lia|]. split.
    { intros r Hr. rewrite O2 by lia. apply O1. lia. }
    split; [assumption|].
    constructor; [|assumption].
    exists (next_script st). split.
    + rewrite L2, L1. apply elem_of_app. left. apply elem_of_app. right.
      apply list_elem_of_here.
    + unfold is_missing in *. rewrite O2 by lia. now split.
Qed.

Lemma load_scripts_bound (data_dir : string) (paths : list string) :
  forall (acc : list ref) (st st' : State) (l : list ref),
    load_scripts data_dir paths acc st = (Ok l, st') ->
    Forall (fun r => r < next_script st) acc ->
    Forall (fun r => r < next_script st') l.
Proof.
  induction paths as [|p paths IH]; intros acc st st' l Hrun Hacc.
  - cbn [load_scripts] in Hrun. unfold ret in Hrun.
    injection Hrun as <- <-. assumption.
  - cbn [load_scripts] in Hrun.
    apply bind_inv in Hrun as (text & st1 & Hread & Hrun).
    apply bind_inv in Hrun as (script & st2 & Hinit & Hrun).
    assert (Hst1 : st1 = st).
    { revert Hread. unfold open_read. destruct (files st !! p); [congruence|].
      destruct (is_dir st p); discriminate. }
    subst st1.
    destruct (Script__init__shape data_dir text (basename p) 0 st)
      as (_ & Hn & _ & _ & _ & Hok).
    rewrite Hinit in Hn, Hok. cbn [fst snd] in Hn, Hok.
    destruct (Hok script eq_refl) as [-> _].
    apply (IH _ _ _ _ Hrun). rewrite Hn. apply Forall_app. split.
    + eapply Forall_lt_le; [exact Hacc | lia].
    + repeat constructor.
Qed.

Lemma scripts_of_folder_bound (data_dir : string)
    (glob : State -> string -> list string) (st st' : State) (l : list ref) :
  scripts_of_folder data_dir glob st = (Ok l, st') ->
  Forall (fun r => r < next_script st') l.
Proof.
  unfold scripts_of_folder. intros Hrun.
  apply bind_inv in Hrun as (found & st1 & Hex & Hrun).
  unfold os_path_exists in Hex. injection Hex as <- <-.
  destruct (path_exists st (SCRIPTS_FOLDER_PATH data_dir)); cbn [negb] in Hrun.
  - apply bind_inv in Hrun as (st0 & st1 & Hget & Hrun).
    unfold get in Hget. injection Hget as <- <-.
    apply (load_scripts_bound _ _ _ _ _ _ Hrun). constructor.
  - apply bind_inv in Hrun as ([] & st1 & _ & Hrun).
    unfold ret in Hrun. injection Hrun as <- <-. constructor.
Qed.

Lemma find_index_Some {A} (test : A -> bool) (l : list A) (i : nat) :
  find_index test l = Some i ->
  exists x, l !! i = Some x /\ test x = true.
Proof.
  revert i. induction l as [|x l IH]; intros i H; [discriminate|].
  cbn [find_index] in H. destruct (test x) eqn:E.
  - injection H as <-. now exists x.
  - destruct (find_index test l) as [j|]; [|discriminate].
    injection H as <-. destruct (IH j eq_refl) as (y & Hy & Ht).
    now exists y.
Qed.

Lemma select_row_in_range (st : State) (i : nat) :
  i < length (libraryList st) ->
  select_row (Z.of_nat i) st = (Ok tt, with_selected_row (Some i) st).
Proof.
  intros Hi. unfold select_row. run.
  rewrite row_in_range by lia. now rewrite Nat2Z.id.
Qed.

Lemma _restoreState_Ok (data_dir : string)
    (glob : State -> string -> list string)
    (current_script : option (string * string))
    (other_scratch_scripts : list (string * string)) (st st' : State) :
  _restoreState data_dir glob current_script other_scratch_scripts st
    = (Ok tt, st') ->
  (exists i s,
      selected_row st' = Some i /\
      libraryList st' !! i = Some s /\
      _script (scripts st' s) =
        match current_script with
        | Some (text, _) => text
        | None => "print('Hello world!')"
        end) /\
  Forall (fun item =>
            exists s, s ∈ libraryList st' /\
                      _script (scripts st' s) = fst item /\
                      is_missing st' s = true)
         other_scratch_scripts.
Proof.
  intros Hrun. unfold _restoreState in Hrun.
  apply bind_inv in Hrun as (scripts_ & st1 & Hload & Hrun).
  apply scripts_of_folder_bound in Hload.
  apply bind_inv in Hrun as ([] & st2 & Hwrap & Hrun).
  unfold modify in Hwrap. injection Hwrap as <-.
  apply bind_inv in Hrun as (i & st3 & Hcur & Hrun).
  apply bind_inv in Hrun as ([] & st4 & Hothers & Hsel).
  (* the current script is at row [i] of the list before the others are added *)
  assert (Hrow : exists k s,
    i = Z.of_nat k /\ libraryList st3 !! k = Some s /\
    Forall (fun r => r < next_script st3) (libraryList st3) /\
    _script (scripts st3 s) =
      match current_script with
      | Some (text, _) => text
      | None => "print('Hello world!')"
      end).
  { destruct current_script as [[text filename]|].
    - apply bind_inv in Hcur as (st0 & st0' & Hget & Hcur).
      unfold get in Hget. injection Hget as <- <-.
      destruct (find_index _ scripts_) as [k|] eqn:Hfind.
      + unfold ret in Hcur. injection Hcur as <- <-.
        apply find_index_Some in Hfind as (s & Hs & Htest).
        apply andb_true_iff in Htest as [Ht _]. apply String.eqb_eq in Ht.
        exists k, s. run. repeat split; auto.
      + apply bind_inv in Hcur as ([] & st5 & Hadd & Hlast).
        unfold last_row, bind, get, ret in Hlast. injection Hlast as <- <-.
        apply addScript_Ok in Hadd as (L & N & O & T & _). revert L N O T. run.
        intros L N O T.
        exists (length scripts_), (next_script st1). rewrite L, N.
        split; [rewrite length_app; cbn [length]; lia|].
        split; [now rewrite lookup_app_r, Nat.sub_diag by lia|].
        split; [|assumption].
        apply Forall_app. split; [|repeat constructor].
        eapply Forall_lt_le; [exact Hload | lia].
    - apply bind_inv in Hcur as ([] & st5 & Hadd & Hlast).
      unfold last_row, bind, get, ret in Hlast. injection Hlast as <- <-.
      apply addScript_Ok in Hadd as (L & N & O & T & _). revert L N O T. run.
      intros L N O T.
      exists (length scripts_), (next_script st1). rewrite L, N.
      split; [rewrite length_app; cbn [length]; lia|].
      split; [now rewrite lookup_app_r, Nat.sub_diag by lia|].
      split; [|assumption].
      apply Forall_app. split; [|repeat constructor].
      eapply Forall_lt_le; [exact Hload | lia]. }
  destruct Hrow as (k & s & -> & Hk & Hall3 & Htext).
  destruct (for_addScript_Ok data_dir other_scratch_scripts st3 st4 Hothers Hall3)
    as ([extra L4] & N4 & O4 & A4 & S4).
  assert (Hk4 : libraryList st4 !! k = Some s).
  { rewrite L4. now apply lookup_app_l_Some. }
  rewrite select_row_in_range in Hsel by (now apply lookup_lt_Some in Hk4).
  injection Hsel as <-. run. split; [|assumption].
  exists k, s. split; [reflexivity|]. split; [assumption|].
  rewrite O4; [assumption|].
  rewrite list.Forall_forall in Hall3. apply Hall3.
  eapply list_elem_of_lookup_2; eassumption.
Qed.

(** X20.  When [_restoreState] returns, the selected row holds a script
    with the text of the stored current script (the greeting, if none was
    stored), and every stored scratch script is in the list with its text,
    flagged as missing. *)
Theorem _restoreState_selects (data_dir : string)
    (glob : State -> string -> list string)
    (current_script : option (string * string))
    (other_scratch_scripts : list (string * string)) (st st' : State) :
  _restoreState data_dir glob current_script other_scratch_scripts st
    = (Ok tt, st') ->
  (exists i s,
      selected_row st' = Some i /\
      libraryList st' !! i = Some s /\
      _script (scripts st' s) =
        match current_script with
        | Some (text, _) => text
        | None => "print('Hello world!')"
        end) /\
  Forall (fun item =>
            exists s, s ∈ libraryList st' /\
                      _script (scripts st' s) = fst item /\
                      is_missing st' s = true)
         other_scratch_scripts.
Proof. apply _restoreState_Ok. Qed.


Lemma _restoreState_selects_witness :
  exists st',
    _restoreState "/d" glob_two (Some ("print(1)", "a.py")) [("notes", "notes.py")]
      st_fresh = (Ok tt, st') /\
    (exists i s,
        selected_row st' = Some i /\
        libraryList st' !! i = Some s /\
        _script (scripts st' s) = "print(1)") /\
    libraryList st' = [2; 3; 4] /\
    selected_row st' = Some 1.
Proof.
  assert (E : _restoreState "/d" glob_two (Some ("print(1)", "a.py"))
                [("notes", "notes.py")] st_fresh
              = (Ok tt, snd (_restoreState "/d" glob_two (Some ("print(1)", "a.py"))
                               [("notes", "notes.py")] st_fresh))).
  { vm_compute. reflexivity. }
  eexists. split; [exact E|].
  split; [exact (proj1 (_restoreState_selects _ _ _ _ _ _ E))|].
  split; vm_compute; reflexivity.
Defined.

Lemma _saveState_Ok (st st1 : State) (cur : string * string)
    (others : list (string * string)) :
  _saveState st = (Ok (cur, others), st1) ->
  fst cur = editor_text st /\
  forall j s,
    libraryList st !! j = Some s -> is_missing st s = true ->
    selected_row st <> Some j ->
    (_script (scripts st s), _filename (scripts st s)) ∈ others.
Proof.
  unfold _saveState, selectedScriptIndex. unfold bind at 1.
  destruct (selected_row st) as [i|] eqn:Hsel; [|discriminate].
  intros Hrun. apply bind_inv in Hrun as (script & st0 & Hget & Hrun).
  assert (st0 = st) as ->.
  { revert Hget. unfold getitem. run.
    destruct (py_index _ _); [|discriminate].
    destruct (libraryList st !! _); [congruence|discriminate]. }
  unfold bind, get, ret in Hrun. injection Hrun as <- <- <-.
  split; [reflexivity|].
  intros j s Hj Hm Hne.
  apply list_elem_of_omap. exists (j, s). split.
  - apply list_elem_of_lookup. exists j.
    now rewrite list_lookup_imap, Hj.
  - unfold is_missing in Hm. rewrite Hm.
    destruct (Nat.eqb_spec j i) as [->|_]; [congruence|reflexivity].
Qed.

(** X21.  What [_saveState] stores, [_restoreState] brings back, in any
    widget where it returns: the selected script has the text that was in
    the editor, and every other script that was flagged as missing is in
    the list with its text, flagged as missing. *)
Theorem _saveState_restored (data_dir : string)
    (glob : State -> string -> list string) (st st1 st2 st' : State)
    (cur : string * string) (others : list (string * string)) :
  _saveState st = (Ok (cur, others), st1) ->
  _restoreState data_dir glob (Some cur) others st2 = (Ok tt, st') ->
  (exists i s,
      selected_row st' = Some i /\
      libraryList st' !! i = Some s /\
      _script (scripts st' s) = editor_text st) /\
  (forall j s,
      libraryList st !! j = Some s -> is_missing st s = true ->
      selected_row st <> Some j ->
      exists s', s' ∈ libraryList st' /\
                 _script (scripts st' s') = _script (scripts st s) /\
                 is_missing st' s' = true).
Proof.
  intros Hsave Hrestore.
  destruct (_saveState_Ok st st1 cur others Hsave) as [Hcur Hothers].
  destruct (_restoreState_Ok _ _ _ _ _ _ Hrestore) as [Hsel Hall].
  split.
  - destruct Hsel as (i & s & H1 & H2 & H3). exists i, s.
    destruct cur as [text filename]. cbn [fst] in Hcur. subst text.
    now repeat split.
  - intros j s Hj Hm Hne.
    rewrite list.Forall_forall in Hall.
    exact (Hall _ (Hothers j s Hj Hm Hne)).
Qed.

Lemma _saveState_restored_witness :
  exists st',
    _restoreState "/d" glob_two (Some ("draft, edited", "scratch.py"))
      [("notes", "notes.py")] st_fresh = (Ok tt, st') /\
    (exists i s,
        selected_row st' = Some i /\
        libraryList st' !! i = Some s /\
        _script (scripts st' s) = "draft, edited") /\
    (exists s', s' ∈ libraryList st' /\
                _script (scripts st' s') = "notes" /\
                is_missing st' s' = true).
Proof.
  assert (E : _restoreState "/d" glob_two (Some ("draft, edited", "scratch.py"))
                [("notes", "notes.py")] st_fresh
              = (Ok tt, snd (_restoreState "/d" glob_two
                               (Some ("draft, edited", "scratch.py"))
                               [("notes", "notes.py")] st_fresh))).
  { vm_compute. reflexivity. }
  assert (S : _saveState st_session
              = (Ok (("draft, edited", "scratch.py"), [("notes", "notes.py")]),
                 st_session)).
  { vm_compute. reflexivity. }
  destruct (_saveState_restored "/d" glob_two st_session _ st_fresh _ _ _ S E)
    as [Hsel Hothers].
  eexists. split; [exact E|]. split; [exact Hsel|].
  apply (Hothers 1 1); [reflexivity | reflexivity | discriminate].
Defined.

(** ** Adding a script *)

(** X22.  [onAddScript] never raises: it appends one script with an empty
    text, flagged as missing, under a name that ends in [.py] and that no
    listed script has, and selects it, the last row.  No file is touched. *)
Theorem onAddScript_adds (data_dir : string) (st : State) :
  exists st' name,
    onAddScript data_dir st = (Ok tt, st') /\
    libraryList st' = (libraryList st ++ [next_script st])%list /\
    scripts st' (next_script st) = mkScript EmptyString name None 2 /\
    Py.endswith name ".py" = true /\
    (forall s, s ∈ libraryList st -> _filename (scripts st s) <> name) /\
    (forall s, s <> next_script st -> scripts st' s = scripts st s) /\
    selected_row st' = Some (length (libraryList st)) /\
    files st' = files st.
Proof.
  destruct (uniqueify_filename_plain (scripts st) (libraryList st) None
              DEFAULT_FILENAME eq_refl) as (name & Hname & Hfree & _).
  destruct (uniqueify_filename_Ok _ _ _ _ _ Hname) as [_ Hpy].
  unfold onAddScript, addScript, Script__init__, last_row. run.
  rewrite Hname. run.
  change (truthy (Z.land 2 MissingFromFilesystem)) with true. run.
  rewrite length_app. cbn [length].
  replace (Z.of_nat (length (libraryList st) + 1) - 1)%Z
    with (Z.of_nat (length (libraryList st))) by lia.
  pose proof (select_row_in_range
    (with_libraryList (libraryList st ++ [next_script st])
       (with_scripts
          (<[next_script st := mkScript EmptyString name None 2]> (scripts st))
          (S (next_script st)) st))
    (length (libraryList st))) as Hsel.
  revert Hsel. run. rewrite length_app. cbn [length]. intros Hsel.
  rewrite Hsel by lia.
  eexists. exists name. split; [reflexivity|]. run.
  split; [reflexivity|]. split; [reflexivity|]. split; [assumption|].
  split.
  { intros s Hs Heq. apply Hfree. rewrite <- Heq.
    now apply script_names_elem. }
  split; [|split; reflexivity].
  intros s Hs. now rewrite fn_lookup_insert_ne.
Qed.

Lemma onModificationChanged_flag_witness :
  exists st',
    onModificationChanged true st_two = (Ok tt, st') /\
    truthy (Z.land (flags (scripts st' 0)) Modified) = true /\
    scripts st' 1 = scripts st_two 1.
Proof.
  destruct (proj1 (onModificationChanged_flag st_two true) 0 0 eq_refl eq_refl)
    as (st' & Hrun & Hflag & _ & _ & _ & _ & Hothers & _).
  exists st'. split; [exact Hrun|]. split; [exact Hflag|].
  apply Hothers. discriminate.
Defined.

(** ** Saving and restoring the selected script *)

Lemma bindW_Ok {A B} (m : W A) (k : A -> W B) (w w1 : Widget) (a : A) :
  m w = (Ok a, w1) -> bindW m k w = k a w1.
Proof. intros E. unfold bindW. now rewrite E. Qed.

Lemma liftM_Ok {A} (m : M A) (w : Widget) (r : Res A) (st' : State) :
  m (state_of w) = (r, st') ->
  liftM m w = (r, mkWidget st' (restoreAction_isEnabled w) (Error_load_error w)).
Proof. intros E. unfold liftM. now rewrite E. Qed.

Lemma modified_flag_only_refl (s : ref) (st : State) :
  modified_flag_only s st st.
Proof. repeat split. Qed.

Lemma modified_flag_only_trans (s : ref) (st1 st2 st3 : State) :
  modified_flag_only s st1 st2 -> modified_flag_only s st2 st3 ->
  modified_flag_only s st1 st3.
Proof.
  intros (F1 & D1 & E1 & L1 & S1 & T1 & O1 & A1 & B1 & C1 & M1)
         (F2 & D2 & E2 & L2 & S2 & T2 & O2 & A2 & B2 & C2 & M2).
  repeat split; try congruence.
  intros r Hr. rewrite O2 by assumption. now apply O1.
Qed.

Lemma onModificationChanged_only (st : State) (modified : bool) (i : nat)
    (s : ref) :
  selected_row st = Some i -> libraryList st !! i = Some s ->
  exists st',
    onModificationChanged modified st = (Ok tt, st') /\
    modified_flag_only s st st' /\
    truthy (Z.land (flags (scripts st' s)) Modified) = modified.
Proof.
  intros Hsel Hi.
  unfold onModificationChanged, selectedScriptIndex.
  unfold bind at 1. rewrite Hsel.
  rewrite (bind_Ok _ _ _ _ _ (getitem_row st i s Hi)).
  destruct modified; run; (eexists; split; [reflexivity|]);
    unfold modified_flag_only; run.
  - split; [|apply land_or_modified].
    repeat split; [|apply land_or_modified_missing].
    intros r Hr. now rewrite fn_lookup_insert_ne by congruence.
  - split; [|now rewrite land_not_modified].
    repeat split; [|apply land_not_modified_missing].
    intros r Hr. now rewrite fn_lookup_insert_ne by congruence.
Qed.

Lemma for_onModificationChanged (signals : list bool) :
  forall (st : State) (i : nat) (s : ref),
    selected_row st = Some i -> libraryList st !! i = Some s ->
    exists st',
      for_ signals onModificationChanged st = (Ok tt, st') /\
      modified_flag_only s st st'.
Proof.
  induction signals as [|b signals IH]; intros st i s Hsel Hi.
  - exists st. split; [reflexivity | apply modified_flag_only_refl].
  - destruct (onModificationChanged_only st b i s Hsel Hi)
      as (st1 & Hrun1 & Honly1 & _).
    pose proof Honly1 as (_ & _ & _ & L1 & S1 & _).
    destruct (IH st1 i s) as (st2 & Hrun2 & Honly2);
      [congruence | congruence |].
    exists st2. split.
    + cbn [for_]. now rewrite (bind_Ok _ _ _ _ _ Hrun1).
    + now apply (modified_flag_only_trans s st st1 st2).
Qed.

Lemma set_script_saved (data_dir : string) (st : State) (s : ref)
    (text : string) :
  is_dir st (library_path data_dir (_filename (scripts st s))) = false ->
  dirname (library_path data_dir (_filename (scripts st s))) ∈ dirs st ->
  exists st',
    set_script data_dir s text st = (Ok tt, st') /\
    files st' = <[library_path data_dir (_filename (scripts st s)) := text]> (files st) /\
    dirs st' = dirs st /\
    emitted st' = emitted st /\
    libraryList st' = libraryList st /\
    selected_row st' = selected_row st /\
    editor_text st' = editor_text st /\
    (forall r, r <> s -> scripts st' r = scripts st r) /\
    _script (scripts st' s) = text /\
    _filename (scripts st' s) = _filename (scripts st s) /\
    fullname (scripts st' s)
      = Some (library_path data_dir (_filename (scripts st s))) /\
    truthy (Z.land (flags (scripts st' s)) Modified) = false /\
    truthy (Z.land (flags (scripts st' s)) MissingFromFilesystem) = false.
Proof.
  intros Hd Hp. unfold set_script, _save_script, open_write. run.
  rewrite Hd, bool_decide_eq_true_2 by assumption. run.
  eexists. split; [reflexivity|]. run.
  repeat split; [|apply cleared_modified | apply cleared_missing].
  intros r Hr. now rewrite !fn_lookup_insert_ne by congruence.
Qed.

Lemma commitChangesToLibrary_saves (data_dir : string) (w : Widget)
    (i : nat) (s : ref) (was_modified : bool) :
  selected_row (state_of w) = Some i ->
  libraryList (state_of w) !! i = Some s ->
  is_dir (state_of w)
    (library_path data_dir (_filename (scripts (state_of w) s))) = false ->
  dirname (library_path data_dir (_filename (scripts (state_of w) s)))
    ∈ dirs (state_of w) ->
  exists w1,
    commitChangesToLibrary data_dir was_modified w = (Ok tt, w1) /\
    restoreAction_isEnabled w1 = true /\
    Error_load_error w1 = Error_load_error w /\
    files (state_of w1)
      = <[library_path data_dir (_filename (scripts (state_of w) s))
            := editor_text (state_of w)]> (files (state_of w)) /\
    dirs (state_of w1) = dirs (state_of w) /\
    emitted (state_of w1)
      = (emitted (state_of w)
         ++ [scriptSaved (_filename (scripts (state_of w) s))
                         (editor_text (state_of w))])%list /\
    libraryList (state_of w1) = libraryList (state_of w) /\
    selected_row (state_of w1) = selected_row (state_of w) /\
    editor_text (state_of w1) = editor_text (state_of w) /\
    (forall r, r <> s -> scripts (state_of w1) r = scripts (state_of w) r) /\
    _script (scripts (state_of w1) s) = editor_text (state_of w) /\
    _filename (scripts (state_of w1) s) = _filename (scripts (state_of w) s) /\
    fullname (scripts (state_of w1) s)
      = Some (library_path data_dir (_filename (scripts (state_of w) s))) /\
    truthy (Z.land (flags (scripts (state_of w1) s)) Modified) = false /\
    truthy (Z.land (flags (scripts (state_of w1) s)) MissingFromFilesystem) = false.
Proof.
  destruct w as [st enabled err]. cbn [state_of]. intros Hsel Hi Hd Hp.
  unfold commitChangesToLibrary.
  unfold bindW at 1. unfold liftM at 1, selectedScriptIndex.
  cbn [state_of restoreAction_isEnabled Error_load_error]. rewrite Hsel.
  unfold bindW at 1. unfold liftM at 1, editor_text_get.
  cbn [state_of restoreAction_isEnabled Error_load_error].
  unfold bind at 1, get at 1, ret at 1.
  unfold bindW at 1. unfold liftM at 1.
  cbn [state_of restoreAction_isEnabled Error_load_error].
  rewrite (getitem_row st i s Hi).
  unfold bindW at 1.
  assert (Hen : update_saved_script_actions true (mkWidget st enabled err)
                = (Ok tt, mkWidget st true err)).
  { unfold update_saved_script_actions. cbn. now destruct enabled. }
  rewrite Hen. clear Hen.
  destruct (set_script_saved data_dir st s (editor_text st) Hd Hp)
    as (st1 & Hrun1 & F1 & D1 & E1 & L1 & S1 & T1 & O1 & A1 & B1 & C1 & M1 & N1).
  rewrite (bindW_Ok _ _ _ _ _ (liftM_Ok _ (mkWidget st true err) _ _ Hrun1)).
  cbn [state_of restoreAction_isEnabled Error_load_error].
  unfold bindW at 1. unfold liftM at 1, attr at 1.
  cbn [state_of restoreAction_isEnabled Error_load_error].
  unfold bindW at 1. unfold liftM at 1, emit at 1, modify at 1.
  cbn [state_of restoreAction_isEnabled Error_load_error].
  rewrite B1, E1.
  set (st2 := with_emitted _ st1).
  destruct was_modified; unfold setModified_False.
  - destruct (onModificationChanged_only st2 false i s)
      as (st3 & Hrun3 & (F3 & D3 & E3 & L3 & S3 & T3 & O3 & A3 & B3 & C3 & M3) & N3).
    { subst st2. run. congruence. }
    { subst st2. run. congruence. }
    rewrite (liftM_Ok (onModificationChanged false) (mkWidget st2 true err)
               _ _ Hrun3).
    eexists. split; [reflexivity|].
    cbn [state_of restoreAction_isEnabled Error_load_error].
    subst st2. revert F3 D3 E3 L3 S3 T3 O3 A3 B3 C3 M3. run.
    intros F3 D3 E3 L3 S3 T3 O3 A3 B3 C3 M3.
    rewrite F3, D3, E3, L3, S3, T3, A3, B3, C3, M3, N3.
    repeat split; try congruence.
    intros r Hr. rewrite O3 by assumption. now apply O1.
  - unfold liftM, ret. cbn [state_of restoreAction_isEnabled Error_load_error].
    eexists. split; [reflexivity|].
    cbn [state_of restoreAction_isEnabled Error_load_error].
    subst st2. run. repeat split; try congruence; assumption.
Qed.

Lemma update_saved_script_actions_sets (enabled : bool) (w : Widget) :
  update_saved_script_actions enabled w
  = (Ok tt, mkWidget (state_of w) enabled (Error_load_error w)).
Proof.
  unfold update_saved_script_actions. destruct w as [st en err]. cbn.
  now destruct en, enabled.
Qed.

(** What [restoreSaved] does once [reload] has run: [st] is the state that
    [reload] leaves and [found] its result. *)
Lemma restoreSaved_tail (signals : list bool) (st : State) (i : nat) (s : ref)
    (found en : bool) (err : option string) :
  selected_row st = Some i -> libraryList st !! i = Some s ->
  exists w1,
    (update_saved_script_actions found ;;
     text <- liftM (attr s _script) ;;
     liftM (modify (with_editor_text text)) ;;
     liftM (for_ signals onModificationChanged) ;;
     fl <- liftM (attr s flags) ;;
     liftM (set_attrs s (put_flags (Z.land fl (Z.lnot Modified)))))%W
      (mkWidget st en err) = (Ok tt, w1) /\
    restoreAction_isEnabled w1 = found /\
    Error_load_error w1 = err /\
    editor_text (state_of w1) = _script (scripts st s) /\
    files (state_of w1) = files st /\
    emitted (state_of w1) = emitted st /\
    libraryList (state_of w1) = libraryList st /\
    selected_row (state_of w1) = selected_row st /\
    (forall r, r <> s -> scripts (state_of w1) r = scripts st r) /\
    _script (scripts (state_of w1) s) = _script (scripts st s) /\
    _filename (scripts (state_of w1) s) = _filename (scripts st s) /\
    fullname (scripts (state_of w1) s) = fullname (scripts st s) /\
    truthy (Z.land (flags (scripts (state_of w1) s)) Modified) = false /\
    Z.land (flags (scripts (state_of w1) s)) MissingFromFilesystem
      = Z.land (flags (scripts st s)) MissingFromFilesystem.
Proof.
  intros Hsel Hi.
  unfold bindW at 1. rewrite update_saved_script_actions_sets.
  cbn [state_of restoreAction_isEnabled Error_load_error].
  unfold bindW at 1. unfold liftM at 1, attr at 1.
  cbn [state_of restoreAction_isEnabled Error_load_error].
  unfold bindW at 1. unfold liftM at 1, modify at 1.
  cbn [state_of restoreAction_isEnabled Error_load_error].
  set (st2 := with_editor_text _ st).
  destruct (for_onModificationChanged signals st2 i s)
    as (st3 & Hrun3 & (F3 & D3 & E3 & L3 & S3 & T3 & O3 & A3 & B3 & C3 & M3));
    [assumption | assumption |].
  rewrite (bindW_Ok _ _ _ _ _
             (liftM_Ok (for_ signals onModificationChanged)
                (mkWidget st2 found err) _ _ Hrun3)).
  unfold bindW, liftM, attr, set_attrs, modify.
  cbn [state_of restoreAction_isEnabled Error_load_error].
  eexists. split; [reflexivity|].
  cbn [state_of restoreAction_isEnabled Error_load_error].
  subst st2. revert F3 D3 E3 L3 S3 T3 O3 A3 B3 C3 M3. run.
  intros F3 D3 E3 L3 S3 T3 O3 A3 B3 C3 M3.
  rewrite land_not_modified, land_not_modified_missing.
  repeat split; try assumption.
  intros r Hr. rewrite fn_lookup_insert_ne by congruence. now apply O3.
Qed.

Lemma restoreSaved_start (signals : list bool) (w : Widget) (i : nat) (s : ref) :
  selected_row (state_of w) = Some i ->
  libraryList (state_of w) !! i = Some s ->
  restoreSaved signals w =
    (file_found <- liftM (reload s) ;;
     update_saved_script_actions file_found ;;
     text <- liftM (attr s _script) ;;
     liftM (modify (with_editor_text text)) ;;
     liftM (for_ signals onModificationChanged) ;;
     fl <- liftM (attr s flags) ;;
     liftM (set_attrs s (put_flags (Z.land fl (Z.lnot Modified)))))%W w.
Proof.
  destruct w as [st en err]. cbn [state_of]. intros Hsel Hi.
  unfold restoreSaved.
  unfold bindW at 1. unfold liftM at 1, selectedScriptIndex.
  cbn [state_of restoreAction_isEnabled Error_load_error]. rewrite Hsel.
  unfold bindW at 1. unfold liftM at 1.
  cbn [state_of restoreAction_isEnabled Error_load_error].
  now rewrite (getitem_row st i s Hi).
Qed.

Lemma reload_present (st : State) (s : ref) (p text : string) :
  fullname (scripts st s) = Some p ->
  files st !! p = Some text ->
  reload s st
  = (Ok true,
     with_scripts (<[s := put_script text (scripts st s)]> (scripts st))
                  (next_script st) st).
Proof.
  intros Hp Hf. unfold reload, open_read. run. rewrite Hp. run. rewrite Hf.
  rewrite bool_decide_eq_true_2 by (now eexists). cbn [orb negb]. run.
  now rewrite Hf.
Qed.

Lemma reload_absent (st : State) (s : ref) (p : string) :
  fullname (scripts st s) = Some p ->
  path_exists st p = false ->
  reload s st
  = (Ok false,
     with_scripts (<[s := put_flags MissingFromFilesystem (scripts st s)]> (scripts st))
                  (next_script st) st).
Proof.
  intros Hp Hf. unfold reload. run. rewrite Hp. run.
  unfold path_exists, is_file, is_dir in Hf. rewrite Hf. reflexivity.
Qed.

(** X23.  Committing the text of the editor for the selected script and
    then restoring the saved version gives back what was committed: after
    [commitChangesToLibrary] the file of the script holds the text of the
    editor and scriptSaved has been emitted with it; after [restoreSaved]
    the editor and the script still hold that text, the script is neither
    modified nor missing, no file has changed and the restore action is
    enabled, whatever signals Qt delivers in between. *)
Theorem commit_then_restoreSaved (data_dir : string) (w : Widget) (i : nat)
    (s : ref) (was_modified : bool) (signals : list bool) :
  selected_row (state_of w) = Some i ->
  libraryList (state_of w) !! i = Some s ->
  is_dir (state_of w)
    (library_path data_dir (_filename (scripts (state_of w) s))) = false ->
  dirname (library_path data_dir (_filename (scripts (state_of w) s)))
    ∈ dirs (state_of w) ->
  exists w1 w2,
    commitChangesToLibrary data_dir was_modified w = (Ok tt, w1) /\
    files (state_of w1)
      !! library_path data_dir (_filename (scripts (state_of w) s))
      = Some (editor_text (state_of w)) /\
    emitted (state_of w1)
      = (emitted (state_of w)
         ++ [scriptSaved (_filename (scripts (state_of w) s))
                         (editor_text (state_of w))])%list /\
    restoreSaved signals w1 = (Ok tt, w2) /\
    editor_text (state_of w2) = editor_text (state_of w) /\
    _script (scripts (state_of w2) s) = editor_text (state_of w) /\
    truthy (Z.land (flags (scripts (state_of w2) s)) Modified) = false /\
    truthy (Z.land (flags (scripts (state_of w2) s)) MissingFromFilesystem)
      = false /\
    files (state_of w2) = files (state_of w1) /\
    emitted (state_of w2) = emitted (state_of w1) /\
    restoreAction_isEnabled w2 = true.
Proof.
  intros Hsel Hi Hd Hp.
  destruct (commitChangesToLibrary_saves data_dir w i s was_modified Hsel Hi Hd Hp)
    as (w1 & Hrun1 & En1 & _ & F1 & D1 & E1 & L1 & S1 & T1 & O1 & A1 & B1 & C1
        & M1 & N1).
  set (p := library_path data_dir (_filename (scripts (state_of w) s))) in *.
  set (text := editor_text (state_of w)) in *.
  assert (Hfile : files (state_of w1) !! p = Some text).
  { rewrite F1. apply lookup_insert_eq. }
  assert (Hsel1 : selected_row (state_of w1) = Some i) by congruence.
  assert (Hi1 : libraryList (state_of w1) !! i = Some s) by congruence.
  destruct w1 as [st1 en1 err1]. cbn [state_of restoreAction_isEnabled] in *.
  pose proof (reload_present st1 s p text C1 Hfile) as Hreload.
  set (st2 := with_scripts _ (next_script st1) st1) in Hreload.
  destruct (restoreSaved_tail signals st2 i s true en1 err1)
    as (w2 & Hrun2 & En2 & _ & T2 & F2 & E2 & L2 & S2 & O2 & A2 & B2 & C2 & M2 & N2).
  { subst st2. run. assumption. }
  { subst st2. run. assumption. }
  exists (mkWidget st1 en1 err1), w2.
  split; [exact Hrun1|]. split; [exact Hfile|]. split; [exact E1|].
  split.
  { rewrite (restoreSaved_start signals (mkWidget st1 en1 err1) i s Hsel1 Hi1).
    rewrite (bindW_Ok _ _ _ _ _
               (liftM_Ok (reload s) (mkWidget st1 en1 err1) _ _ Hreload)).
    exact Hrun2. }
  subst st2. revert T2 F2 E2 A2 N2. run. intros T2 F2 E2 A2 N2.
  rewrite T2, A2, F2, E2.
  repeat split; try assumption.
  unfold truthy in *. now rewrite N2.
Qed.

Lemma commit_then_restoreSaved_witness :
  exists w1 w2,
    commitChangesToLibrary "/d" true w_two = (Ok tt, w1) /\
    files (state_of w1) !! a_py = Some "print(10)" /\
    emitted (state_of w1) = [scriptSaved "a.py" "print(10)"] /\
    restoreSaved [true; false] w1 = (Ok tt, w2) /\
    editor_text (state_of w2) = "print(10)" /\
    _script (scripts (state_of w2) 0) = "print(10)" /\
    restoreAction_isEnabled w2 = true.
Proof.
  destruct (commit_then_restoreSaved "/d" w_two 0 0 true [true; false])
    as (w1 & w2 & H1 & H2 & H3 & H4 & H5 & H6 & _ & _ & _ & _ & H7).
  - reflexivity.
  - reflexivity.
  - vm_compute. reflexivity.
  - apply (bool_decide_unpack _). vm_compute. reflexivity.
  - exists w1, w2. repeat split; assumption.
Defined.

(** X24.  [restoreSaved] for a selected script without a file.  If the
    file of the script is gone, the call returns: the script is flagged as
    missing and not as modified, its text in memory is kept and put into
    the editor, no file changes and the restore action is disabled.  If the
    script was never saved, the call raises TypeError and changes
    nothing. *)
Theorem restoreSaved_without_file (w : Widget) (i : nat) (s : ref)
    (signals : list bool) :
  selected_row (state_of w) = Some i ->
  libraryList (state_of w) !! i = Some s ->
  (forall p,
      fullname (scripts (state_of w) s) = Some p ->
      path_exists (state_of w) p = false ->
      exists w1,
        restoreSaved signals w = (Ok tt, w1) /\
        restoreAction_isEnabled w1 = false /\
        editor_text (state_of w1) = _script (scripts (state_of w) s) /\
        _script (scripts (state_of w1) s) = _script (scripts (state_of w) s) /\
        truthy (Z.land (flags (scripts (state_of w1) s)) MissingFromFilesystem)
          = true /\
        truthy (Z.land (flags (scripts (state_of w1) s)) Modified) = false /\
        files (state_of w1) = files (state_of w)) /\
  (fullname (scripts (state_of w) s) = None ->
   restoreSaved signals w = (Raise TypeError, w)).
Proof.
  intros Hsel Hi. split.
  - intros p Hp Hgone.
    destruct w as [st en err]. cbn [state_of] in *.
    pose proof (reload_absent st s p Hp Hgone) as Hreload.
    set (st2 := with_scripts _ (next_script st) st) in Hreload.
    destruct (restoreSaved_tail signals st2 i s false en err)
      as (w2 & Hrun2 & En2 & _ & T2 & F2 & E2 & L2 & S2 & O2 & A2 & B2 & C2 & M2 & N2).
    { subst st2. run. assumption. }
    { subst st2. run. assumption. }
    exists w2. split.
    { rewrite (restoreSaved_start signals (mkWidget st en err) i s Hsel Hi).
      rewrite (bindW_Ok _ _ _ _ _
                 (liftM_Ok (reload s) (mkWidget st en err) _ _ Hreload)).
      exact Hrun2. }
    subst st2. revert T2 F2 A2 N2. run. intros T2 F2 A2 N2.
    rewrite T2, A2, F2, N2. repeat split; assumption.
  - intros Hnone.
    rewrite (restoreSaved_start signals w i s Hsel Hi).
    unfold bindW at 1.
    rewrite (liftM_Ok (reload s) w _ _ (reload_never_saved _ s Hnone)).
    now destruct w.
Qed.

Lemma restoreSaved_without_file_witness :
  exists w1,
    restoreSaved [false] w_deleted = (Ok tt, w1) /\
    restoreAction_isEnabled w1 = false /\
    editor_text (state_of w1) = "1" /\
    truthy (Z.land (flags (scripts (state_of w1) 0)) MissingFromFilesystem) = true.
Proof.
  destruct (proj1 (restoreSaved_without_file w_deleted 0 0 [false] eq_refl eq_refl)
              x_py eq_refl)
    as (w1 & H1 & H2 & H3 & _ & H4 & _).
  - vm_compute. reflexivity.
  - exists w1. repeat split; assumption.
Defined.

(** ** Adding a script from a file *)





(** ** The documents of the scripts *)

Lemma documentForScript_step (st : State) (s : ref) :
  cache_ok st ->
  exists d st1,
    documentForScript (inl s) st = (Ok d, st1) /\
    cache_ok st1 /\
    _cachedDocuments st1 !! s = Some d /\
    scripts st1 = scripts st /\
    (forall s' d',
        _cachedDocuments st !! s' = Some d' ->
        _cachedDocuments st1 !! s' = Some d' /\
        documents st1 d' = documents st d').
Proof.
  intros [Hbound Hinj]. unfold documentForScript. run.
  destruct (_cachedDocuments st !! s) as [doc|] eqn:Hc.
  - rewrite bool_decide_eq_true_2 by (now exists doc). run. rewrite Hc.
    exists doc, st. repeat split; auto.
  - rewrite bool_decide_eq_false_2 by (intros [? ?]; discriminate). run.
    rewrite lookup_insert_eq.
    eexists; eexists. split; [reflexivity|]. unfold cache_ok. run.
    split; [split|split; [|split]].
    + intros s0 d. destruct (decide (s0 = s)) as [->|Hne].
      * rewrite lookup_insert_eq. intros [= <-]. lia.
      * rewrite lookup_insert_ne by congruence. intros H.
        specialize (Hbound _ _ H). lia.
    + intros s1 s2 d.
      destruct (decide (s1 = s)) as [->|Hne1];
        destruct (decide (s2 = s)) as [->|Hne2];
        rewrite ?lookup_insert_eq, ?lookup_insert_ne by congruence;
        try reflexivity.
      * intros [= <-] H. specialize (Hbound _ _ H). lia.
      * intros H [= <-]. specialize (Hbound _ _ H). lia.
      * apply Hinj.
    + apply lookup_insert_eq.
    + reflexivity.
    + intros s' d' H. pose proof (Hbound _ _ H) as Hlt.
      assert (s' <> s) by congruence.
      rewrite lookup_insert_ne by congruence.
      split; [assumption|]. apply fn_lookup_insert_ne. lia.
Qed.

(** X26.  With the cache of documents in order, [documentForScript] gives
    two different scripts two different documents, keeps the cache in
    order, and building the document of the second script leaves the
    document of the first one cached and unchanged. *)
Theorem documentForScript_distinct (st : State) (s1 s2 : ref) :
  cache_ok st -> s1 <> s2 ->
  exists d1 d2 st1 st2,
    documentForScript (inl s1) st = (Ok d1, st1) /\
    documentForScript (inl s2) st1 = (Ok d2, st2) /\
    d1 <> d2 /\
    cache_ok st2 /\
    _cachedDocuments st2 !! s1 = Some d1 /\
    documents st2 d1 = documents st1 d1.
Proof.
  intros Hok Hne.
  destruct (documentForScript_step st s1 Hok) as (d1 & st1 & R1 & Ok1 & C1 & _ & _).
  destruct (documentForScript_step st1 s2 Ok1) as (d2 & st2 & R2 & Ok2 & C2 & _ & K2).
  destruct (K2 s1 d1 C1) as [C1' D1'].
  exists d1, d2, st1, st2.
  split; [exact R1|]. split; [exact R2|]. split.
  { intros ->. destruct Ok2 as [_ Hinj]. apply Hne. exact (Hinj _ _ _ C1' C2). }
  split; [exact Ok2|]. split; [exact C1' | exact D1'].
Qed.

Lemma cache_ok_st_two : cache_ok st_two.
Proof.
  unfold cache_ok, st_two. cbn [_cachedDocuments next_document]. split.
  - intros s d H. apply lookup_singleton_Some in H as [_ <-]. lia.
  - intros s1 s2 d H1 H2.
    apply lookup_singleton_Some in H1 as [<- _].
    apply lookup_singleton_Some in H2 as [<- _]. reflexivity.
Qed.

Lemma documentForScript_distinct_witness :
  exists d1 d2 st1 st2,
    documentForScript (inl 0) st_two = (Ok d1, st1) /\
    documentForScript (inl 1) st1 = (Ok d2, st2) /\
    d1 <> d2 /\
    _cachedDocuments st2 !! 0 = Some d1.
Proof.
  destruct (documentForScript_distinct st_two 0 1 cache_ok_st_two)
    as (d1 & d2 & st1 & st2 & H1 & H2 & H3 & _ & H4 & _).
  - discriminate.
  - exists d1, d2, st1, st2. repeat split; assumption.
Defined.

(** ** Confirming a name without changing it *)

Lemma uniqueify_filename_free (scripts : ref -> Script) (model : list ref)
    (curr_script : option ref) (stem : string) :
  stem <> EmptyString ->
  Py.brace_free stem = true ->
  (stem ++ ".py" ∉ script_names scripts model curr_script) ->
  uniqueify_filename scripts model curr_script (stem ++ ".py")
  = Ok (stem ++ ".py").
Proof.
  intros Hne Hb Hfree.
  unfold uniqueify_filename. rewrite (stem_of_append_py stem Hne).
  rewrite (format_unescaped stem stem) by now apply unescape_brace_free.
  rewrite append_empty_r.
  now rewrite bool_decide_eq_false_2.
Qed.

(** X27.  In a list where no two scripts share a filename, confirming the
    name of a script as the editor of the row shows it changes nothing, if
    the name is a nonempty stem without braces followed by [.py]: no
    rename, no signal, the same state. *)
Theorem setModelData_same_name (data_dir : string) (st : State) (row : nat)
    (script : ref) (stem : string) :
  library_ok st ->
  libraryList st !! row = Some script ->
  _filename (scripts st script) = stem ++ ".py" ->
  stem <> EmptyString ->
  Py.brace_free stem = true ->
  setModelData data_dir (stem ++ ".py") row st = (Ok tt, st).
Proof.
  intros [_ Huniq] Hrow Hname Hne Hb.
  unfold setModelData.
  rewrite (bind_Ok _ _ _ _ _ (getitem_row st row script Hrow)).
  unfold bind at 1, get at 1.
  rewrite uniqueify_filename_free; try assumption.
  - unfold lift. unfold bind at 1.
    unfold set_filename. run. rewrite Hname, String.eqb_refl. reflexivity.
  - intros Hin. apply script_names_inv in Hin as (r & Hr & Hcur & Heq).
    apply Hcur. f_equal. apply Huniq; [assumption | | congruence].
    eapply list_elem_of_lookup_2; eassumption.
Qed.

Lemma setModelData_same_name_witness :
  setModelData "/d" "b.py" 1 st_two = (Ok tt, st_two).
Proof.
  apply (setModelData_same_name "/d" st_two 1 1 "b").
  - exact library_ok_st_two.
  - reflexivity.
  - reflexivity.
  - discriminate.
  - reflexivity.
Defined.

(** ** What removing a script does to the disk and the other widgets *)




